(** * KINETIC-OS: the gesture core, embedded and verified

    A shallow embedding of the signal-conditioning code ([cursor_math.py],
    [hand_engine.py]) and of the per-frame gesture arbiter ([main.py]) of
    KINETIC-OS, followed by the properties of the specification.

    Conventions of the embedding:
    - a Python [float] is a primitive binary64 float ([PrimFloat.float]), with
      the IEEE operations of the kernel; a Python [int] is a [Z];
    - an operation that can raise returns a [result]; the exceptions are the
      ones CPython raises ([IndexError], [KeyError], [ZeroDivisionError],
      [ValueError], [OverflowError]);
    - methods that mutate [self] are computations of the monad [Py], which
      threads the object, keeps the mutations done before an exception, and
      records the calls made to [pyautogui] in order;
    - what the interpreter takes from its platform (the C library's [pow]
      behind [x ** 2], the Unicode tables behind [str.lower]) is a field of
      the class [Platform]: the properties hold on every platform, and the
      worked examples at the end are evaluated on one of them. *)

From Stdlib Require Import ZArith List String Ascii Bool Lia Floats.
Import ListNotations.

Set Implicit Arguments.
Set Warnings "-inexact-float".
Local Open Scope Z_scope.

(** ** Python values and primitives *)

Inductive exn : Type :=
| IndexError
| KeyError
| ZeroDivisionError
| ValueError
| OverflowError.

Inductive result (A : Type) : Type :=
| Ok (a : A)
| Raise (e : exn).

Arguments Ok {A} a.
Arguments Raise {A} e.

Definition result_bind {A B} (r : result A) (k : A -> result B) : result B :=
  match r with
  | Ok a => k a
  | Raise e => Raise e
  end.

Declare Scope result_scope.
Delimit Scope result_scope with result.
Notation "x <- r ;; k" := (result_bind r (fun x => k))
  (at level 61, r at next level, right associativity) : result_scope.
Notation "' pat <- r ;; k" := (result_bind r (fun x => match x with pat => k end))
  (at level 61, pat pattern, r at next level, right associativity) : result_scope.

(** What the program takes from the platform it runs on and does not fix
    itself.  [libm_pow2 x] is the C library's [pow(x, 2.0)] for a finite
    [x > 0] other than 1, with the [errno] it leaves: the C standard does not
    require the result to be correctly rounded, and C libraries differ.
    [unicode_lower s] is [str.lower] on a string with characters outside
    ASCII, which follows the Unicode tables of the interpreter. *)
Inductive errno : Type :=
| ENONE
| ERANGE
| EDOM.

Class Platform : Type := {
  libm_pow2 : float -> float * errno;
  unicode_lower : string -> string
}.

Module PyFloat.

(** [float(n)] for an [int]: rounding to nearest even, [OverflowError] when
    the integer is too large for a binary64. *)
Definition of_int_round (n : Z) : float :=
  SF2Prim (binary_normalize prec emax n 0 false).

Definition of_int (n : Z) : result float :=
  let f := of_int_round n in
  if is_infinity f then Raise OverflowError else Ok f.

(** [int(x)] for a [float]: truncation toward zero; [ValueError] on a NaN
    and [OverflowError] on an infinity. *)
Definition to_int (x : float) : result Z :=
  match Prim2SF x with
  | S754_nan => Raise ValueError
  | S754_infinity _ => Raise OverflowError
  | S754_zero _ => Ok 0
  | S754_finite s m e =>
      let a := Z.shiftl (Zpos m) e in
      Ok (if s then - a else a)
  end.

(** [x / y]: [ZeroDivisionError] when the divisor is a zero of either sign. *)
Definition truediv (x y : float) : result float :=
  if (y =? 0)%float then Raise ZeroDivisionError else Ok (x / y)%float.

Section Power.
Context {platform : Platform}.

(** [x ** 2], as [float_pow] of CPython computes it with the exponent 2.0.
    A NaN, an infinity, a zero and 1 or -1 are answered without the C
    library; otherwise [pow] is called on the absolute value, [errno] is
    adjusted ([_Py_ADJUST_ERANGE1]: an infinite result counts as a range
    error, a range error with a zero result does not count), and a remaining
    range error raises [OverflowError], any other [ValueError]. *)
Definition pow2_answer (x : float) : float * errno :=
  if is_nan x then (x, ENONE)
  else if is_infinity x then (abs x, ENONE)
  else if (x =? 0)%float then (0%float, ENONE)
  else
    let iv := if (x <? 0)%float then (- x)%float else x in
    if (iv =? 1)%float then (1%float, ENONE)
    else
      let '(ix, e) := libm_pow2 iv in
      (ix, match e with
           | ENONE => if is_infinity ix then ERANGE else ENONE
           | ERANGE => if (ix =? 0)%float then ENONE else ERANGE
           | EDOM => EDOM
           end).

(** The value of [x ** 2] when it returns. *)
Definition square (x : float) : float := fst (pow2_answer x).

Definition pow2 (x : float) : result float :=
  match snd (pow2_answer x) with
  | ENONE => Ok (square x)
  | ERANGE => Raise OverflowError
  | EDOM => Raise ValueError
  end.

End Power.

(** [math.sqrt(x)]: [ValueError] on a negative argument. *)
Definition math_sqrt (x : float) : result float :=
  if (x <? 0)%float then Raise ValueError else Ok (sqrt x).

(** The builtins [min(a, b)] and [max(a, b)] on two arguments: the first
    argument is kept unless the second compares strictly better. *)
Definition min (a b : float) : float := if (b <? a)%float then b else a.
Definition max (a b : float) : float := if (a <? b)%float then b else a.

End PyFloat.

Module PyInt.
Definition min (a b : Z) : Z := if b <? a then b else a.
Definition max (a b : Z) : Z := if a <? b then b else a.
End PyInt.

(** [l[i]] on a list, with Python's negative indices. *)
Definition getitem {A} (l : list A) (i : Z) : result A :=
  let n := Z.of_nat (List.length l) in
  let j := if i <? 0 then i + n else i in
  if (j <? 0) || (n <=? j) then Raise IndexError
  else match nth_error l (Z.to_nat j) with
       | Some a => Ok a
       | None => Raise IndexError
       end.

(** A [dict] literal with string keys, read with [d[k]]. *)
Fixpoint dict_get {V} (d : list (string * V)) (k : string) : result V :=
  match d with
  | [] => Raise KeyError
  | (k', v) :: d' => if String.eqb k' k then Ok v else dict_get d' k
  end.

(** A [str] is held as the bytes of its UTF-8 encoding, so it is made of
    ASCII characters exactly when every byte is below 128. *)
Fixpoint is_ascii (s : string) : bool :=
  match s with
  | EmptyString => true
  | String c s' => Nat.ltb (nat_of_ascii c) 128 && is_ascii s'
  end.

(** [str.lower] on the ASCII letters. *)
Definition lower_ascii (c : ascii) : ascii :=
  let n := nat_of_ascii c in
  if (Nat.leb 65 n && Nat.leb n 90)%bool then ascii_of_nat (n + 32) else c.

Fixpoint ascii_lower (s : string) : string :=
  match s with
  | EmptyString => EmptyString
  | String c s' => String (lower_ascii c) (ascii_lower s')
  end.

(** [s.lower()]: on a string of ASCII characters the letters A to Z become
    a to z and nothing else changes; on any other string the result is the
    interpreter's. *)
Definition lower {platform : Platform} (s : string) : string :=
  if is_ascii s then ascii_lower s else unicode_lower s.

(** ** config.py *)

Module config.
Definition SMOOTHING_FACTOR : Z := 6.
Definition ACTIVE_REGION_X_START : float := 0.2%float.
Definition ACTIVE_REGION_X_END : float := 0.8%float.
Definition ACTIVE_REGION_Y_START : float := 0.2%float.
Definition ACTIVE_REGION_Y_END : float := 0.8%float.
Definition CLICK_THRESHOLD : float := 0.05%float.
Definition SCROLL_SENSITIVITY : Z := 10.
Definition FAILSAFE_X_END : Z := 100.
Definition FAILSAFE_Y_END : Z := 100.
Definition CLICK_DEBOUNCE_TIME : float := 0.3%float.
Definition SCROLL_DEBOUNCE_TIME : float := 0.05%float.
Definition MODE_ACTIVE : string := "ACTIVE".
Definition MODE_SCROLL : string := "SCROLL".
Definition MODE_IDLE : string := "IDLE".
End config.

(** ** hand_engine.py *)

Definition Landmark : Type := float * float * float.

Definition lm_x (p : Landmark) : float := fst (fst p).
Definition lm_y (p : Landmark) : float := snd (fst p).
Definition lm_z (p : Landmark) : float := snd p.

(** [HandLandmarks]: the landmark list and the handedness label (the raw
    MediaPipe object kept for drawing plays no part in the core). *)
Record HandLandmarks : Type := mkHandLandmarks {
  landmarks : list Landmark;
  handedness : string
}.

Module HandEngine.
Definition WRIST : Z := 0.
Definition THUMB_CMC : Z := 1.
Definition THUMB_MCP : Z := 2.
Definition THUMB_IP : Z := 3.
Definition THUMB_TIP : Z := 4.
Definition INDEX_FINGER_MCP : Z := 5.
Definition INDEX_FINGER_PIP : Z := 6.
Definition INDEX_FINGER_DIP : Z := 7.
Definition INDEX_FINGER_TIP : Z := 8.
Definition MIDDLE_FINGER_MCP : Z := 9.
Definition MIDDLE_FINGER_PIP : Z := 10.
Definition MIDDLE_FINGER_DIP : Z := 11.
Definition MIDDLE_FINGER_TIP : Z := 12.
Definition RING_FINGER_MCP : Z := 13.
Definition RING_FINGER_PIP : Z := 14.
Definition RING_FINGER_DIP : Z := 15.
Definition RING_FINGER_TIP : Z := 16.
Definition PINKY_MCP : Z := 17.
Definition PINKY_PIP : Z := 18.
Definition PINKY_DIP : Z := 19.
Definition PINKY_TIP : Z := 20.

Section Methods.
Context {platform : Platform}.

Local Open Scope result_scope.
Local Open Scope string_scope.

Definition get_landmark (hand_data : HandLandmarks) (landmark_id : Z)
  : result Landmark :=
  getitem (landmarks hand_data) landmark_id.

Definition finger_tips : list (string * Z) :=
  [ ("thumb", THUMB_TIP); ("index", INDEX_FINGER_TIP);
    ("middle", MIDDLE_FINGER_TIP); ("ring", RING_FINGER_TIP);
    ("pinky", PINKY_TIP) ].

Definition get_fingertip (hand_data : HandLandmarks) (finger : string)
  : result Landmark :=
  tip_id <- dict_get finger_tips (lower finger) ;;
  get_landmark hand_data tip_id.

Definition finger_joints : list (string * (Z * Z * Z)) :=
  [ ("index", (INDEX_FINGER_TIP, INDEX_FINGER_PIP, INDEX_FINGER_MCP));
    ("middle", (MIDDLE_FINGER_TIP, MIDDLE_FINGER_PIP, MIDDLE_FINGER_MCP));
    ("ring", (RING_FINGER_TIP, RING_FINGER_PIP, RING_FINGER_MCP));
    ("pinky", (PINKY_TIP, PINKY_PIP, PINKY_MCP)) ].

(** [np.sqrt(dx**2 + dy**2)] on two Python floats. *)
Definition np_hypot (dx dy : float) : result float :=
  a <- PyFloat.pow2 dx ;;
  b <- PyFloat.pow2 dy ;;
  Ok (sqrt (a + b))%float.

Definition is_finger_curled (hand_data : HandLandmarks) (finger : string)
  : result bool :=
  '(tip_idx, pip_idx, mcp_idx) <- dict_get finger_joints (lower finger) ;;
  tip <- getitem (landmarks hand_data) tip_idx ;;
  pip <- getitem (landmarks hand_data) pip_idx ;;
  mcp <- getitem (landmarks hand_data) mcp_idx ;;
  tip_to_mcp <- np_hypot (lm_x tip - lm_x mcp) (lm_y tip - lm_y mcp) ;;
  pip_to_mcp <- np_hypot (lm_x pip - lm_x mcp) (lm_y pip - lm_y mcp) ;;
  Ok (tip_to_mcp <? pip_to_mcp * 1.2)%float.

(** [all(f(x) for x in xs)]: the generator is consumed up to the first
    false value, and an exception of [f] ends it. *)
Fixpoint py_all {A} (f : A -> result bool) (xs : list A) : result bool :=
  match xs with
  | [] => Ok true
  | x :: xs' => b <- f x ;; if b then py_all f xs' else Ok false
  end.

Definition fingers : list string := ["index"; "middle"; "ring"; "pinky"].

Definition is_fist (hand_data : HandLandmarks) : result bool :=
  py_all (is_finger_curled hand_data) fingers.

End Methods.

End HandEngine.

(** ** pyautogui, and the monad of the stateful methods *)

(** The calls made to the action executor. *)
Inductive Action : Type :=
| moveTo (x y : Z)
| click (button : string)
| scroll (clicks : Z).

(** A computation on an object of type [S]: it returns or raises, leaves the
    object in its state at that point, and lists the [pyautogui] calls made. *)
Definition Py (S A : Type) : Type := S -> result A * S * list Action.

Definition ret {S A} (a : A) : Py S A := fun s => (Ok a, s, []).

Definition bind {S A B} (m : Py S A) (k : A -> Py S B) : Py S B :=
  fun s =>
    match m s with
    | (Ok a, s1, o1) => let '(r, s2, o2) := k a s1 in (r, s2, o1 ++ o2)
    | (Raise e, s1, o1) => (Raise e, s1, o1)
    end.

Definition try {S A} (r : result A) : Py S A := fun s => (r, s, []).
Definition get {S} : Py S S := fun s => (Ok s, s, []).
Definition modify {S} (f : S -> S) : Py S unit := fun s => (Ok tt, f s, []).
Definition emit {S} (a : Action) : Py S unit := fun s => (Ok tt, s, [a]).

Definition when {S} (b : bool) (m : Py S unit) : Py S unit :=
  if b then m else ret tt.

Declare Scope py_scope.
Delimit Scope py_scope with py.
Notation "x <- m ;; k" := (bind m (fun x => k))
  (at level 61, m at next level, right associativity) : py_scope.
Notation "' pat <- m ;; k" := (bind m (fun x => match x with pat => k end))
  (at level 61, pat pattern, m at next level, right associativity) : py_scope.
Notation "m ;; k" := (bind m (fun _ => k))
  (at level 61, right associativity) : py_scope.

Definition returned {S A} (o : result A * S * list Action) : result A := fst (fst o).
Definition state_of {S A} (o : result A * S * list Action) : S := snd (fst o).
Definition emitted {S A} (o : result A * S * list Action) : list Action := snd o.

(** ** cursor_math.py *)

Record CursorMath : Type := mkCursorMath {
  screen_width : Z;
  screen_height : Z;
  _prev_x : option float;
  _prev_y : option float;
  _prev_scroll_y : option float;
  active_x_start : float;
  active_x_end : float;
  active_y_start : float;
  active_y_end : float
}.

Module CursorMath.

Definition __init__ (screen_width screen_height : Z) : CursorMath :=
  {| screen_width := screen_width;
     screen_height := screen_height;
     _prev_x := None;
     _prev_y := None;
     _prev_scroll_y := None;
     active_x_start := config.ACTIVE_REGION_X_START;
     active_x_end := config.ACTIVE_REGION_X_END;
     active_y_start := config.ACTIVE_REGION_Y_START;
     active_y_end := config.ACTIVE_REGION_Y_END |}.

Definition set_prev (x y : option float) (self : CursorMath) : CursorMath :=
  {| screen_width := screen_width self;
     screen_height := screen_height self;
     _prev_x := x;
     _prev_y := y;
     _prev_scroll_y := _prev_scroll_y self;
     active_x_start := active_x_start self;
     active_x_end := active_x_end self;
     active_y_start := active_y_start self;
     active_y_end := active_y_end self |}.

Definition set_prev_scroll_y (y : option float) (self : CursorMath) : CursorMath :=
  {| screen_width := screen_width self;
     screen_height := screen_height self;
     _prev_x := _prev_x self;
     _prev_y := _prev_y self;
     _prev_scroll_y := y;
     active_x_start := active_x_start self;
     active_x_end := active_x_end self;
     active_y_start := active_y_start self;
     active_y_end := active_y_end self |}.

Local Open Scope py_scope.

(** [x / n] and [x * n] with an [int] operand, which is converted first. *)
Definition truediv_int (x : float) (n : Z) : result float :=
  result_bind (PyFloat.of_int n) (fun d => PyFloat.truediv x d).

Definition mul_int (x : float) (n : Z) : result float :=
  result_bind (PyFloat.of_int n) (fun d => Ok (x * d)%float).

Definition smooth_position (raw_x raw_y : float) : Py CursorMath (float * float) :=
  self <- get ;;
  match _prev_x self, _prev_y self with
  | Some prev_x, Some prev_y =>
      let smoothing := config.SMOOTHING_FACTOR in
      qx <- try (truediv_int (raw_x - prev_x) smoothing) ;;
      let smoothed_x := (prev_x + qx)%float in
      qy <- try (truediv_int (raw_y - prev_y) smoothing) ;;
      let smoothed_y := (prev_y + qy)%float in
      modify (set_prev (Some smoothed_x) (Some smoothed_y)) ;;
      ret (smoothed_x, smoothed_y)
  | _, _ =>
      modify (set_prev (Some raw_x) (Some raw_y)) ;;
      ret (raw_x, raw_y)
  end.

Definition map_to_screen (self : CursorMath) (norm_x norm_y : float)
  : result (Z * Z) :=
  let clamped_x :=
    PyFloat.max (active_x_start self) (PyFloat.min (active_x_end self) norm_x) in
  let clamped_y :=
    PyFloat.max (active_y_start self) (PyFloat.min (active_y_end self) norm_y) in
  let active_width := (active_x_end self - active_x_start self)%float in
  let active_height := (active_y_end self - active_y_start self)%float in
  (mapped_x <- PyFloat.truediv (clamped_x - active_x_start self) active_width ;;
   mapped_y <- PyFloat.truediv (clamped_y - active_y_start self) active_height ;;
   let mapped_x := (1.0 - mapped_x)%float in
   fx <- mul_int mapped_x (screen_width self) ;;
   screen_x <- PyFloat.to_int fx ;;
   fy <- mul_int mapped_y (screen_height self) ;;
   screen_y <- PyFloat.to_int fy ;;
   let screen_x := PyInt.max 0 (PyInt.min (screen_width self - 1) screen_x) in
   let screen_y := PyInt.max 0 (PyInt.min (screen_height self - 1) screen_y) in
   Ok (screen_x, screen_y))%result.

Definition euclidean_distance (point1 point2 : Landmark) : result float :=
  let dx := (lm_x point1 - lm_x point2)%float in
  let dy := (lm_y point1 - lm_y point2)%float in
  PyFloat.math_sqrt (dx * dx + dy * dy)%float.

Definition is_click (thumb_tip finger_tip : Landmark) : result bool :=
  (distance <- euclidean_distance thumb_tip finger_tip ;;
   Ok (distance <? config.CLICK_THRESHOLD)%float)%result.

Definition calculate_scroll_delta (current_y : float) : Py CursorMath Z :=
  self <- get ;;
  match _prev_scroll_y self with
  | None =>
      modify (set_prev_scroll_y (Some current_y)) ;;
      ret 0
  | Some prev_scroll_y =>
      d <- try (mul_int (current_y - prev_scroll_y) config.SCROLL_SENSITIVITY) ;;
      delta <- try (mul_int d 100) ;;
      modify (set_prev_scroll_y (Some current_y)) ;;
      try (PyFloat.to_int delta)
  end.

Definition reset_scroll_reference : Py CursorMath unit :=
  modify (set_prev_scroll_y None).

Definition is_in_failsafe_region (screen_x screen_y : Z) : bool :=
  (screen_x <? config.FAILSAFE_X_END) && (screen_y <? config.FAILSAFE_Y_END).

Definition reset_smoothing : Py CursorMath unit :=
  modify (set_prev None None).

End CursorMath.

(** [FPSCounter]: the frame-rate meter of the overlay. *)
Record FPSCounter : Type := mkFPSCounter {
  _times : list float;
  _sample_size : Z;
  _last_time : option float
}.

Module FPSCounter.

Definition __init__ (sample_size : Z) : FPSCounter :=
  {| _times := []; _sample_size := sample_size; _last_time := None |}.

Definition set_times (v : list float) (self : FPSCounter) : FPSCounter :=
  {| _times := v; _sample_size := _sample_size self; _last_time := _last_time self |}.

Definition set_last_time (v : option float) (self : FPSCounter) : FPSCounter :=
  {| _times := _times self; _sample_size := _sample_size self; _last_time := v |}.

(** [l.pop(0)] for its effect on the list: [IndexError] on an empty list. *)
Definition pop0 (l : list float) : result (list float) :=
  match l with
  | [] => Raise IndexError
  | _ :: l' => Ok l'
  end.

Section Tick.

(** The builtin [sum] on a list of floats.  Its rounding is not the same in
    all versions of CPython (a plain left-to-right sum before 3.12, a
    compensated one since), so [tick] is given over any such function. *)
Variable py_sum : list float -> float.

Local Open Scope py_scope.

Definition tick (current_time : float) : Py FPSCounter float :=
  self <- get ;;
  match _last_time self with
  | Some last_time =>
      let delta := (current_time - last_time)%float in
      when (0 <? delta)%float
        (modify (fun s => set_times (_times s ++ [delta]) s) ;;
         self <- get ;;
         when (_sample_size self <? Z.of_nat (List.length (_times self)))
           (rest <- try (pop0 (_times self)) ;;
            modify (set_times rest)))
  | None => ret tt
  end ;;
  modify (set_last_time (Some current_time)) ;;
  self <- get ;;
  match _times self with
  | [] => ret 0%float
  | _ :: _ =>
      avg_delta <- try (CursorMath.truediv_int (py_sum (_times self))
                          (Z.of_nat (List.length (_times self)))) ;;
      if (0 <? avg_delta)%float then try (PyFloat.truediv 1 avg_delta)
      else ret 0%float
  end.

End Tick.

End FPSCounter.

(** ** main.py *)

(** The state of [KineticOS] that the gesture core reads and writes (camera,
    overlay and frame counter are plumbing). *)
Record KineticOS : Type := mkKineticOS {
  cursor_math : CursorMath;
  current_mode : string;
  last_left_click_time : float;
  last_right_click_time : float;
  last_scroll_time : float;
  is_left_clicking : bool;
  is_right_clicking : bool;
  is_scrolling : bool;
  click_indicator : option (string * (Z * Z));
  click_indicator_time : float
}.

(** The outcome of one turn of the loop of [run]. *)
Inductive LoopStep : Type :=
| Continue (scroll_delta : Z)
| Break.

Module KineticOS.

Definition __init__ (screen_width screen_height : Z) : KineticOS :=
  {| cursor_math := CursorMath.__init__ screen_width screen_height;
     current_mode := config.MODE_IDLE;
     last_left_click_time := 0%float;
     last_right_click_time := 0%float;
     last_scroll_time := 0%float;
     is_left_clicking := false;
     is_right_clicking := false;
     is_scrolling := false;
     click_indicator := None;
     click_indicator_time := 0%float |}.

Definition set_cursor_math (v : CursorMath) (self : KineticOS) : KineticOS :=
  mkKineticOS v (current_mode self) (last_left_click_time self)
    (last_right_click_time self) (last_scroll_time self) (is_left_clicking self)
    (is_right_clicking self) (is_scrolling self) (click_indicator self)
    (click_indicator_time self).

Definition set_current_mode (v : string) (self : KineticOS) : KineticOS :=
  mkKineticOS (cursor_math self) v (last_left_click_time self)
    (last_right_click_time self) (last_scroll_time self) (is_left_clicking self)
    (is_right_clicking self) (is_scrolling self) (click_indicator self)
    (click_indicator_time self).

Definition set_last_left_click_time (v : float) (self : KineticOS) : KineticOS :=
  mkKineticOS (cursor_math self) (current_mode self) v
    (last_right_click_time self) (last_scroll_time self) (is_left_clicking self)
    (is_right_clicking self) (is_scrolling self) (click_indicator self)
    (click_indicator_time self).

Definition set_last_right_click_time (v : float) (self : KineticOS) : KineticOS :=
  mkKineticOS (cursor_math self) (current_mode self) (last_left_click_time self)
    v (last_scroll_time self) (is_left_clicking self)
    (is_right_clicking self) (is_scrolling self) (click_indicator self)
    (click_indicator_time self).

Definition set_last_scroll_time (v : float) (self : KineticOS) : KineticOS :=
  mkKineticOS (cursor_math self) (current_mode self) (last_left_click_time self)
    (last_right_click_time self) v (is_left_clicking self)
    (is_right_clicking self) (is_scrolling self) (click_indicator self)
    (click_indicator_time self).

Definition set_is_left_clicking (v : bool) (self : KineticOS) : KineticOS :=
  mkKineticOS (cursor_math self) (current_mode self) (last_left_click_time self)
    (last_right_click_time self) (last_scroll_time self) v
    (is_right_clicking self) (is_scrolling self) (click_indicator self)
    (click_indicator_time self).

Definition set_is_right_clicking (v : bool) (self : KineticOS) : KineticOS :=
  mkKineticOS (cursor_math self) (current_mode self) (last_left_click_time self)
    (last_right_click_time self) (last_scroll_time self) (is_left_clicking self)
    v (is_scrolling self) (click_indicator self)
    (click_indicator_time self).

Definition set_is_scrolling (v : bool) (self : KineticOS) : KineticOS :=
  mkKineticOS (cursor_math self) (current_mode self) (last_left_click_time self)
    (last_right_click_time self) (last_scroll_time self) (is_left_clicking self)
    (is_right_clicking self) v (click_indicator self)
    (click_indicator_time self).

Definition set_click_indicator (v : option (string * (Z * Z))) (t : float)
    (self : KineticOS) : KineticOS :=
  mkKineticOS (cursor_math self) (current_mode self) (last_left_click_time self)
    (last_right_click_time self) (last_scroll_time self) (is_left_clicking self)
    (is_right_clicking self) (is_scrolling self) v t.

(** A method call on [self.cursor_math]. *)
Definition on_cursor_math {A} (m : Py CursorMath A) : Py KineticOS A :=
  fun self =>
    let '(r, cm, o) := m (cursor_math self) in (r, set_cursor_math cm self, o).

Section Methods.
Context {platform : Platform}.

Local Open Scope py_scope.
Local Open Scope string_scope.

Definition _check_left_click (hand_data : HandLandmarks) : result bool :=
  (thumb_tip <- HandEngine.get_fingertip hand_data "thumb" ;;
   index_tip <- HandEngine.get_fingertip hand_data "index" ;;
   CursorMath.is_click thumb_tip index_tip)%result.

Definition _check_right_click (hand_data : HandLandmarks) : result bool :=
  (thumb_tip <- HandEngine.get_fingertip hand_data "thumb" ;;
   middle_tip <- HandEngine.get_fingertip hand_data "middle" ;;
   CursorMath.is_click thumb_tip middle_tip)%result.

(** The value by which [_process_gestures] asks its caller to exit. *)
Definition EXIT_CODE : Z := -999.

Definition _process_gestures (hand_data : HandLandmarks) (current_time : float)
  : Py KineticOS Z :=
  let scroll_delta := 0 in
  index_tip <- try (HandEngine.get_fingertip hand_data "index") ;;
  '(smooth_x, smooth_y) <-
    on_cursor_math (CursorMath.smooth_position (lm_x index_tip) (lm_y index_tip)) ;;
  self <- get ;;
  '(screen_x, screen_y) <-
    try (CursorMath.map_to_screen (cursor_math self) smooth_x smooth_y) ;;
  if CursorMath.is_in_failsafe_region screen_x screen_y then
    ret EXIT_CODE
  else
    fist <- try (HandEngine.is_fist hand_data) ;;
    if fist then
      modify (set_current_mode config.MODE_SCROLL) ;;
      self <- get ;;
      when (negb (is_scrolling self))
        (modify (set_is_scrolling true) ;;
         on_cursor_math CursorMath.reset_scroll_reference) ;;
      wrist <- try (HandEngine.get_landmark hand_data HandEngine.WRIST) ;;
      scroll_delta <- on_cursor_math (CursorMath.calculate_scroll_delta (lm_y wrist)) ;;
      self <- get ;;
      let debounce_ok :=
        (config.SCROLL_DEBOUNCE_TIME <? current_time - last_scroll_time self)%float in
      when ((0 <? Z.abs scroll_delta)%Z && debounce_ok)
        (emit (scroll (- scroll_delta)) ;;
         modify (set_last_scroll_time current_time)) ;;
      ret scroll_delta
    else
      modify (set_is_scrolling false) ;;
      modify (set_current_mode config.MODE_ACTIVE) ;;
      emit (moveTo screen_x screen_y) ;;
      is_left <- try (_check_left_click hand_data) ;;
      self <- get ;;
      when (is_left && negb (is_left_clicking self))
        (let elapsed := (current_time - last_left_click_time self)%float in
         when (config.CLICK_DEBOUNCE_TIME <? elapsed)%float
           (emit (click "left") ;;
            modify (set_last_left_click_time current_time) ;;
            modify (set_click_indicator (Some ("LEFT", (screen_x, screen_y)))
                      current_time))) ;;
      modify (set_is_left_clicking is_left) ;;
      is_right <- try (_check_right_click hand_data) ;;
      self <- get ;;
      when (is_right && negb (is_right_clicking self))
        (let elapsed := (current_time - last_right_click_time self)%float in
         when (config.CLICK_DEBOUNCE_TIME <? elapsed)%float
           (emit (click "right") ;;
            modify (set_last_right_click_time current_time) ;;
            modify (set_click_indicator (Some ("RIGHT", (screen_x, screen_y)))
                      current_time))) ;;
      modify (set_is_right_clicking is_right) ;;
      ret scroll_delta.

(** One turn of the loop of [run], from the landmark source's answer for the
    frame and the time read at the top of the turn. *)
Definition run_frame (hand_data : option HandLandmarks) (current_time : float)
  : Py KineticOS LoopStep :=
  match hand_data with
  | Some hd =>
      result <- _process_gestures hd current_time ;;
      if (result =? EXIT_CODE)%Z then ret Break
      else
        self <- get ;;
        when (match click_indicator self with Some _ => true | None => false end
              && (0.3 <? current_time - click_indicator_time self)%float)
          (modify (set_click_indicator None (click_indicator_time self))) ;;
        ret (Continue result)
  | None =>
      modify (set_current_mode config.MODE_IDLE) ;;
      on_cursor_math CursorMath.reset_smoothing ;;
      modify (set_is_left_clicking false) ;;
      modify (set_is_right_clicking false) ;;
      modify (set_is_scrolling false) ;;
      self <- get ;;
      when (match click_indicator self with Some _ => true | None => false end
            && (0.3 <? current_time - click_indicator_time self)%float)
        (modify (set_click_indicator None (click_indicator_time self))) ;;
      ret (Continue 0)
  end.

(** [run] on the frames the loop gets before it ends: the loop leaves on
    [Break] and on an exception, which no handler of [run] catches. *)
Fixpoint run (frames : list (option HandLandmarks * float)) : Py KineticOS unit :=
  match frames with
  | [] => ret tt
  | (hand_data, current_time) :: frames' =>
      step <- run_frame hand_data current_time ;;
      match step with
      | Break => ret tt
      | Continue _ => run frames'
      end
  end.

End Methods.

End KineticOS.

(** * Derived notions

    The vocabulary of the statements: values read off the model (the filter's
    output, the pointer of a frame), the branches of [_process_gestures]
    written out, sample frames, and the steps of the map in the words of the
    specification. *)

Import KineticOS.

Section Notions.
Context {platform : Platform}.

Definition smoothing_k : float := PyFloat.of_int_round config.SMOOTHING_FACTOR.

Definition scroll_gain : float := PyFloat.of_int_round config.SCROLL_SENSITIVITY.

(** The value the filter produces from a state: the raw point when the state
    is unset, one step of the one-pole filter otherwise. *)
Definition smoothed (self : CursorMath) (raw_x raw_y : float) : float * float :=
  match _prev_x self, _prev_y self with
  | Some prev_x, Some prev_y =>
      ((prev_x + (raw_x - prev_x) / 6)%float, (prev_y + (raw_y - prev_y) / 6)%float)
  | _, _ => (raw_x, raw_y)
  end.

(** The delta between a reference and the current wrist height. *)
Definition scroll_delta_of (reference_y current_y : float) : result Z :=
  PyFloat.to_int ((current_y - reference_y) * scroll_gain * 100)%float.

(** The smoothed, screen-mapped index-fingertip position of a frame: what
    [_process_gestures] computes before any decision. *)
Definition pointer (self : KineticOS) (hand_data : HandLandmarks) : result (Z * Z) :=
  (index_tip <- HandEngine.get_fingertip hand_data "index" ;;
   let o := CursorMath.smooth_position (lm_x index_tip) (lm_y index_tip)
              (cursor_math self) in
   p <- returned o ;;
   CursorMath.map_to_screen (state_of o) (fst p) (snd p))%result.

(** The object once the filter has taken the fingertip in. *)
Definition after_smoothing (self : KineticOS) (index_tip : Landmark) : KineticOS :=
  set_cursor_math
    (state_of (CursorMath.smooth_position (lm_x index_tip) (lm_y index_tip)
                 (cursor_math self))) self.

(** The SCROLL branch, written out: the object on entry to the branch is the
    one left by the smoothing step. *)
Definition scroll_entry (s : KineticOS) : KineticOS :=
  let s' := set_current_mode config.MODE_SCROLL s in
  if is_scrolling s then s'
  else set_cursor_math (CursorMath.set_prev_scroll_y None (cursor_math s'))
         (set_is_scrolling true s').

Definition scroll_outcome (hd : HandLandmarks) (t : float) (s : KineticOS)
  : result Z * KineticOS * list Action :=
  let se := scroll_entry s in
  match HandEngine.get_landmark hd HandEngine.WRIST with
  | Raise e => (Raise e, se, [])
  | Ok wrist =>
      let s3 :=
        set_cursor_math
          (CursorMath.set_prev_scroll_y (Some (lm_y wrist)) (cursor_math se)) se in
      match (match _prev_scroll_y (cursor_math se) with
             | None => Ok 0
             | Some reference_y => scroll_delta_of reference_y (lm_y wrist)
             end) with
      | Raise e => (Raise e, s3, [])
      | Ok d =>
          if (0 <? Z.abs d)
             && (config.SCROLL_DEBOUNCE_TIME <? t - last_scroll_time s3)%float
          then (Ok d, set_last_scroll_time t s3, [scroll (- d)])
          else (Ok d, s3, [])
      end
  end.

(** The ACTIVE branch, written out.  [fires] is the test that guards a click:
    the pinch predicate holds, it did not hold on the previous frame, and more
    than the debounce interval has passed since the last click of that kind. *)
Definition fires (pinch previous : bool) (now last : float) : bool :=
  pinch && negb previous && (config.CLICK_DEBOUNCE_TIME <? now - last)%float.

Definition left_clicked (pinch : bool) (t : float) (x y : Z) (s : KineticOS)
  : KineticOS :=
  set_is_left_clicking pinch
    (if fires pinch (is_left_clicking s) t (last_left_click_time s)
     then set_click_indicator (Some ("LEFT"%string, (x, y))) t
            (set_last_left_click_time t s)
     else s).

Definition right_clicked (pinch : bool) (t : float) (x y : Z) (s : KineticOS)
  : KineticOS :=
  set_is_right_clicking pinch
    (if fires pinch (is_right_clicking s) t (last_right_click_time s)
     then set_click_indicator (Some ("RIGHT"%string, (x, y))) t
            (set_last_right_click_time t s)
     else s).

Definition clicks (button : string) (fire : bool) : list Action :=
  if fire then [click button] else [].

Definition active_outcome (hd : HandLandmarks) (t : float) (x y : Z) (s : KineticOS)
  : result Z * KineticOS * list Action :=
  let s2 := set_current_mode config.MODE_ACTIVE (set_is_scrolling false s) in
  match _check_left_click hd with
  | Raise e => (Raise e, s2, [moveTo x y])
  | Ok pl =>
      let fl := fires pl (is_left_clicking s) t (last_left_click_time s) in
      let s3 := left_clicked pl t x y s2 in
      match _check_right_click hd with
      | Raise e => (Raise e, s3, moveTo x y :: clicks "left" fl)
      | Ok pr =>
          let fr := fires pr (is_right_clicking s) t (last_right_click_time s) in
          (Ok 0, right_clicked pr t x y s3,
           moveTo x y :: clicks "left" fl ++ clicks "right" fr)
      end
  end.

(** The loop body around [_process_gestures]. *)
Definition clear_indicator (t : float) (s : KineticOS) : KineticOS :=
  if match click_indicator s with Some _ => true | None => false end
     && (0.3 <? t - click_indicator_time s)%float
  then set_click_indicator None (click_indicator_time s) s
  else s.

Definition idle (s : KineticOS) : KineticOS :=
  set_is_scrolling false
    (set_is_right_clicking false
       (set_is_left_clicking false
          (set_cursor_math (CursorMath.set_prev None None (cursor_math s))
             (set_current_mode config.MODE_IDLE s)))).

End Notions.

Module Samples.

Definition P (x y : float) : Landmark := (x, y, 0%float).

(** An open right hand, fingers pointing up, with the thumb tip and the
    index fingertip where asked. *)
Definition open_hand (thumb_tip index_tip : Landmark) : HandLandmarks :=
  mkHandLandmarks
    [ P 0.5 0.9;
      P 0.45 0.85; P 0.42 0.8; P 0.4 0.75; thumb_tip;
      P 0.5 0.8; P 0.5 0.7; P 0.5 0.6; index_tip;
      P 0.55 0.8; P 0.55 0.7; P 0.55 0.6; P 0.55 0.5;
      P 0.6 0.8; P 0.6 0.7; P 0.6 0.6; P 0.6 0.5;
      P 0.65 0.8; P 0.65 0.7; P 0.65 0.6; P 0.65 0.5 ] "Right".

(** A fist: every fingertip folded back next to its base joint. *)
Definition fist (wrist index_tip : Landmark) : HandLandmarks :=
  mkHandLandmarks
    [ wrist;
      P 0.45 0.85; P 0.42 0.8; P 0.4 0.75; P 0.42 0.7;
      P (lm_x index_tip) (lm_y index_tip + 0.05); P (lm_x index_tip) (lm_y index_tip - 0.05);
      P (lm_x index_tip) (lm_y index_tip - 0.02); index_tip;
      P 0.55 0.8; P 0.55 0.7; P 0.55 0.72; P 0.55 0.76;
      P 0.6 0.8; P 0.6 0.7; P 0.6 0.72; P 0.6 0.76;
      P 0.65 0.8; P 0.65 0.7; P 0.65 0.72; P 0.65 0.76 ] "Right".

(** A fist with the index finger left pointing up. *)
Definition pointing : HandLandmarks :=
  mkHandLandmarks
    [ P 0.5 0.9;
      P 0.45 0.85; P 0.42 0.8; P 0.4 0.75; P 0.42 0.7;
      P 0.5 0.8; P 0.5 0.7; P 0.5 0.6; P 0.5 0.5;
      P 0.55 0.8; P 0.55 0.7; P 0.55 0.72; P 0.55 0.76;
      P 0.6 0.8; P 0.6 0.7; P 0.6 0.72; P 0.6 0.76;
      P 0.65 0.8; P 0.65 0.7; P 0.65 0.72; P 0.65 0.76 ] "Right".

Definition start : KineticOS := KineticOS.__init__ 1920 1080.

(** The thumb touching the index fingertip, and away from it. *)
Definition pinch : HandLandmarks := open_hand (P 0.5 0.5) (P 0.52 0.5).
Definition no_pinch : HandLandmarks := open_hand (P 0.3 0.6) (P 0.52 0.5).

(** The thumb touching the middle fingertip only. *)
Definition right_pinch : HandLandmarks := open_hand (P 0.58 0.5) (P 0.52 0.5).

(** The index fingertip in the corner of the camera frame that maps to the
    top-left corner of the screen. *)
Definition corner : HandLandmarks := open_hand (P 0.3 0.6) (P 0.8 0.2).
Definition corner_fist : HandLandmarks := fist (P 0.8 0.4) (P 0.8 0.2).
Definition centre_fist (wrist_y : float) : HandLandmarks :=
  fist (P 0.5 wrist_y) (P 0.5 0.5).

(** A fist drawn on a unit grid, with the index fingertip in the corner of
    the camera frame that maps to the top-left corner of the screen: every
    fingertip lies on its base joint and every middle joint one unit away, so
    that the curl tests square only 0 and 1, which [x ** 2] answers without
    the C library. *)
Definition grid_fist : HandLandmarks :=
  mkHandLandmarks
    [ P 1 1;
      P 1 0; P 1 0; P 1 0; P 1 0;
      P 1 0; P 1 1; P 1 0; P 1 0;
      P 1 0; P 1 1; P 1 0; P 1 0;
      P 1 0; P 1 1; P 1 0; P 1 0;
      P 1 0; P 1 1; P 1 0; P 1 0 ] "Right".

End Samples.

(** A platform for the worked examples: its [pow(x, 2.0)] is the correctly
    rounded square and leaves no [errno]; the examples use names of ASCII
    characters only. *)
Definition reference_platform : Platform :=
  {| libm_pow2 := fun x => ((x * x)%float, ENONE);
     unicode_lower := fun s => s |}.

Section MoreNotions.
Context {platform : Platform}.

(** The hand sample with further points after its own. *)
Definition extended (hd : HandLandmarks) (extra : list Landmark) : HandLandmarks :=
  mkHandLandmarks (landmarks hd ++ extra) (handedness hd).

(** The hand sample cut down to its first [n] points. *)
Definition truncated (n : nat) (hd : HandLandmarks) : HandLandmarks :=
  mkHandLandmarks (firstn n (landmarks hd)) (handedness hd).

(** The point of a sample with a given role. *)
Definition joint (hd : HandLandmarks) (role : Z) : Landmark :=
  nth (Z.to_nat role) (landmarks hd) (0, 0, 0)%float.

(** The planar distance of the specification between two points: the root
    of the sum of the squares of their differences in x and in y.  The
    squares are taken by [square]; the sum and the root are those of
    binary64. *)
Definition planar_distance (square : float -> float) (p q : Landmark) : float :=
  sqrt (square (lm_x p - lm_x q) + square (lm_y p - lm_y q))%float.

(** The curl predicate in the words of the specification: the planar distance
    from tip to mcp is less than 1.2 times the planar distance from pip to
    mcp. *)
Definition curled (square : float -> float) (tip pip mcp : Landmark) : bool :=
  (planar_distance square tip mcp <? 1.2 * planar_distance square pip mcp)%float.

(** None of the four squares that the curl test of three points takes
    raises. *)
Definition powers_return (tip pip mcp : Landmark) : bool :=
  forallb (fun d => match PyFloat.pow2 d with Ok _ => true | Raise _ => false end)
    [ (lm_x tip - lm_x mcp)%float; (lm_y tip - lm_y mcp)%float;
      (lm_x pip - lm_x mcp)%float; (lm_y pip - lm_y mcp)%float ].

(** A C library whose [pow(x, 2.0)] is the correctly rounded square and
    leaves no [errno], on the positive arguments it is called with. *)
Definition exact_pow2 : Prop :=
  forall x, (0 <? x)%float = true -> libm_pow2 x = ((x * x)%float, ENONE).

Inductive ClickKind : Type := LeftClick | RightClick.

Definition button_of (k : ClickKind) : string :=
  match k with LeftClick => "left" | RightClick => "right" end.

(** The pinch predicate of a kind of click on a sample, its edge flag and
    the time of its last fire in the object. *)
Definition pinch_of (k : ClickKind) (hd : HandLandmarks) : result bool :=
  match k with
  | LeftClick => _check_left_click hd
  | RightClick => _check_right_click hd
  end.

Definition edge_of (k : ClickKind) (s : KineticOS) : bool :=
  match k with
  | LeftClick => is_left_clicking s
  | RightClick => is_right_clicking s
  end.

Definition last_fire_of (k : ClickKind) (s : KineticOS) : float :=
  match k with
  | LeftClick => last_left_click_time s
  | RightClick => last_right_click_time s
  end.

Definition is_click_of (k : ClickKind) (a : Action) : bool :=
  match a with
  | click b => String.eqb b (button_of k)
  | _ => false
  end.

(** Whether a click of the kind is among the calls of a frame. *)
Definition fired (k : ClickKind) (o : list Action) : bool := existsb (is_click_of k) o.

(** A frame that [_process_gestures] handles in ACTIVE mode: the pointer is
    outside the fail-safe rectangle, the hand is not a fist, and both pinch
    predicates have a value. *)
Definition active_frame (self : KineticOS) (hd : HandLandmarks) : Prop :=
  (exists x y, pointer self hd = Ok (x, y) /\
               CursorMath.is_in_failsafe_region x y = false) /\
  HandEngine.is_fist hd = Ok false /\
  (exists pl, _check_left_click hd = Ok pl) /\
  (exists pr, _check_right_click hd = Ok pr).

(** The frames of a sequence are all handled in ACTIVE mode, and the pinch
    predicate of the kind takes the listed values on them. *)
Fixpoint active_frames (k : ClickKind) (frames : list (HandLandmarks * float))
    (pinches : list bool) (self : KineticOS) : Prop :=
  match frames, pinches with
  | [], [] => True
  | (hd, t) :: frames', p :: pinches' =>
      active_frame self hd /\ pinch_of k hd = Ok p /\
      active_frames k frames' pinches' (state_of (run_frame (Some hd) t self))
  | _, _ => False
  end.

(** For each frame of a sequence, whether a click of the kind was sent. *)
Fixpoint fires_in (k : ClickKind) (frames : list (HandLandmarks * float))
    (self : KineticOS) : list bool :=
  match frames with
  | [] => []
  | (hd, t) :: frames' =>
      let o := run_frame (Some hd) t self in
      fired k (emitted o) :: fires_in k frames' (state_of o)
  end.

(** The fires of an edge-triggered, debounced click over a sequence of pinch
    values and times, from an edge flag and a time of last fire. *)
Fixpoint edge_fires (pinches : list bool) (times : list float) (edge : bool)
    (last : float) : list bool :=
  match pinches, times with
  | p :: pinches', t :: times' =>
      let fire := fires p edge t last in
      fire :: edge_fires pinches' times' p (if fire then t else last)
  | _, _ => []
  end.

(** The magnitude of a finite value: [mag x k] says that [x] is a zero or a
    finite number below [2 ^ k] in absolute value. *)
Definition mag (x : spec_float) (k : Z) : Prop :=
  match x with
  | S754_zero _ => True
  | S754_finite _ m e => Z.pos (digits2_pos m) + e <= k
  | _ => False
  end.

(** The same of a float. *)
Definition fmag (f : float) (k : Z) : Prop := mag (Prim2SF f) k.

(** The steps of the map, in the words of the specification. *)
Definition clamp (lo hi v : float) : float := PyFloat.max lo (PyFloat.min hi v).

Definition rescale (lo hi v : float) : float := ((v - lo) / (hi - lo))%float.

Definition mirror (u : float) : float := (1.0 - u)%float.

Definition to_pixel (u : float) (dim : Z) : result Z :=
  PyFloat.to_int (u * PyFloat.of_int_round dim)%float.

Definition clamp_pixel (dim p : Z) : Z := Z.max 0 (Z.min (dim - 1) p).

(** The point of the segment from [lo] to [hi] nearest to [v]. *)
Definition nearest (lo hi v : float) : float :=
  if (v <? lo)%float then lo else if (hi <? v)%float then hi else v.

(** The object maps the configured active region. *)
Definition config_region (self : CursorMath) : Prop :=
  active_x_start self = config.ACTIVE_REGION_X_START /\
  active_x_end self = config.ACTIVE_REGION_X_END /\
  active_y_start self = config.ACTIVE_REGION_Y_START /\
  active_y_end self = config.ACTIVE_REGION_Y_END.

(** The calls a single frame can make: nothing, one scroll by a non-zero
    amount, or one move followed by at most one left click and then at most
    one right click. *)
Definition frame_actions (o : list Action) : Prop :=
  o = [] \/
  (exists d, d <> 0 /\ o = [scroll d]) \/
  (exists x y fl fr, o = moveTo x y :: clicks "left" fl ++ clicks "right" fr).

(** The scrolling flag is up exactly in SCROLL mode, and the mode is one of
    the three configured labels. *)
Definition mode_consistent (s : KineticOS) : Prop :=
  (is_scrolling s = true <-> current_mode s = config.MODE_SCROLL) /\
  (current_mode s = config.MODE_IDLE \/ current_mode s = config.MODE_ACTIVE \/
   current_mode s = config.MODE_SCROLL).

(** The object after a sequence of loop turns with a hand, whatever each turn
    returns. *)
Fixpoint after_frames (frames : list (HandLandmarks * float)) (self : KineticOS)
  : KineticOS :=
  match frames with
  | [] => self
  | (hd, t) :: frames' => after_frames frames' (state_of (run_frame (Some hd) t self))
  end.

(** Whether a scroll is among the calls of a frame. *)
Definition scrolled (o : list Action) : bool :=
  existsb (fun a => match a with scroll _ => true | _ => false end) o.

(** The times of the frames of a run on which a call of some sort is sent.
    The frames are read as [run] reads them: up to a [Break] or an exception. *)
Fixpoint times_of (sent : list Action -> bool)
    (frames : list (option HandLandmarks * float)) (self : KineticOS) : list float :=
  match frames with
  | [] => []
  | (hand_data, t) :: frames' =>
      let o := run_frame hand_data t self in
      let rest :=
        match returned o with
        | Ok (Continue _) => times_of sent frames' (state_of o)
        | _ => []
        end in
      if sent (emitted o) then t :: rest else rest
  end.

(** Each time of a list comes more than an interval after the one before it,
    the first of them after [last]. *)
Fixpoint spaced (interval last : float) (times : list float) : Prop :=
  match times with
  | [] => True
  | t :: times' => (interval <? t - last)%float = true /\ spaced interval t times'
  end.

(** Two states of the cursor mathematics with the same screen and the same
    active region: they differ at most in the filter state and the scroll
    reference. *)
Definition same_geometry (a b : CursorMath) : Prop :=
  screen_width a = screen_width b /\
  screen_height a = screen_height b /\
  active_x_start a = active_x_start b /\
  active_x_end a = active_x_end b /\
  active_y_start a = active_y_start b /\
  active_y_end a = active_y_end b.

(** The moves among the calls of a run stay inside a screen and outside the
    fail-safe rectangle. *)
Definition move_on_screen (w h : Z) (a : Action) : Prop :=
  match a with
  | moveTo x y =>
      0 <= x <= w - 1 /\ 0 <= y <= h - 1 /\
      CursorMath.is_in_failsafe_region x y = false
  | _ => True
  end.

(** A binary64 value with a given sign bit, and one that is not below zero:
    a NaN, or a zero, a finite number or an infinity with the sign bit
    down. *)
Definition signed (s : bool) (x : spec_float) : Prop :=
  match x with
  | S754_nan => False
  | S754_zero s' | S754_infinity s' | S754_finite s' _ _ => s' = s
  end.

Definition not_negative (x : spec_float) : Prop := x = S754_nan \/ signed false x.

(** The squared planar distance that [euclidean_distance] takes the root of. *)
Definition squared_distance (point1 point2 : Landmark) : float :=
  let dx := (lm_x point1 - lm_x point2)%float in
  let dy := (lm_y point1 - lm_y point2)%float in
  (dx * dx + dy * dy)%float.

(** A coordinate the filter can rest on: a finite number or the zero with
    the sign bit down. *)
Definition settled (v : float) : Prop :=
  match Prim2SF v with
  | S754_finite _ _ _ | S754_zero false => True
  | _ => False
  end.

(** The filter holds a NaN as its x coordinate. *)
Definition poisoned (cm : CursorMath) : Prop :=
  (exists v, _prev_x cm = Some v /\ Prim2SF v = S754_nan) /\
  (exists w, _prev_y cm = Some w).

(** The click mark kept for the overlay, when there is one, is the mark of
    the last click of its kind and carries that click's time. *)
Definition indicator_consistent (s : KineticOS) : Prop :=
  match click_indicator s with
  | None => True
  | Some (label, _) =>
      (label = "LEFT"%string /\ click_indicator_time s = last_left_click_time s) \/
      (label = "RIGHT"%string /\ click_indicator_time s = last_right_click_time s)
  end.

(** The plain left-to-right sum of a list of floats: the builtin [sum] of
    CPython before 3.12. *)
Definition sum_left (l : list float) : float := fold_left PrimFloat.add l 0%float.

(** The window of the frame-rate meter after a tick: unchanged when no time
    was recorded before or the time did not advance; otherwise the new delta
    is put at the end and, when that makes the window longer than the sample
    size, the oldest delta is dropped. *)
Definition window_after (self : FPSCounter) (current_time : float) : list float :=
  match _last_time self with
  | Some last_time =>
      let delta := (current_time - last_time)%float in
      if (0 <? delta)%float then
        if _sample_size self <? Z.of_nat (List.length (_times self ++ [delta]))
        then tl (_times self ++ [delta])
        else _times self ++ [delta]
      else _times self
  | None => _times self
  end.

(** What the meter keeps true: the window is no longer than the sample size
    and holds positive deltas only. *)
Definition window_ok (self : FPSCounter) : Prop :=
  Z.of_nat (List.length (_times self)) <= Z.max 0 (_sample_size self) /\
  Forall (fun d => (0 <? d)%float = true) (_times self).

(** The value [tick] computes from a window and the builtin [sum]. *)
Definition fps_of (py_sum : list float -> float) (window : list float) : float :=
  match window with
  | [] => 0%float
  | _ :: _ =>
      let avg_delta :=
        (py_sum window / PyFloat.of_int_round (Z.of_nat (List.length window)))%float in
      if (0 <? avg_delta)%float then (1 / avg_delta)%float else 0%float
  end.

(** The meter after a sequence of ticks. *)
Definition after_ticks (py_sum : list float -> float) (times : list float)
    (self : FPSCounter) : FPSCounter :=
  fold_left (fun s t => state_of (FPSCounter.tick py_sum t s)) times self.

(** A well-formed hand sample: the 21 points of the hand model (or more), all
    with finite coordinates below [2 ^ 480] in absolute value. *)
Definition bounded_point (p : Landmark) : Prop := fmag (lm_x p) 480 /\ fmag (lm_y p) 480.

Definition well_formed (hd : HandLandmarks) : Prop :=
  (21 <= List.length (landmarks hd))%nat /\ Forall bounded_point (landmarks hd).

Definition well_formed_frame (f : option HandLandmarks * float) : Prop :=
  match fst f with
  | Some hd => well_formed hd
  | None => True
  end.

(** The C library reports no error where the square is in range: on a
    positive argument below [2 ^ 482], [pow(x, 2.0)] returns a finite value
    with no [errno], or zero with a range error (an underflow). *)
Definition pow_in_range : Prop :=
  forall x, fmag x 482 -> (0 <? x)%float = true ->
    match libm_pow2 x with
    | (r, ENONE) => is_infinity r = false
    | (r, ERANGE) => (r =? 0)%float = true
    | (_, EDOM) => False
    end.

(** An object in working order: the configured active region, a screen with
    sides that CPython converts to a float without loss of range, and a
    scroll reference that is unset or the height of a bounded point. *)
Definition in_order (self : KineticOS) : Prop :=
  config_region (cursor_math self) /\
  0 < screen_width (cursor_math self) < 2 ^ 63 /\
  0 < screen_height (cursor_math self) < 2 ^ 63 /\
  forall reference_y,
    _prev_scroll_y (cursor_math self) = Some reference_y -> fmag reference_y 480.

End MoreNotions.

(** * Properties *)

(** ** Proof tools *)

Arguments CursorMath.map_to_screen : simpl never.
Arguments CursorMath.smooth_position : simpl never.
Arguments CursorMath.calculate_scroll_delta : simpl never.
Arguments HandEngine.get_fingertip : simpl never.
Arguments HandEngine.get_landmark : simpl never.
Arguments HandEngine.is_fist : simpl never.
Arguments _process_gestures : simpl never.
Arguments run_frame : simpl never.
Arguments _check_left_click : simpl never.
Arguments _check_right_click : simpl never.
Arguments scroll_delta_of : simpl never.
Arguments smoothed : simpl never.

Ltac py_unfold :=
  unfold _process_gestures, run_frame, on_cursor_math, when, bind, try, get,
    modify, emit, ret.

Ltac break_match :=
  match goal with
  | |- context [match ?x with _ => _ end] => destruct x eqn:?
  end.

Ltac show_active :=
  cbn [active_frames]; unfold active_frame;
  repeat match goal with
         | |- _ /\ _ => split
         | |- True => exact I
         | |- exists x y, pointer _ _ = Ok (x, y) /\ _ =>
             eexists; eexists; split; vm_compute; reflexivity
         | |- exists p, _ = Ok p => eexists; vm_compute; reflexivity
         | |- _ = _ => vm_compute; reflexivity
         end.

(** ** Magnitudes of binary64 values

    [map_to_screen] converts two floats to integers, which fails on an
    infinity or a NaN.  That it never does is a matter of magnitudes: this
    part bounds the results of the IEEE operations, from their specification
    in [SpecFloat], by a power of two. *)

Module FloatBounds.


Lemma digits2_size (m : positive) : digits2_pos m = Pos.size m.
Proof. induction m; cbn; congruence. Qed.

Lemma pos_digits_bounds (m : positive) :
2 ^ (Z.pos (digits2_pos m) - 1) <= Z.pos m < 2 ^ Z.pos (digits2_pos m).
Proof.
rewrite digits2_size. split.
- pose proof (Pos.size_le m) as H.
  assert (H' : Z.pos (2 ^ Pos.size m) <= Z.pos m~0) by exact H.
  rewrite Pos2Z.inj_pow in H'.
  replace (Z.pos (Pos.size m)) with (Z.pos (Pos.size m) - 1 + 1) in H' by lia.
  rewrite Z.pow_add_r in H' by lia. lia.
- pose proof (Pos.size_gt m) as H.
  assert (H' : Z.pos m < Z.pos (2 ^ Pos.size m)) by exact H.
  rewrite Pos2Z.inj_pow in H'. exact H'.
Qed.

Lemma Zdigits2_nonneg (m : Z) : 0 <= Zdigits2 m.
Proof. destruct m; cbn; lia. Qed.

Lemma Zdigits2_le (m n : Z) : 0 <= m < 2 ^ n -> 0 <= n -> Zdigits2 m <= n.
Proof.
intros [H0 H1] Hn. destruct m as [|p|p]; cbn; try lia.
destruct (pos_digits_bounds p) as [Hl _].
destruct (Z.le_gt_cases (Z.pos (digits2_pos p)) n) as [|Hgt]; [assumption|].
assert (2 ^ n <= 2 ^ (Z.pos (digits2_pos p) - 1)) by (apply Z.pow_le_mono_r; lia).
lia.
Qed.

Lemma Zdigits2_gt (m : Z) : 0 <= m -> m < 2 ^ Zdigits2 m.
Proof.
intros H. destruct m as [|p|p]; cbn; try lia. apply pos_digits_bounds.
Qed.

Lemma shr_1_m (mrs : shr_record) : 0 <= shr_m mrs -> shr_m (shr_1 mrs) = shr_m mrs / 2.
Proof.
intros H. rewrite <- Z.div2_div.
destruct mrs as [m r s]. cbn in *. destruct m as [|[p|p|]|p]; try reflexivity; lia.
Qed.

Lemma div_twice (m q : Z) : 0 < q -> m / q / q = m / (q * q).
Proof. intros Hq. apply Z.div_div; lia. Qed.

Lemma div_half_twice (m q : Z) : 0 < q -> m / 2 / q / q = m / (q * q * 2).
Proof.
intros Hq. rewrite (Z.div_div m 2 q), (Z.div_div m (2 * q) q) by lia.
f_equal. lia.
Qed.

Lemma iter_shr_m (p : positive) :
forall mrs, 0 <= shr_m mrs ->
            shr_m (iter_pos shr_1 p mrs) = shr_m mrs / 2 ^ Z.pos p.
Proof.
induction p as [p IH|p IH|]; intros mrs H; cbn [iter_pos].
- assert (Hp : 0 < 2 ^ Z.pos p) by (apply Z.pow_pos_nonneg; lia).
  assert (H1 : 0 <= shr_m (shr_1 mrs)) by (rewrite shr_1_m by lia; apply Z.div_pos; lia).
  assert (H2 : 0 <= shr_m (iter_pos shr_1 p (shr_1 mrs)))
    by (rewrite IH by lia; apply Z.div_pos; lia).
  rewrite IH, IH, shr_1_m by assumption.
  replace (Z.pos p~1) with (Z.pos p + Z.pos p + 1) by lia.
  rewrite !Z.pow_add_r by lia. change (2 ^ 1) with 2.
  apply div_half_twice. exact Hp.
- assert (Hp : 0 < 2 ^ Z.pos p) by (apply Z.pow_pos_nonneg; lia).
  assert (H2 : 0 <= shr_m (iter_pos shr_1 p mrs))
    by (rewrite IH by lia; apply Z.div_pos; lia).
  rewrite IH, IH by assumption.
  replace (Z.pos p~0) with (Z.pos p + Z.pos p) by lia.
  rewrite Z.pow_add_r by lia.
  apply div_twice. exact Hp.
- rewrite shr_1_m by assumption. reflexivity.
Qed.

Lemma shr_record_of_loc_m (m : Z) (l : location) : shr_m (shr_record_of_loc m l) = m.
Proof. destruct l as [|[ | | ]]; reflexivity. Qed.

Lemma fexp_eq (x : Z) : fexp prec emax x = Z.max (x - 53) (-1074).
Proof. reflexivity. Qed.

Lemma shr_fexp_bound (m e : Z) (l : location) (k : Z) :
0 <= m -> Zdigits2 m + e <= k -> -1074 <= k ->
0 <= shr_m (fst (shr_fexp prec emax m e l)) /\
Zdigits2 (shr_m (fst (shr_fexp prec emax m e l))) + snd (shr_fexp prec emax m e l) <= k /\
snd (shr_fexp prec emax m e l) <= Z.max e (Z.max (k - 53) (-1074)).
Proof.
intros Hm Hk Hmin. unfold shr_fexp, shr. rewrite fexp_eq.
destruct (Z.max (Zdigits2 m + e - 53) (-1074) - e) as [|p|p] eqn:En; cbn [fst snd];
  rewrite ?shr_record_of_loc_m; try (repeat split; lia).
rewrite iter_shr_m by (rewrite shr_record_of_loc_m; exact Hm).
rewrite shr_record_of_loc_m.
assert (Hp : 0 < 2 ^ Z.pos p) by (apply Z.pow_pos_nonneg; lia).
pose proof (Zdigits2_nonneg m) as Hd0.
pose proof (@Zdigits2_gt m Hm) as Hd.
split; [apply Z.div_pos; lia|]. split; [|lia].
destruct (Z.le_gt_cases (Z.pos p) (Zdigits2 m)) as [Hle|Hgt].
- assert (Zdigits2 (m / 2 ^ Z.pos p) <= Zdigits2 m - Z.pos p); [|lia].
  apply Zdigits2_le; [|lia]. split; [apply Z.div_pos; lia|].
  apply Z.div_lt_upper_bound; [lia|].
  rewrite <- Z.pow_add_r by lia.
  replace (Z.pos p + (Zdigits2 m - Z.pos p)) with (Zdigits2 m) by lia. exact Hd.
- assert (E : m / 2 ^ Z.pos p = 0).
  { apply Z.div_small. split; [lia|].
    assert (2 ^ Zdigits2 m <= 2 ^ Z.pos p) by (apply Z.pow_le_mono_r; lia). lia. }
  rewrite E. cbn [Zdigits2]. lia.
Qed.

Lemma round_nearest_even_bound (m : Z) (l : location) :
0 <= m -> m <= round_nearest_even m l <= m + 1.
Proof.
intros Hm. unfold round_nearest_even.
destruct l as [|[ | | ]]; try destruct (Z.even m); lia.
Qed.

Lemma Zdigits2_mono (a b : Z) : 0 <= a <= b -> Zdigits2 a <= Zdigits2 b.
Proof.
intros H. apply Zdigits2_le; [|apply Zdigits2_nonneg].
pose proof (@Zdigits2_gt b). lia.
Qed.

Lemma Zdigits2_succ (m : Z) : 0 <= m -> Zdigits2 (m + 1) <= Zdigits2 m + 1.
Proof.
intros Hm. pose proof (Zdigits2_nonneg m). pose proof (@Zdigits2_gt m Hm).
apply Zdigits2_le; [|lia].
rewrite Z.pow_add_r by lia. change (2 ^ 1) with 2. lia.
Qed.

Lemma mag_le (x : spec_float) (k k' : Z) : mag x k -> k <= k' -> mag x k'.
Proof. destruct x; cbn; lia. Qed.

Lemma binary_round_aux_mag (s : bool) (m e : Z) (l : location) (k : Z) :
0 <= m -> Zdigits2 m + e <= k -> e <= 971 -> -1074 <= k -> k + 1 <= 1024 ->
mag (binary_round_aux prec emax s m e l) (k + 1).
Proof.
intros Hm Hk He Hmin Hmax. unfold binary_round_aux.
destruct (@shr_fexp_bound m e l k Hm Hk Hmin) as (H1 & H2 & H3).
destruct (shr_fexp prec emax m e l) as [mrs' e']. cbn [fst snd] in *.
pose proof (@round_nearest_even_bound (shr_m mrs') (loc_of_shr_record mrs') H1) as Hr.
set (m1 := round_nearest_even (shr_m mrs') (loc_of_shr_record mrs')) in *.
assert (Hm1 : 0 <= m1) by lia.
assert (Hk1 : Zdigits2 m1 + e' <= k + 1).
{ pose proof (@Zdigits2_mono m1 (shr_m mrs' + 1)).
  pose proof (@Zdigits2_succ (shr_m mrs') H1). lia. }
destruct (@shr_fexp_bound m1 e' loc_Exact (k + 1) Hm1 Hk1) as (G1 & G2 & G3); [lia|].
destruct (shr_fexp prec emax m1 e' loc_Exact) as [mrs'' e'']. cbn [fst snd] in *.
destruct (shr_m mrs'') as [|p|p] eqn:Em; cbn [mag]; [exact I| |lia].
destruct (Z.leb_spec e'' (emax - prec)) as [_|Hbad].
- cbn [mag]. cbn [Zdigits2] in G2. exact G2.
- unfold emax, prec in Hbad. lia.
Qed.

Lemma digits2_iter_xO (m d : positive) :
Z.pos (digits2_pos (Pos.iter xO m d)) = Z.pos (digits2_pos m) + Z.pos d.
Proof.
induction d as [|d IH] using Pos.peano_ind.
- cbn. lia.
- rewrite Pos.iter_succ. cbn [digits2_pos]. lia.
Qed.

Lemma shl_align_digits (m : positive) (e e' : Z) :
Z.pos (digits2_pos (fst (shl_align m e e'))) + snd (shl_align m e e')
= Z.pos (digits2_pos m) + e /\
snd (shl_align m e e') <= e.
Proof.
unfold shl_align. destruct (e' - e) as [|d|d] eqn:E; cbn [fst snd]; try lia.
rewrite digits2_iter_xO. lia.
Qed.

Lemma shl_align_fst_digits (m : positive) (e e' : Z) :
e' <= e ->
Z.pos (digits2_pos (fst (shl_align m e e'))) + e' = Z.pos (digits2_pos m) + e.
Proof.
intros H. unfold shl_align. destruct (e' - e) as [|d|d] eqn:E; cbn [fst snd]; try lia.
rewrite digits2_iter_xO. lia.
Qed.

Lemma binary_round_mag (s : bool) (m : positive) (e k : Z) :
Z.pos (digits2_pos m) + e <= k -> e <= 971 -> -1074 <= k -> k + 1 <= 1024 ->
mag (binary_round prec emax s m e) (k + 1).
Proof.
intros Hk He Hmin Hmax. unfold binary_round.
destruct (shl_align_digits m e (fexp prec emax (Z.pos (digits2_pos m) + e)))
  as [H1 H2].
destruct (shl_align m e _) as [mz ez]. cbn [fst snd] in *.
apply binary_round_aux_mag; cbn [Zdigits2]; lia.
Qed.

Lemma binary_normalize_mag (z e k : Z) (szero : bool) :
Zdigits2 z + e <= k -> e <= 971 -> -1074 <= k -> k + 1 <= 1024 ->
mag (binary_normalize prec emax z e szero) (k + 1).
Proof.
intros Hk He Hmin Hmax. destruct z as [|p|p]; cbn [binary_normalize].
- exact I.
- apply binary_round_mag; assumption.
- apply binary_round_mag; assumption.
Qed.

(** What validity says of a finite value. *)
Lemma valid_finite (s : bool) (m : positive) (e : Z) :
valid_binary (S754_finite s m e) = true ->
Z.pos (digits2_pos m) <= 53 /\ -1074 <= e <= 971.
Proof.
cbn [valid_binary]. unfold bounded, canonical_mantissa. rewrite fexp_eq.
intros H. apply andb_true_iff in H. destruct H as [H1 H2].
apply Z.eqb_eq in H1. apply Z.leb_le in H2. unfold emax, prec in H2. lia.
Qed.

Lemma Zdigits2_abs (z : Z) : Zdigits2 (Z.abs z) = Zdigits2 z.
Proof. destruct z; reflexivity. Qed.

Lemma Zdigits2_sum (a b n : Z) :
0 <= a -> 0 <= b -> Zdigits2 a <= n -> Zdigits2 b <= n ->
forall z, Z.abs z <= a + b -> Zdigits2 z <= n + 1.
Proof.
intros Ha Hb Hda Hdb z Hz. rewrite <- Zdigits2_abs.
pose proof (Zdigits2_nonneg a).
apply Zdigits2_le; [|lia].
pose proof (@Zdigits2_gt a Ha). pose proof (@Zdigits2_gt b Hb).
assert (2 ^ Zdigits2 a <= 2 ^ n) by (apply Z.pow_le_mono_r; lia).
assert (2 ^ Zdigits2 b <= 2 ^ n) by (apply Z.pow_le_mono_r; lia).
rewrite Z.pow_add_r by lia. change (2 ^ 1) with 2. lia.
Qed.

Lemma SFaddsub_core_mag (sx sy : bool) (mx my : positive) (ex ey k : Z) (minus : bool) :
valid_binary (S754_finite sx mx ex) = true ->
valid_binary (S754_finite sy my ey) = true ->
Z.pos (digits2_pos mx) + ex <= k -> Z.pos (digits2_pos my) + ey <= k ->
-1074 <= k + 1 -> k + 2 <= 1024 ->
let ez := Z.min ex ey in
let a := cond_Zopp sx (Z.pos (fst (shl_align mx ex ez))) in
let b := cond_Zopp sy (Z.pos (fst (shl_align my ey ez))) in
mag (binary_normalize prec emax (if minus then a - b else a + b) ez false) (k + 2).
Proof.
intros Vx Vy Hx Hy Hmin Hmax ez a b.
destruct (@valid_finite sx mx ex Vx) as [_ Hex].
destruct (@valid_finite sy my ey Vy) as [_ Hey].
pose proof (@shl_align_fst_digits mx ex ez ltac:(unfold ez; lia)) as Dx.
pose proof (@shl_align_fst_digits my ey ez ltac:(unfold ez; lia)) as Dy.
replace (k + 2) with (k + 1 + 1) by lia.
apply binary_normalize_mag; try (unfold ez; lia).
assert (Zdigits2 (if minus then a - b else a + b) <= k - ez + 1); [|lia].
apply (@Zdigits2_sum (Z.pos (fst (shl_align mx ex ez))) (Z.pos (fst (shl_align my ey ez))));
  cbn [Zdigits2]; try lia.
unfold a, b. destruct minus, sx, sy; cbn [cond_Zopp]; lia.
Qed.

Lemma SFsub_mag (x y : spec_float) (k : Z) :
valid_binary x = true -> valid_binary y = true ->
mag x k -> mag y k -> -1074 <= k + 1 -> k + 2 <= 1024 ->
mag (SFsub prec emax x y) (k + 2).
Proof.
intros Vx Vy Hx Hy Hmin Hmax.
destruct x as [sx|sx| |sx mx ex], y as [sy|sy| |sy my ey]; cbn [mag] in Hx, Hy;
  try contradiction; cbn [SFsub].
- destruct sx, sy; exact I.
- cbn [mag]. lia.
- cbn [mag]. lia.
- apply (@SFaddsub_core_mag sx sy mx my ex ey k true); assumption.
Qed.

Lemma Zdigits2_mul (a b : positive) :
Zdigits2 (Z.pos (a * b)) <= Z.pos (digits2_pos a) + Z.pos (digits2_pos b).
Proof.
apply Zdigits2_le; [|lia].
destruct (pos_digits_bounds a) as [_ Ha]. destruct (pos_digits_bounds b) as [_ Hb].
rewrite Z.pow_add_r by lia. rewrite Pos2Z.inj_mul. split; [lia|].
apply Z.mul_lt_mono_nonneg; lia.
Qed.

Lemma SFmul_mag (x y : spec_float) (kx ky : Z) :
mag x kx -> mag y ky -> -1074 <= kx + ky -> kx + ky <= 973 ->
mag (SFmul prec emax x y) (kx + ky + 1).
Proof.
intros Hx Hy Hmin Hmax.
destruct x as [sx|sx| |sx mx ex], y as [sy|sy| |sy my ey]; cbn [mag] in Hx, Hy;
  try contradiction; cbn [SFmul]; try exact I.
pose proof (Zdigits2_mul mx my).
apply binary_round_aux_mag; lia.
Qed.

Lemma div_digits (m' my N : Z) (dy : Z) :
0 <= m' -> 0 < my -> 1 <= dy -> 2 ^ (dy - 1) <= my ->
0 <= N -> m' < 2 ^ (N + dy - 1) ->
0 <= m' / my /\ Zdigits2 (m' / my) <= N.
Proof.
intros Hm Hy Hdy Hlow HN Hup.
assert (Hq : 0 <= m' / my) by (apply Z.div_pos; lia).
split; [exact Hq|]. apply Zdigits2_le; [|lia]. split; [exact Hq|].
apply Z.div_lt_upper_bound; [lia|].
replace (N + dy - 1) with (N + (dy - 1)) in Hup by lia.
rewrite Z.pow_add_r in Hup by lia.
assert (HpN : 0 < 2 ^ N) by (apply Z.pow_pos_nonneg; lia).
assert (2 ^ N * 2 ^ (dy - 1) <= 2 ^ N * my) by (apply Z.mul_le_mono_nonneg_l; lia).
lia.
Qed.

Lemma SFdiv_mag (x : spec_float) (sy : bool) (my : positive) (ey kx : Z) :
mag x kx ->
let ly := Z.pos (digits2_pos my) + ey in
-1074 <= kx - ly + 1 -> kx - ly + 2 <= 1024 ->
mag (SFdiv prec emax x (S754_finite sy my ey)) (kx - ly + 2).
Proof.
intros Hx ly Hmin Hmax.
destruct x as [sx|sx| |sx mx ex]; cbn [mag] in Hx; try contradiction;
  cbn [SFdiv]; [exact I|].
unfold SFdiv_core_binary. cbn [Zdigits2]. rewrite fexp_eq.
set (e' := Z.min _ (ex - ey)).
set (m' := match ex - ey - e' with
           | 0 => Z.pos mx
           | Z.pos _ => Z.shiftl (Z.pos mx) (ex - ey - e')
           | Z.neg _ => 0
           end).
assert (Hs : 0 <= ex - ey - e') by (unfold e'; lia).
assert (Hm' : m' = Z.pos mx * 2 ^ (ex - ey - e')).
{ unfold m'. destruct (ex - ey - e') as [|p|p] eqn:E.
  - cbn. lia.
  - apply Z.shiftl_mul_pow2. lia.
  - lia. }
pose proof (Z_div_mod m' (Z.pos my) ltac:(lia)) as Hdiv.
assert (Hq : fst (Z.div_eucl m' (Z.pos my)) = m' / Z.pos my) by reflexivity.
destruct (Z.div_eucl m' (Z.pos my)) as [q r]. cbn [fst] in Hq. subst q.
destruct (pos_digits_bounds mx) as [_ Hmx]. destruct (pos_digits_bounds my) as [Hmy _].
assert (Hp : 0 < 2 ^ (ex - ey - e')) by (apply Z.pow_pos_nonneg; lia).
assert (Hm0 : 0 <= m') by (rewrite Hm'; lia).
assert (Hmu : m' < 2 ^ (Z.pos (digits2_pos mx) + (ex - ey - e'))).
{ rewrite Hm', Z.pow_add_r by lia. apply Z.mul_lt_mono_pos_r; lia. }
replace (kx - ly + 2) with (kx - ly + 1 + 1) by lia.
set (N := Z.pos (digits2_pos mx) + (ex - ey - e') - Z.pos (digits2_pos my) + 1).
destruct (Z.le_gt_cases 0 N) as [HN|HN].
- destruct (@div_digits m' (Z.pos my) N (Z.pos (digits2_pos my))) as [Q0 Q1];
    try lia.
  { replace (N + Z.pos (digits2_pos my) - 1)
      with (Z.pos (digits2_pos mx) + (ex - ey - e')) by (unfold N; lia).
    exact Hmu. }
  apply binary_round_aux_mag; unfold ly, N, e' in *; lia.
- assert (E : m' / Z.pos my = 0).
  { apply Z.div_small. split; [lia|].
    assert (2 ^ (Z.pos (digits2_pos mx) + (ex - ey - e'))
            <= 2 ^ (Z.pos (digits2_pos my) - 1))
      by (apply Z.pow_le_mono_r; unfold N in HN; lia).
    lia. }
  rewrite E.
  apply binary_round_aux_mag; cbn [Zdigits2]; unfold ly, e' in *; lia.
Qed.

Lemma fmag_sub (x y : float) (k : Z) :
fmag x k -> fmag y k -> -1074 <= k + 1 -> k + 2 <= 1024 -> fmag (x - y) (k + 2).
Proof.
unfold fmag. intros Hx Hy Hmin Hmax. rewrite sub_spec.
apply SFsub_mag; try assumption; apply Prim2SF_valid.
Qed.

Lemma fmag_mul (x y : float) (kx ky : Z) :
fmag x kx -> fmag y ky -> -1074 <= kx + ky -> kx + ky <= 973 ->
fmag (x * y) (kx + ky + 1).
Proof.
unfold fmag. intros Hx Hy Hmin Hmax. rewrite mul_spec.
apply SFmul_mag; assumption.
Qed.

Lemma fmag_div (x y : float) (sy : bool) (my : positive) (ey kx : Z) :
Prim2SF y = S754_finite sy my ey ->
fmag x kx ->
-1074 <= kx - (Z.pos (digits2_pos my) + ey) + 1 ->
kx - (Z.pos (digits2_pos my) + ey) + 2 <= 1024 ->
fmag (x / y) (kx - (Z.pos (digits2_pos my) + ey) + 2).
Proof.
unfold fmag. intros Ey Hx Hmin Hmax. rewrite div_spec, Ey.
apply SFdiv_mag; assumption.
Qed.

Lemma fmag_not_infinity (f : float) (k : Z) : fmag f k -> is_infinity f = false.
Proof.
unfold fmag, is_infinity. rewrite eqb_spec, abs_spec.
destruct (Prim2SF f) as [s|s| |s m e]; cbn [mag]; try contradiction; reflexivity.
Qed.

Lemma fmag_finite (f : float) (k : Z) :
fmag f k ->
(exists s, Prim2SF f = S754_zero s) \/ (exists s m e, Prim2SF f = S754_finite s m e).
Proof.
unfold fmag. destruct (Prim2SF f) as [s|s| |s m e]; cbn [mag]; try contradiction; eauto.
Qed.

Lemma of_uint63_round (n : Z) :
0 <= n < 2 ^ 63 ->
Prim2SF (SF2Prim (binary_normalize prec emax n 0 false))
= binary_normalize prec emax n 0 false.
Proof.
intros Hn.
pose proof (of_uint63_spec (Uint63.of_Z n)) as H.
rewrite Uint63.of_Z_spec, Z.mod_small in H by exact Hn.
rewrite <- H, SF2Prim_Prim2SF. reflexivity.
Qed.

Lemma fmag_of_int (n : Z) :
0 <= n < 2 ^ 63 -> fmag (SF2Prim (binary_normalize prec emax n 0 false)) 64.
Proof.
intros Hn. unfold fmag. rewrite of_uint63_round by exact Hn.
change 64 with (63 + 1). apply binary_normalize_mag; try lia.
assert (Zdigits2 n <= 63) by (apply Zdigits2_le; lia). lia.
Qed.

End FloatBounds.

(** ** map_to_screen *)

Import FloatBounds.

Section Properties.
Context {platform : Platform}.

(** ** Conversions of the configured integers *)

Lemma of_int_smoothing : PyFloat.of_int config.SMOOTHING_FACTOR = Ok 6%float.
Proof. vm_compute. reflexivity. Qed.

Lemma of_int_sensitivity : PyFloat.of_int config.SCROLL_SENSITIVITY = Ok 10%float.
Proof. vm_compute. reflexivity. Qed.

Lemma of_int_100 : PyFloat.of_int 100 = Ok 100%float.
Proof. vm_compute. reflexivity. Qed.

Lemma truediv_smoothing (x : float) :
  CursorMath.truediv_int x config.SMOOTHING_FACTOR = Ok (x / 6)%float.
Proof.
  unfold CursorMath.truediv_int. rewrite of_int_smoothing. reflexivity.
Qed.

(** ** smooth_position *)

Lemma smooth_position_eq (self : CursorMath) (raw_x raw_y : float) :
  CursorMath.smooth_position raw_x raw_y self =
    (Ok (smoothed self raw_x raw_y),
     CursorMath.set_prev (Some (fst (smoothed self raw_x raw_y)))
                         (Some (snd (smoothed self raw_x raw_y))) self,
     []).
Proof.
  unfold CursorMath.smooth_position, smoothed, bind, get, modify, try, ret.
  destruct (_prev_x self) as [px|], (_prev_y self) as [py|];
    rewrite ?truediv_smoothing; reflexivity.
Qed.

(** C4.  [smooth_position] never raises and calls nothing; on an unset filter
    state it returns the raw point and seeds the state with it; on a set state
    it returns, per axis, [prev + (raw - prev) / k] with [k] the configured
    smoothing factor, and stores that smoothed point (not the raw one); no
    other field of the object changes. *)
Theorem smooth_position_spec (self : CursorMath) (raw_x raw_y : float) :
  smoothing_k = 6%float /\
  (_prev_x self = None \/ _prev_y self = None ->
     CursorMath.smooth_position raw_x raw_y self =
       (Ok (raw_x, raw_y), CursorMath.set_prev (Some raw_x) (Some raw_y) self, [])) /\
  (forall prev_x prev_y,
     _prev_x self = Some prev_x -> _prev_y self = Some prev_y ->
     let smoothed_x := (prev_x + (raw_x - prev_x) / smoothing_k)%float in
     let smoothed_y := (prev_y + (raw_y - prev_y) / smoothing_k)%float in
     CursorMath.smooth_position raw_x raw_y self =
       (Ok (smoothed_x, smoothed_y),
        CursorMath.set_prev (Some smoothed_x) (Some smoothed_y) self, [])) /\
  (let o := CursorMath.smooth_position raw_x raw_y self in
   (exists p, returned o = Ok p /\
              _prev_x (state_of o) = Some (fst p) /\
              _prev_y (state_of o) = Some (snd p)) /\
   emitted o = [] /\
   _prev_scroll_y (state_of o) = _prev_scroll_y self /\
   screen_width (state_of o) = screen_width self /\
   screen_height (state_of o) = screen_height self /\
   active_x_start (state_of o) = active_x_start self /\
   active_x_end (state_of o) = active_x_end self /\
   active_y_start (state_of o) = active_y_start self /\
   active_y_end (state_of o) = active_y_end self).
Proof.
  assert (Hk : smoothing_k = 6%float) by (vm_compute; reflexivity).
  split; [exact Hk|]. rewrite Hk.
  split; [|split].
  - intros H. rewrite smooth_position_eq. unfold smoothed.
    destruct H as [H|H]; rewrite H; [|destruct (_prev_x self)]; reflexivity.
  - intros px py Hx Hy. cbv zeta. rewrite smooth_position_eq. unfold smoothed.
    rewrite Hx, Hy. reflexivity.
  - cbv zeta. rewrite smooth_position_eq. cbn.
    split; [eexists; repeat split|]. repeat split.
Qed.

(** ** calculate_scroll_delta *)

Lemma mul_sensitivity (x : float) :
  CursorMath.mul_int x config.SCROLL_SENSITIVITY = Ok (x * 10)%float.
Proof. unfold CursorMath.mul_int. rewrite of_int_sensitivity. reflexivity. Qed.

Lemma mul_100 (x : float) : CursorMath.mul_int x 100 = Ok (x * 100)%float.
Proof. unfold CursorMath.mul_int. rewrite of_int_100. reflexivity. Qed.

Lemma calculate_scroll_delta_eq (self : CursorMath) (current_y : float) :
  CursorMath.calculate_scroll_delta current_y self =
    (match _prev_scroll_y self with
     | None => Ok 0
     | Some reference_y => scroll_delta_of reference_y current_y
     end,
     CursorMath.set_prev_scroll_y (Some current_y) self, []).
Proof.
  unfold CursorMath.calculate_scroll_delta, scroll_delta_of, bind, get, modify, try, ret.
  destruct (_prev_scroll_y self) as [r|]; [|reflexivity].
  rewrite mul_sensitivity, mul_100.
  replace scroll_gain with 10%float by (vm_compute; reflexivity).
  destruct (PyFloat.to_int _); reflexivity.
Qed.

(** [int] truncates toward zero: the magnitude of the result is the integer
    part of the magnitude of the float, and the sign is the float's. *)
Lemma to_int_truncates (x : float) (s : bool) (m : positive) (e : Z) :
  Prim2SF x = S754_finite s m e ->
  exists n, PyFloat.to_int x = Ok (if s then - n else n) /\
            (0 <= e -> n = Z.pos m * 2 ^ e) /\
            (e < 0 -> n = Z.pos m / 2 ^ (- e)).
Proof.
  intros H. unfold PyFloat.to_int. rewrite H.
  exists (Z.shiftl (Z.pos m) e). split; [reflexivity|]. split; intros He.
  - apply Z.shiftl_mul_pow2. exact He.
  - apply Z.shiftl_div_pow2. lia.
Qed.

Example to_int_examples :
  PyFloat.to_int 2.7%float = Ok 2 /\ PyFloat.to_int (-2.7)%float = Ok (-2) /\
  PyFloat.to_int (-0.5)%float = Ok 0 /\ PyFloat.to_int 1250%float = Ok 1250 /\
  PyFloat.to_int nan = Raise ValueError /\
  PyFloat.to_int infinity = Raise OverflowError.
Proof. vm_compute. repeat split. Qed.

(** C6.  [calculate_scroll_delta]: with the reference unset it stores the
    current y and returns 0; with a reference set it returns
    [int((current_y - reference_y) * scroll_sensitivity * 100)], the integer
    truncation of that product; in both cases the reference becomes the
    current y, so that the next call measures from this frame (the delta is
    inter-frame), and nothing else changes.  The truncation is toward zero:
    of a finite float of mantissa [m] and exponent [e], [int] keeps the sign
    and the integer part of [m * 2 ^ e]. *)
Theorem calculate_scroll_delta_spec (self : CursorMath) (current_y : float) :
  scroll_gain = 10%float /\
  (_prev_scroll_y self = None ->
     CursorMath.calculate_scroll_delta current_y self =
       (Ok 0, CursorMath.set_prev_scroll_y (Some current_y) self, [])) /\
  (forall reference_y, _prev_scroll_y self = Some reference_y ->
     CursorMath.calculate_scroll_delta current_y self =
       (PyFloat.to_int ((current_y - reference_y) * scroll_gain * 100)%float,
        CursorMath.set_prev_scroll_y (Some current_y) self, [])) /\
  (let self' := state_of (CursorMath.calculate_scroll_delta current_y self) in
   _prev_scroll_y self' = Some current_y /\
   forall next_y,
     returned (CursorMath.calculate_scroll_delta next_y self') =
       PyFloat.to_int ((next_y - current_y) * scroll_gain * 100)%float) /\
  (forall delta s m e,
     Prim2SF delta = S754_finite s m e ->
     exists n, PyFloat.to_int delta = Ok (if s then - n else n) /\
               (0 <= e -> n = Z.pos m * 2 ^ e) /\
               (e < 0 -> n = Z.pos m / 2 ^ (- e))).
Proof.
  split; [vm_compute; reflexivity|]. split; [|split; [|split]];
    [| | |exact to_int_truncates].
  - intros H. rewrite calculate_scroll_delta_eq, H. reflexivity.
  - intros r H. rewrite calculate_scroll_delta_eq, H. reflexivity.
  - cbv zeta. rewrite (calculate_scroll_delta_eq self).
    unfold state_of. cbn [fst snd]. split; [reflexivity|].
    intros y. rewrite calculate_scroll_delta_eq. reflexivity.
Qed.

(** ** The gesture arbiter, branch by branch *)

Lemma process_no_index_tip self hd t e :
  HandEngine.get_fingertip hd "index" = Raise e ->
  _process_gestures hd t self = (Raise e, self, []).
Proof. intros H. py_unfold. rewrite H. reflexivity. Qed.

Lemma pointer_unfold self hd tip :
  HandEngine.get_fingertip hd "index" = Ok tip ->
  pointer self hd =
    CursorMath.map_to_screen (cursor_math (after_smoothing self tip))
      (fst (smoothed (cursor_math self) (lm_x tip) (lm_y tip)))
      (snd (smoothed (cursor_math self) (lm_x tip) (lm_y tip))).
Proof.
  intros H. unfold pointer, after_smoothing. rewrite H. cbn [result_bind].
  rewrite smooth_position_eq. reflexivity.
Qed.

Lemma process_map_raises self hd t tip e :
  HandEngine.get_fingertip hd "index" = Ok tip ->
  pointer self hd = Raise e ->
  _process_gestures hd t self = (Raise e, after_smoothing self tip, []).
Proof.
  intros H Hp. rewrite (@pointer_unfold self hd tip H) in Hp. revert Hp.
  unfold after_smoothing. py_unfold. rewrite H, smooth_position_eq.
  destruct (smoothed _ _ _) as [sx sy]. cbn.
  intros ->. reflexivity.
Qed.

Lemma process_failsafe self hd t tip x y :
  HandEngine.get_fingertip hd "index" = Ok tip ->
  pointer self hd = Ok (x, y) ->
  CursorMath.is_in_failsafe_region x y = true ->
  _process_gestures hd t self = (Ok EXIT_CODE, after_smoothing self tip, []).
Proof.
  intros H Hp Hf. rewrite (@pointer_unfold self hd tip H) in Hp. revert Hp.
  unfold after_smoothing. py_unfold. rewrite H, smooth_position_eq.
  destruct (smoothed _ _ _) as [sx sy]. cbn.
  intros ->. rewrite Hf. reflexivity.
Qed.

Lemma process_scroll self hd t tip x y :
  HandEngine.get_fingertip hd "index" = Ok tip ->
  pointer self hd = Ok (x, y) ->
  CursorMath.is_in_failsafe_region x y = false ->
  HandEngine.is_fist hd = Ok true ->
  _process_gestures hd t self = scroll_outcome hd t (after_smoothing self tip).
Proof.
  intros H Hp Hf Hfist. rewrite (@pointer_unfold self hd tip H) in Hp. revert Hp.
  unfold scroll_outcome, scroll_entry, after_smoothing.
  py_unfold. rewrite H, smooth_position_eq.
  destruct (smoothed _ _ _) as [sx sy]. cbn.
  intros ->. rewrite Hf, Hfist. cbn.
  destruct (is_scrolling self); cbn;
    (destruct (HandEngine.get_landmark hd HandEngine.WRIST) as [wrist|e];
     [|reflexivity]);
    rewrite calculate_scroll_delta_eq; cbn;
    (destruct (_prev_scroll_y (cursor_math self)) as [r|]; cbn;
     try reflexivity;
     (destruct (scroll_delta_of r (lm_y wrist)) as [d|e]; cbn; [|reflexivity]);
     destruct ((0 <? Z.abs d) && _); reflexivity).
Qed.

Lemma process_active self hd t tip x y :
  HandEngine.get_fingertip hd "index" = Ok tip ->
  pointer self hd = Ok (x, y) ->
  CursorMath.is_in_failsafe_region x y = false ->
  HandEngine.is_fist hd = Ok false ->
  _process_gestures hd t self = active_outcome hd t x y (after_smoothing self tip).
Proof.
  intros H Hp Hf Hfist. rewrite (@pointer_unfold self hd tip H) in Hp. revert Hp.
  unfold active_outcome, left_clicked, right_clicked, clicks, fires, after_smoothing.
  py_unfold. rewrite H, smooth_position_eq.
  destruct (smoothed _ _ _) as [sx sy]. cbn.
  intros ->. rewrite Hf, Hfist. cbn.
  destruct (_check_left_click hd) as [pl|e]; [|reflexivity].
  destruct (_check_right_click hd) as [pr|e]; cbn.
  - destruct pl, (is_left_clicking self); cbn;
      try destruct (0.3 <? t - last_left_click_time self)%float; cbn;
      destruct pr, (is_right_clicking self); cbn;
      try destruct (0.3 <? t - last_right_click_time self)%float; reflexivity.
  - destruct pl, (is_left_clicking self); cbn;
      try destruct (0.3 <? t - last_left_click_time self)%float; reflexivity.
Qed.

Lemma process_fist_raises self hd t tip x y e :
  HandEngine.get_fingertip hd "index" = Ok tip ->
  pointer self hd = Ok (x, y) ->
  CursorMath.is_in_failsafe_region x y = false ->
  HandEngine.is_fist hd = Raise e ->
  _process_gestures hd t self = (Raise e, after_smoothing self tip, []).
Proof.
  intros H Hp Hf Hfist. rewrite (@pointer_unfold self hd tip H) in Hp. revert Hp.
  unfold after_smoothing. py_unfold. rewrite H, smooth_position_eq.
  destruct (smoothed _ _ _) as [sx sy]. cbn.
  intros ->. rewrite Hf, Hfist. reflexivity.
Qed.

Lemma pointer_has_tip self hd p :
  pointer self hd = Ok p -> exists tip, HandEngine.get_fingertip hd "index" = Ok tip.
Proof.
  unfold pointer. destruct (HandEngine.get_fingertip hd "index") as [tip|e].
  - intros _. exists tip. reflexivity.
  - discriminate.
Qed.

Lemma run_frame_hand self hd t :
  run_frame (Some hd) t self =
    let o := _process_gestures hd t self in
    match returned o with
    | Raise e => (Raise e, state_of o, emitted o)
    | Ok r =>
        if r =? EXIT_CODE then (Ok Break, state_of o, emitted o)
        else (Ok (Continue r), clear_indicator t (state_of o), emitted o)
    end.
Proof.
  cbv zeta. unfold run_frame, clear_indicator, bind at 1.
  destruct (_process_gestures hd t self) as [[[r|e] s1] o1]; cbn; [|reflexivity].
  destruct (r =? EXIT_CODE); cbn.
  - rewrite app_nil_r. reflexivity.
  - unfold when. destruct (_ && _); cbn; rewrite app_nil_r; reflexivity.
Qed.

Lemma run_frame_no_hand self t :
  run_frame None t self = (Ok (Continue 0), clear_indicator t (idle self), []).
Proof.
  unfold run_frame, clear_indicator, idle. py_unfold. cbn.
  destruct (_ && _); reflexivity.
Qed.

Lemma clear_indicator_keeps t s :
  cursor_math (clear_indicator t s) = cursor_math s /\
  current_mode (clear_indicator t s) = current_mode s /\
  last_left_click_time (clear_indicator t s) = last_left_click_time s /\
  last_right_click_time (clear_indicator t s) = last_right_click_time s /\
  last_scroll_time (clear_indicator t s) = last_scroll_time s /\
  is_left_clicking (clear_indicator t s) = is_left_clicking s /\
  is_right_clicking (clear_indicator t s) = is_right_clicking s /\
  is_scrolling (clear_indicator t s) = is_scrolling s.
Proof. unfold clear_indicator. destruct (_ && _); repeat split. Qed.

(** ** Fail-safe precedence *)

(** C3.  When the smoothed, screen-mapped index fingertip of a frame lies in
    the fail-safe rectangle, [_process_gestures] returns the exit value and
    calls nothing (no move, click or scroll); apart from the filter state the
    object is untouched; the loop turn breaks, and [run] ends there without
    reading the frames that follow. *)
Theorem failsafe_precedence (self : KineticOS) (hd : HandLandmarks) (t : float)
    (x y : Z) :
  pointer self hd = Ok (x, y) ->
  CursorMath.is_in_failsafe_region x y = true ->
  let o := _process_gestures hd t self in
  returned o = Ok EXIT_CODE /\
  emitted o = [] /\
  (exists tip, HandEngine.get_fingertip hd "index" = Ok tip /\
               state_of o = after_smoothing self tip) /\
  run_frame (Some hd) t self = (Ok Break, state_of o, []) /\
  forall rest, run ((Some hd, t) :: rest) self = (Ok tt, state_of o, []).
Proof.
  intros Hp Hf. destruct (pointer_has_tip _ _ Hp) as [tip Htip].
  assert (E : _process_gestures hd t self = (Ok EXIT_CODE, after_smoothing self tip, []))
    by (eapply process_failsafe; eassumption).
  assert (R : run_frame (Some hd) t self = (Ok Break, after_smoothing self tip, []))
    by (rewrite run_frame_hand, E; reflexivity).
  cbv zeta. rewrite E. cbn [returned state_of emitted fst snd].
  repeat split; try assumption.
  - exists tip. split; [assumption|reflexivity].
  - intros rest. cbn [run]. unfold bind. rewrite R. reflexivity.
Qed.

(** ** SCROLL frames and the click edge state *)

Lemma scroll_outcome_keeps hd t s :
  let o := scroll_outcome hd t s in
  is_left_clicking (state_of o) = is_left_clicking s /\
  is_right_clicking (state_of o) = is_right_clicking s /\
  last_left_click_time (state_of o) = last_left_click_time s /\
  last_right_click_time (state_of o) = last_right_click_time s /\
  current_mode (state_of o) = config.MODE_SCROLL /\
  is_scrolling (state_of o) = true /\
  _prev_x (cursor_math (state_of o)) = _prev_x (cursor_math s) /\
  _prev_y (cursor_math (state_of o)) = _prev_y (cursor_math s).
Proof.
  cbv zeta. unfold scroll_outcome, scroll_entry.
  destruct (is_scrolling s) eqn:Hs; cbn;
    repeat (break_match; cbn);
    rewrite ?Hs; repeat split; reflexivity.
Qed.

(** C8.  On a frame whose hand is classified as a fist, the two click edge
    flags come out of [_process_gestures], and of the loop turn, as they went
    in, whatever else the frame does; and unless the frame is a fail-safe exit
    it is processed in SCROLL mode. *)
Theorem scroll_freezes_click_edges (self : KineticOS) (hd : HandLandmarks)
    (t : float) :
  HandEngine.is_fist hd = Ok true ->
  let o := _process_gestures hd t self in
  (is_left_clicking (state_of o) = is_left_clicking self /\
   is_right_clicking (state_of o) = is_right_clicking self) /\
  (is_left_clicking (state_of (run_frame (Some hd) t self)) = is_left_clicking self /\
   is_right_clicking (state_of (run_frame (Some hd) t self)) = is_right_clicking self) /\
  (forall x y, pointer self hd = Ok (x, y) ->
               CursorMath.is_in_failsafe_region x y = false ->
               current_mode (state_of o) = config.MODE_SCROLL).
Proof.
  intros Hfist. cbv zeta.
  assert (K : is_left_clicking (state_of (_process_gestures hd t self))
              = is_left_clicking self /\
              is_right_clicking (state_of (_process_gestures hd t self))
              = is_right_clicking self).
  { destruct (HandEngine.get_fingertip hd "index") as [tip|e] eqn:Htip.
    - destruct (pointer self hd) as [[x y]|e] eqn:Hp.
      + destruct (CursorMath.is_in_failsafe_region x y) eqn:Hf.
        * rewrite (process_failsafe self hd t Htip Hp Hf). split; reflexivity.
        * rewrite (process_scroll self hd t Htip Hp Hf Hfist).
          pose proof (scroll_outcome_keeps hd t (after_smoothing self tip)) as K.
          cbv zeta in K. destruct K as (K1 & K2 & _). split; assumption.
      + rewrite (process_map_raises self hd t Htip Hp). split; reflexivity.
    - rewrite (process_no_index_tip self hd t Htip). split; reflexivity. }
  split; [exact K|]. split.
  - rewrite run_frame_hand. cbv zeta.
    destruct (returned (_process_gestures hd t self)) as [r|e]; [|exact K].
    destruct (r =? EXIT_CODE); [exact K|].
    unfold state_of at 1 3. cbn [fst snd].
    destruct (clear_indicator_keeps t (state_of (_process_gestures hd t self)))
      as (_ & _ & _ & _ & _ & E1 & E2 & _).
    rewrite E1, E2. exact K.
  - intros x y Hp Hf. destruct (pointer_has_tip _ _ Hp) as [tip Htip].
    rewrite (process_scroll self hd t Htip Hp Hf Hfist).
    apply (scroll_outcome_keeps hd t (after_smoothing self tip)).
Qed.

(** ** Order of the steps of a hand frame *)

Lemma active_outcome_cursor_math hd t x y s :
  cursor_math (state_of (active_outcome hd t x y s)) = cursor_math s.
Proof.
  unfold active_outcome, left_clicked, right_clicked.
  repeat (break_match; cbn); reflexivity.
Qed.

Lemma process_filter_state self hd t tip :
  HandEngine.get_fingertip hd "index" = Ok tip ->
  _prev_x (cursor_math (state_of (_process_gestures hd t self)))
  = _prev_x (cursor_math (after_smoothing self tip)) /\
  _prev_y (cursor_math (state_of (_process_gestures hd t self)))
  = _prev_y (cursor_math (after_smoothing self tip)).
Proof.
  intros Htip.
  destruct (pointer self hd) as [[x y]|e] eqn:Hp.
  - destruct (CursorMath.is_in_failsafe_region x y) eqn:Hf.
    + rewrite (process_failsafe self hd t Htip Hp Hf). split; reflexivity.
    + destruct (HandEngine.is_fist hd) as [[|]|e] eqn:Hfist.
      * rewrite (process_scroll self hd t Htip Hp Hf Hfist).
        pose proof (scroll_outcome_keeps hd t (after_smoothing self tip)) as K.
        cbv zeta in K. destruct K as (_ & _ & _ & _ & _ & _ & K1 & K2).
        split; assumption.
      * rewrite (process_active self hd t Htip Hp Hf Hfist).
        rewrite active_outcome_cursor_math. split; reflexivity.
      * rewrite (process_fist_raises self hd t Htip Hp Hf Hfist). split; reflexivity.
  - rewrite (process_map_raises self hd t Htip Hp). split; reflexivity.
Qed.

(** C10.  The fail-safe test comes before the fist test: a frame whose
    pointer lies in the fail-safe rectangle exits even when the hand is a
    fist, without entering SCROLL mode and without scrolling, and such a frame
    exists; and on every hand frame that has an index fingertip, whatever its
    branch or outcome, the filter state left by the frame is the one produced
    by the call of [smooth_position] on the fingertip, which is made before
    the fail-safe and fist tests. *)
Theorem failsafe_before_fist_smoothing_first :
  (forall self hd t x y,
     pointer self hd = Ok (x, y) ->
     CursorMath.is_in_failsafe_region x y = true ->
     HandEngine.is_fist hd = Ok true ->
     let o := _process_gestures hd t self in
     returned o = Ok EXIT_CODE /\ emitted o = [] /\
     current_mode (state_of o) = current_mode self /\
     is_scrolling (state_of o) = is_scrolling self /\
     _prev_scroll_y (cursor_math (state_of o)) = _prev_scroll_y (cursor_math self) /\
     returned (run_frame (Some hd) t self) = Ok Break) /\
  (exists self hd t,
     HandEngine.is_fist hd = Ok true /\
     returned (_process_gestures hd t self) = Ok EXIT_CODE) /\
  (forall self hd t tip,
     HandEngine.get_fingertip hd "index" = Ok tip ->
     let f := CursorMath.smooth_position (lm_x tip) (lm_y tip) (cursor_math self) in
     let o := _process_gestures hd t self in
     exists p, returned f = Ok p /\
               _prev_x (cursor_math (state_of o)) = Some (fst p) /\
               _prev_y (cursor_math (state_of o)) = Some (snd p) /\
               pointer self hd = CursorMath.map_to_screen (state_of f) (fst p) (snd p)).
Proof.
  split; [|split].
  - intros self hd t x y Hp Hf _. cbv zeta.
    destruct (pointer_has_tip _ _ Hp) as [tip Htip].
    rewrite run_frame_hand. cbv zeta.
    rewrite (process_failsafe self hd t Htip Hp Hf).
    unfold after_smoothing. rewrite smooth_position_eq. cbn. repeat split.
  - exists Samples.start, Samples.grid_fist, 1%float.
    vm_compute. split; reflexivity.
  - intros self hd t tip Htip. cbv zeta.
    destruct (process_filter_state self hd t Htip) as [E1 E2].
    rewrite E1, E2. unfold pointer, after_smoothing. rewrite Htip.
    cbn [result_bind]. rewrite smooth_position_eq. cbn.
    exists (smoothed (cursor_math self) (lm_x tip) (lm_y tip)). repeat split.
Qed.

(** ** Hand loss *)

Lemma run_frame_hand_keeps self hd t :
  let s1 := state_of (_process_gestures hd t self) in
  let s2 := state_of (run_frame (Some hd) t self) in
  cursor_math s2 = cursor_math s1 /\
  current_mode s2 = current_mode s1 /\
  last_left_click_time s2 = last_left_click_time s1 /\
  last_right_click_time s2 = last_right_click_time s1 /\
  last_scroll_time s2 = last_scroll_time s1 /\
  is_left_clicking s2 = is_left_clicking s1 /\
  is_right_clicking s2 = is_right_clicking s1 /\
  is_scrolling s2 = is_scrolling s1.
Proof.
  cbv zeta. rewrite run_frame_hand. cbv zeta.
  destruct (returned (_process_gestures hd t self)) as [r|e];
    [destruct (r =? EXIT_CODE)|]; try (repeat split; reflexivity).
  apply clear_indicator_keeps.
Qed.

Lemma run_frame_emitted self hd t :
  emitted (run_frame (Some hd) t self) = emitted (_process_gestures hd t self).
Proof.
  rewrite run_frame_hand. cbv zeta.
  destruct (returned (_process_gestures hd t self)) as [r|e];
    [destruct (r =? EXIT_CODE)|]; reflexivity.
Qed.

(** C2, as the code has it.  A frame without a hand forces IDLE, unsets the
    filter state, clears both click edge flags and the scrolling flag, and
    calls nothing; it leaves the scroll reference and the debounce times as
    they are.  The filter state is unset by no other frame: a hand frame with
    an index fingertip leaves it set.  The scroll reference is renewed on the
    frame that enters SCROLL (a fist while the scrolling flag is down): that
    frame measures from its own wrist height and returns a delta of 0. *)
Theorem hand_loss_reset (self : KineticOS) :
  (forall t,
     let o := run_frame None t self in
     returned o = Ok (Continue 0) /\
     emitted o = [] /\
     current_mode (state_of o) = config.MODE_IDLE /\
     _prev_x (cursor_math (state_of o)) = None /\
     _prev_y (cursor_math (state_of o)) = None /\
     is_left_clicking (state_of o) = false /\
     is_right_clicking (state_of o) = false /\
     is_scrolling (state_of o) = false /\
     _prev_scroll_y (cursor_math (state_of o)) = _prev_scroll_y (cursor_math self) /\
     last_left_click_time (state_of o) = last_left_click_time self /\
     last_right_click_time (state_of o) = last_right_click_time self /\
     last_scroll_time (state_of o) = last_scroll_time self) /\
  (forall hd t tip,
     HandEngine.get_fingertip hd "index" = Ok tip ->
     let s' := state_of (run_frame (Some hd) t self) in
     exists px py, _prev_x (cursor_math s') = Some px /\
                   _prev_y (cursor_math s') = Some py) /\
  (forall hd t x y wrist,
     is_scrolling self = false ->
     pointer self hd = Ok (x, y) ->
     CursorMath.is_in_failsafe_region x y = false ->
     HandEngine.is_fist hd = Ok true ->
     HandEngine.get_landmark hd HandEngine.WRIST = Ok wrist ->
     let o := run_frame (Some hd) t self in
     returned o = Ok (Continue 0) /\
     emitted o = [] /\
     _prev_scroll_y (cursor_math (state_of o)) = Some (lm_y wrist) /\
     is_scrolling (state_of o) = true).
Proof.
  split; [|split].
  - intros t. cbv zeta. rewrite run_frame_no_hand.
    unfold state_of, returned, emitted. cbn [fst snd].
    destruct (clear_indicator_keeps t (idle self))
      as (E1 & E2 & E3 & E4 & E5 & E6 & E7 & E8).
    rewrite E1, E2, E3, E4, E5, E6, E7, E8. cbn. repeat split.
  - intros hd t tip Htip. cbv zeta.
    destruct (run_frame_hand_keeps self hd t) as (E & _). cbv zeta in E. rewrite E.
    destruct (process_filter_state self hd t Htip) as [E1 E2]. rewrite E1, E2.
    unfold after_smoothing. rewrite smooth_position_eq. cbn. eauto.
  - intros hd t x y wrist Hs Hp Hf Hfist Hw. cbv zeta.
    destruct (pointer_has_tip _ _ Hp) as [tip Htip].
    destruct (run_frame_hand_keeps self hd t) as (E & _ & _ & _ & _ & _ & _ & E'). 
    cbv zeta in E, E'. rewrite E, E', run_frame_emitted.
    rewrite run_frame_hand. cbv zeta.
    rewrite (process_scroll self hd t Htip Hp Hf Hfist).
    unfold scroll_outcome, scroll_entry, after_smoothing.
    rewrite Hw, smooth_position_eq. cbn. rewrite Hs. cbn. repeat split.
Qed.

(** ** Sample shape *)

Lemma getitem_app {A} (l extra : list A) (i : Z) :
  0 <= i < Z.of_nat (List.length l) -> getitem (l ++ extra) i = getitem l i.
Proof.
  intros Hi. unfold getitem. rewrite length_app, Nat2Z.inj_add.
  destruct (Z.ltb_spec i 0); [lia|].
  destruct (Z.ltb_spec i 0); [lia|]. cbn [orb].
  destruct (Z.leb_spec (Z.of_nat (List.length l) + Z.of_nat (List.length extra)) i); [lia|].
  destruct (Z.leb_spec (Z.of_nat (List.length l)) i); [lia|].
  rewrite nth_error_app1 by lia. reflexivity.
Qed.

Lemma getitem_short {A} (l : list A) (i : Z) :
  Z.of_nat (List.length l) <= i -> getitem l i = Raise IndexError.
Proof.
  intros Hi. unfold getitem.
  destruct (Z.ltb_spec i 0); [lia|].
  destruct (Z.ltb_spec i 0); [lia|]. cbn [orb].
  destruct (Z.leb_spec (Z.of_nat (List.length l)) i); [reflexivity|lia].
Qed.

Lemma getitem_in_range {A} (l : list A) (i : Z) :
  0 <= i < Z.of_nat (List.length l) -> exists a, getitem l i = Ok a.
Proof.
  intros Hi. unfold getitem.
  destruct (Z.ltb_spec i 0); [lia|].
  destruct (Z.ltb_spec i 0); [lia|]. cbn [orb].
  destruct (Z.leb_spec (Z.of_nat (List.length l)) i); [lia|].
  destruct (nth_error l (Z.to_nat i)) as [a|] eqn:E; [eauto|].
  apply nth_error_None in E. lia.
Qed.

Section Extended.
Variable hd : HandLandmarks.
Variable extra : list Landmark.
Hypothesis full : (21 <= List.length (landmarks hd))%nat.

Lemma get_landmark_extended (i : Z) :
  0 <= i <= 20 ->
  HandEngine.get_landmark (extended hd extra) i = HandEngine.get_landmark hd i.
Proof.
  intros Hi. unfold HandEngine.get_landmark, extended. cbn [landmarks].
  apply getitem_app. lia.
Qed.

Lemma get_fingertip_extended (finger : string) :
  HandEngine.get_fingertip (extended hd extra) finger
  = HandEngine.get_fingertip hd finger.
Proof.
  unfold HandEngine.get_fingertip, HandEngine.finger_tips.
  cbn [dict_get].
  repeat (destruct (String.eqb _ (lower finger));
          [cbn [result_bind]; apply get_landmark_extended;
           unfold HandEngine.THUMB_TIP, HandEngine.INDEX_FINGER_TIP,
             HandEngine.MIDDLE_FINGER_TIP, HandEngine.RING_FINGER_TIP,
             HandEngine.PINKY_TIP; lia|]).
  reflexivity.
Qed.

Lemma is_finger_curled_extended (finger : string) :
  HandEngine.is_finger_curled (extended hd extra) finger
  = HandEngine.is_finger_curled hd finger.
Proof.
  unfold HandEngine.is_finger_curled, HandEngine.finger_joints.
  cbn [dict_get].
  repeat (destruct (String.eqb _ (lower finger));
          [cbn [result_bind landmarks extended];
           rewrite !getitem_app
             by (unfold HandEngine.INDEX_FINGER_TIP, HandEngine.INDEX_FINGER_PIP,
                   HandEngine.INDEX_FINGER_MCP, HandEngine.MIDDLE_FINGER_TIP,
                   HandEngine.MIDDLE_FINGER_PIP, HandEngine.MIDDLE_FINGER_MCP,
                   HandEngine.RING_FINGER_TIP, HandEngine.RING_FINGER_PIP,
                   HandEngine.RING_FINGER_MCP, HandEngine.PINKY_TIP,
                   HandEngine.PINKY_PIP, HandEngine.PINKY_MCP; lia);
           reflexivity|]).
  reflexivity.
Qed.

Lemma is_fist_extended :
  HandEngine.is_fist (extended hd extra) = HandEngine.is_fist hd.
Proof.
  unfold HandEngine.is_fist, HandEngine.fingers, HandEngine.py_all.
  rewrite !is_finger_curled_extended. reflexivity.
Qed.

Lemma process_extended (t : float) (self : KineticOS) :
  _process_gestures (extended hd extra) t self = _process_gestures hd t self.
Proof.
  unfold _process_gestures, _check_left_click, _check_right_click.
  rewrite !get_fingertip_extended, is_fist_extended.
  rewrite get_landmark_extended by (unfold HandEngine.WRIST; lia).
  reflexivity.
Qed.
End Extended.

Lemma get_fingertip_index (hd : HandLandmarks) :
  HandEngine.get_fingertip hd "index" = getitem (landmarks hd) 8.
Proof. reflexivity. Qed.

(** C9, as the code has it.  The core does not check the shape of a sample;
    it only indexes into it.  A sample too short to hold the index fingertip
    (fewer than 9 points) raises [IndexError] at the first lookup, before any
    change of state and before any action.  A sample of 9 points or more is
    used before anything can fail: its fingertip goes into the filter state.
    Points beyond the 21st are ignored: the frame is processed as if they
    were not there. *)
Theorem sample_shape_unchecked (self : KineticOS) (hd : HandLandmarks) (t : float) :
  ((List.length (landmarks hd) < 9)%nat ->
     _process_gestures hd t self = (Raise IndexError, self, [])) /\
  ((9 <= List.length (landmarks hd))%nat ->
     exists tip px py,
       HandEngine.get_fingertip hd "index" = Ok tip /\
       _prev_x (cursor_math (state_of (_process_gestures hd t self))) = Some px /\
       _prev_y (cursor_math (state_of (_process_gestures hd t self))) = Some py) /\
  ((21 <= List.length (landmarks hd))%nat ->
     forall extra,
       _process_gestures (extended hd extra) t self = _process_gestures hd t self).
Proof.
  split; [|split].
  - intros Hlen. apply process_no_index_tip.
    rewrite get_fingertip_index. apply getitem_short. lia.
  - intros Hlen.
    destruct (@getitem_in_range _ (landmarks hd) 8) as [tip Htip]; [lia|].
    rewrite <- get_fingertip_index in Htip.
    destruct (process_filter_state self hd t Htip) as [E1 E2].
    exists tip. rewrite E1, E2. unfold after_smoothing.
    rewrite smooth_position_eq. cbn. eauto.
  - intros Hlen extra. apply process_extended. exact Hlen.
Qed.

(** ** Curl and fist *)

Lemma SFmul_comm (x y : spec_float) : SFmul prec emax x y = SFmul prec emax y x.
Proof.
  destruct x as [sx|sx| |sx mx ex], y as [sy|sy| |sy my ey]; cbn;
    rewrite ?(xorb_comm sx sy), ?(Pos.mul_comm mx my), ?(Z.add_comm ex ey);
    reflexivity.
Qed.

Lemma float_mul_comm (x y : float) : (x * y = y * x)%float.
Proof.
  apply Prim2SF_inj. rewrite !mul_spec. apply SFmul_comm.
Qed.

Lemma getitem_nth {A} (l : list A) (i : Z) (d : A) :
  0 <= i < Z.of_nat (List.length l) -> getitem l i = Ok (nth (Z.to_nat i) l d).
Proof.
  intros Hi. unfold getitem.
  destruct (Z.ltb_spec i 0); [lia|].
  destruct (Z.ltb_spec i 0); [lia|]. cbn [orb].
  destruct (Z.leb_spec (Z.of_nat (List.length l)) i); [lia|].
  rewrite (nth_error_nth' l d) by lia. reflexivity.
Qed.

Lemma pow2_cases (x : float) :
  PyFloat.pow2 x = Ok (PyFloat.square x) \/
  PyFloat.pow2 x = Raise OverflowError \/ PyFloat.pow2 x = Raise ValueError.
Proof. unfold PyFloat.pow2. destruct (snd (PyFloat.pow2_answer x)); auto. Qed.

Lemma np_hypot_cases (dx dy : float) :
  let ok d := match PyFloat.pow2 d with Ok _ => true | Raise _ => false end in
  (ok dx && ok dy = true ->
     HandEngine.np_hypot dx dy = Ok (sqrt (PyFloat.square dx + PyFloat.square dy))) /\
  (ok dx && ok dy = false ->
     exists e, HandEngine.np_hypot dx dy = Raise e /\
               (e = OverflowError \/ e = ValueError)).
Proof.
  cbv zeta. unfold HandEngine.np_hypot.
  destruct (pow2_cases dx) as [A|[A|A]]; rewrite A; cbn [result_bind andb];
    try (split; [discriminate|intros _; eauto]).
  destruct (pow2_cases dy) as [B|[B|B]]; rewrite B; cbn [result_bind andb];
    try (split; [discriminate|intros _; eauto]).
  split; [reflexivity|discriminate].
Qed.

Lemma is_finger_curled_joints (hd : HandLandmarks) (finger : string)
    (tip_idx pip_idx mcp_idx : Z) :
  dict_get HandEngine.finger_joints (lower finger) = Ok (tip_idx, pip_idx, mcp_idx) ->
  0 <= tip_idx < Z.of_nat (List.length (landmarks hd)) ->
  0 <= pip_idx < Z.of_nat (List.length (landmarks hd)) ->
  0 <= mcp_idx < Z.of_nat (List.length (landmarks hd)) ->
  let tip := joint hd tip_idx in
  let pip := joint hd pip_idx in
  let mcp := joint hd mcp_idx in
  (powers_return tip pip mcp = true ->
     HandEngine.is_finger_curled hd finger = Ok (curled PyFloat.square tip pip mcp)) /\
  (powers_return tip pip mcp = false ->
     exists e, HandEngine.is_finger_curled hd finger = Raise e /\
               (e = OverflowError \/ e = ValueError)).
Proof.
  intros Hd Ht Hp Hm. cbv zeta.
  set (tip := joint hd tip_idx). set (pip := joint hd pip_idx).
  set (mcp := joint hd mcp_idx).
  assert (E : HandEngine.is_finger_curled hd finger
              = (tip_to_mcp <- HandEngine.np_hypot (lm_x tip - lm_x mcp)
                                 (lm_y tip - lm_y mcp) ;;
                 pip_to_mcp <- HandEngine.np_hypot (lm_x pip - lm_x mcp)
                                 (lm_y pip - lm_y mcp) ;;
                 Ok (tip_to_mcp <? pip_to_mcp * 1.2)%float)%result).
  { unfold HandEngine.is_finger_curled, tip, pip, mcp, joint.
    rewrite Hd. unfold result_bind at 1. cbv beta iota.
    rewrite (@getitem_nth Landmark _ _ (0, 0, 0)%float Ht),
      (@getitem_nth Landmark _ _ (0, 0, 0)%float Hp),
      (@getitem_nth Landmark _ _ (0, 0, 0)%float Hm).
    reflexivity. }
  rewrite E. unfold curled, planar_distance, powers_return. cbn [forallb].
  destruct (np_hypot_cases (lm_x tip - lm_x mcp) (lm_y tip - lm_y mcp)) as [A1 A2].
  destruct (np_hypot_cases (lm_x pip - lm_x mcp) (lm_y pip - lm_y mcp)) as [B1 B2].
  cbv zeta in A1, A2, B1, B2. rewrite andb_true_r, andb_assoc.
  destruct (_ && _) eqn:E1 in A1, A2 |- *.
  - rewrite (A1 eq_refl). cbn [result_bind andb].
    destruct (_ && _) eqn:E2 in B1, B2 |- *.
    + rewrite (B1 eq_refl). cbn [result_bind].
      rewrite (float_mul_comm _ 1.2). split; [reflexivity|discriminate].
    + destruct (B2 eq_refl) as (e & B & He). rewrite B. cbn [result_bind].
      split; [discriminate|eauto].
  - destruct (A2 eq_refl) as (e & A & He). rewrite A. cbn [result_bind andb].
    split; [discriminate|eauto].
Qed.

(** What the tests of [x ** 2] say about the binary64 value. *)
Lemma SFcompare_refl_nan (x : spec_float) : SFeqb x x = false -> x = S754_nan.
Proof.
  unfold SFeqb.
  destruct x as [s|s| |s m e]; try destruct s; cbn [SFcompare]; try discriminate;
    try reflexivity;
    rewrite Z.compare_refl, Pos.compare_cont_spec, Pos.compare_refl; discriminate.
Qed.

Lemma is_nan_SF (x : float) : is_nan x = true -> Prim2SF x = S754_nan.
Proof.
  unfold is_nan. rewrite eqb_spec. intros H. apply SFcompare_refl_nan.
  destruct (SFeqb _ _); [discriminate|reflexivity].
Qed.

Lemma is_infinity_SF (x : float) :
  is_infinity x = true -> exists s, Prim2SF x = S754_infinity s.
Proof.
  unfold is_infinity. rewrite eqb_spec, abs_spec.
  replace (Prim2SF infinity) with (S754_infinity false) by reflexivity.
  unfold SFeqb.
  destruct (Prim2SF x) as [s|s| |s m e]; cbn [SFabs SFcompare]; try discriminate.
  eauto.
Qed.

Lemma eqb_zero_SF (x : float) : (x =? 0)%float = true -> exists s, Prim2SF x = S754_zero s.
Proof.
  rewrite eqb_spec. replace (Prim2SF 0) with (S754_zero false) by reflexivity.
  unfold SFeqb.
  destruct (Prim2SF x) as [s|s| |s m e]; try destruct s; cbn [SFcompare];
    try discriminate; eauto.
Qed.

Lemma eqb_one (x : float) : (x =? 1)%float = true -> x = 1%float.
Proof.
  rewrite eqb_spec. intros H. apply Prim2SF_inj. revert H.
  remember (Prim2SF 1) as one eqn:E1. vm_compute in E1. subst one.
  unfold SFeqb.
  destruct (Prim2SF x) as [s|s| |s m e]; try destruct s; cbn [SFcompare];
    try discriminate.
  destruct (Z.compare_spec e (-52)) as [->|H|H]; try discriminate.
  rewrite Pos.compare_cont_spec.
  destruct (Pos.compare_spec m 4503599627370496) as [->|H|H]; cbn [Pos.switch_Eq];
    try discriminate.
  reflexivity.
Qed.

Lemma positive_part_positive (x : float) :
  is_nan x = false -> is_infinity x = false -> (x =? 0)%float = false ->
  (0 <? (if (x <? 0)%float then (- x)%float else x))%float = true.
Proof.
  unfold is_nan, is_infinity. rewrite !eqb_spec, abs_spec.
  assert (Z0 : Prim2SF 0 = S754_zero false) by reflexivity.
  assert (I0 : Prim2SF infinity = S754_infinity false) by reflexivity.
  rewrite Z0, I0.
  destruct (Prim2SF x) as [s|s| |s m e] eqn:E.
  - intros _ _ H. destruct s; discriminate.
  - intros _ H. destruct s; discriminate.
  - intros H. discriminate.
  - intros _ _ _.
    assert (L : (x <? 0)%float = s).
    { rewrite ltb_spec, E, Z0. destruct s; reflexivity. }
    rewrite L. destruct s.
    + rewrite ltb_spec, opp_spec, E, Z0. reflexivity.
    + rewrite ltb_spec, E, Z0. reflexivity.
Qed.

Lemma SFmul_opp_opp (x : spec_float) :
  SFmul prec emax (SFopp x) (SFopp x) = SFmul prec emax x x.
Proof. destruct x as [s|s| |s m e]; try destruct s; reflexivity. Qed.

Lemma mul_opp_opp (x : float) : ((- x) * (- x) = x * x)%float.
Proof. apply Prim2SF_inj. rewrite !mul_spec, opp_spec. apply SFmul_opp_opp. Qed.

(** On a C library with a correctly rounded [pow], [x ** 2] is the binary64
    product [x * x], and it raises exactly when a finite [x] has an infinite
    square. *)
Lemma pow2_exact (x : float) :
  exact_pow2 ->
  PyFloat.square x = (x * x)%float /\
  PyFloat.pow2 x
  = if is_finite x && is_infinity (x * x) then Raise OverflowError else Ok (x * x)%float.
Proof.
  intros Hx. unfold PyFloat.pow2, PyFloat.square, PyFloat.pow2_answer, is_finite.
  destruct (is_nan x) eqn:N.
  { assert (E : (x * x)%float = x).
    { apply Prim2SF_inj. rewrite mul_spec, (@is_nan_SF x N). reflexivity. }
    cbn [fst snd orb negb andb]. rewrite E. split; reflexivity. }
  destruct (is_infinity x) eqn:I.
  { assert (E : (x * x)%float = abs x).
    { apply Prim2SF_inj. rewrite mul_spec, abs_spec.
      destruct (@is_infinity_SF x I) as [s ->]. destruct s; reflexivity. }
    cbn [fst snd orb negb andb]. rewrite E. split; reflexivity. }
  cbn [orb negb andb].
  destruct (x =? 0)%float eqn:Z.
  { assert (E : (x * x)%float = 0%float).
    { apply Prim2SF_inj. rewrite mul_spec.
      destruct (@eqb_zero_SF x Z) as [s ->]. destruct s; reflexivity. }
    cbn [fst snd]. rewrite E. split; reflexivity. }
  cbv zeta.
  assert (S : ((if (x <? 0)%float then (- x)%float else x)
               * (if (x <? 0)%float then (- x)%float else x))%float = (x * x)%float).
  { destruct (x <? 0)%float; [apply mul_opp_opp|reflexivity]. }
  pose proof (@positive_part_positive x N I Z) as Q.
  set (iv := if (x <? 0)%float then (- x)%float else x) in *.
  destruct (iv =? 1)%float eqn:O.
  { rewrite (@eqb_one iv O) in S. cbn [fst snd]. rewrite <- S.
    split; vm_compute; reflexivity. }
  rewrite (Hx iv Q), S. cbn [fst snd].
  destruct (is_infinity (x * x)); split; reflexivity.
Qed.

Lemma is_fist_unfold (hd : HandLandmarks) :
  HandEngine.is_fist hd =
    (b1 <- HandEngine.is_finger_curled hd "index" ;;
     if b1 then
       b2 <- HandEngine.is_finger_curled hd "middle" ;;
       if b2 then
         b3 <- HandEngine.is_finger_curled hd "ring" ;;
         if b3 then
           b4 <- HandEngine.is_finger_curled hd "pinky" ;;
           if b4 then Ok true else Ok false
         else Ok false
       else Ok false
     else Ok false)%result.
Proof. reflexivity. Qed.

(** C7.  [is_fist] is true exactly when each of index, middle, ring and pinky
    is curled (the thumb is not consulted); when the four curl tests return,
    [is_fist] is their conjunction, so one extended finger makes it false.
    On a 21-point sample the curl test of a finger is the predicate [curled]
    of the specification on that finger's tip, pip and mcp points: the planar
    distance from tip to mcp strictly below 1.2 times the one from pip to
    mcp, with the squares under the roots being the values of [x ** 2]; the
    test returns exactly when none of these four powers raises.  Where the
    platform's [pow] is correctly rounded, [x ** 2] is the product [x * x]
    of binary64. *)
Theorem is_fist_spec (hd : HandLandmarks) :
  (HandEngine.is_fist hd = Ok true <->
     forall finger, In finger ["index"; "middle"; "ring"; "pinky"]%string ->
                    HandEngine.is_finger_curled hd finger = Ok true) /\
  (forall b1 b2 b3 b4,
     HandEngine.is_finger_curled hd "index" = Ok b1 ->
     HandEngine.is_finger_curled hd "middle" = Ok b2 ->
     HandEngine.is_finger_curled hd "ring" = Ok b3 ->
     HandEngine.is_finger_curled hd "pinky" = Ok b4 ->
     HandEngine.is_fist hd = Ok (b1 && b2 && b3 && b4)) /\
  (List.length (landmarks hd) = 21%nat ->
     forall finger tip_idx pip_idx mcp_idx,
       In (finger, (tip_idx, pip_idx, mcp_idx))
          [("index", (8, 6, 5)); ("middle", (12, 10, 9));
           ("ring", (16, 14, 13)); ("pinky", (20, 18, 17))]%string ->
       let tip := joint hd tip_idx in
       let pip := joint hd pip_idx in
       let mcp := joint hd mcp_idx in
       (powers_return tip pip mcp = true ->
          HandEngine.is_finger_curled hd finger
          = Ok (curled PyFloat.square tip pip mcp)) /\
       (powers_return tip pip mcp = false ->
          exists e, HandEngine.is_finger_curled hd finger = Raise e /\
                    (e = OverflowError \/ e = ValueError))) /\
  (exact_pow2 ->
     forall x,
       PyFloat.square x = (x * x)%float /\
       PyFloat.pow2 x
       = if is_finite x && is_infinity (x * x) then Raise OverflowError
         else Ok (x * x)%float).
Proof.
  split; [|split; [|split]].
  - rewrite is_fist_unfold. split.
    + intros H finger Hin.
      destruct (HandEngine.is_finger_curled hd "index") as [[|]|] eqn:E1;
        try discriminate.
      destruct (HandEngine.is_finger_curled hd "middle") as [[|]|] eqn:E2;
        try discriminate.
      destruct (HandEngine.is_finger_curled hd "ring") as [[|]|] eqn:E3;
        try discriminate.
      destruct (HandEngine.is_finger_curled hd "pinky") as [[|]|] eqn:E4;
        try discriminate.
      cbn in Hin. destruct Hin as [<-|[<-|[<-|[<-|[]]]]]; assumption.
    + intros H.
      rewrite (H "index"%string), (H "middle"%string), (H "ring"%string),
        (H "pinky"%string) by (cbn; tauto).
      reflexivity.
  - intros b1 b2 b3 b4 H1 H2 H3 H4. rewrite is_fist_unfold, H1, H2, H3, H4.
    destruct b1, b2, b3, b4; reflexivity.
  - intros Hlen finger tip_idx pip_idx mcp_idx Hin.
    cbn [In] in Hin.
    destruct Hin as [E|[E|[E|[E|[]]]]]; inversion E; subst;
      apply is_finger_curled_joints; try reflexivity; rewrite Hlen; lia.
  - intros Hx x. apply pow2_exact. exact Hx.
Qed.

(** ** Click edge triggering *)

Lemma active_step (k : ClickKind) self hd t p :
  active_frame self hd -> pinch_of k hd = Ok p ->
  let o := run_frame (Some hd) t self in
  let fire := fires p (edge_of k self) t (last_fire_of k self) in
  returned o = Ok (Continue 0) /\
  current_mode (state_of o) = config.MODE_ACTIVE /\
  fired k (emitted o) = fire /\
  edge_of k (state_of o) = p /\
  last_fire_of k (state_of o) = (if fire then t else last_fire_of k self) /\
  (exists x y, pointer self hd = Ok (x, y) /\ In (moveTo x y) (emitted o)).
Proof.
  intros ((x & y & Hp & Hf) & Hfist & (pl & Hl) & (pr & Hr)) Hk. cbv zeta.
  destruct (pointer_has_tip _ _ Hp) as [tip Htip].
  destruct (run_frame_hand_keeps self hd t) as (_ & E2 & E3 & E4 & _ & E6 & E7 & _).
  cbv zeta in E2, E3, E4, E6, E7.
  assert (Ee : edge_of k (state_of (run_frame (Some hd) t self))
               = edge_of k (state_of (_process_gestures hd t self)))
    by (destruct k; assumption).
  assert (El : last_fire_of k (state_of (run_frame (Some hd) t self))
               = last_fire_of k (state_of (_process_gestures hd t self)))
    by (destruct k; assumption).
  rewrite Ee, El, E2, run_frame_emitted. clear Ee El E2 E3 E4 E6 E7.
  rewrite run_frame_hand. cbv zeta.
  rewrite (process_active self hd t Htip Hp Hf Hfist).
  unfold active_outcome. rewrite Hl, Hr.
  unfold returned, state_of, emitted. cbn [fst snd]. cbn [Z.eqb EXIT_CODE].
  unfold after_smoothing, left_clicked, right_clicked, fired, clicks.
  destruct k; cbn in Hk; cbn [edge_of last_fire_of].
  - assert (pl = p) by congruence. subst pl.
    repeat split; try (exists x, y; split; [assumption|left; reflexivity]);
      cbn; destruct (fires p _ _ _), (fires pr _ _ _); cbn; reflexivity.
  - assert (pr = p) by congruence. subst pr.
    repeat split; try (exists x, y; split; [assumption|left; reflexivity]);
      cbn; destruct (fires pl _ _ _), (fires p _ _ _); cbn; reflexivity.
Qed.

Lemma fires_in_active (k : ClickKind) frames :
  forall pinches self,
    active_frames k frames pinches self ->
    fires_in k frames self
    = edge_fires pinches (map snd frames) (edge_of k self) (last_fire_of k self).
Proof.
  induction frames as [|[hd t] frames IH]; intros [|p pinches] self H;
    cbn in H; try contradiction; [reflexivity|].
  destruct H as (Ha & Hk & Hrest).
  destruct (active_step k t Ha Hk) as (_ & _ & Hf & He & Hl & _). cbv zeta in *.
  cbn [fires_in map snd edge_fires]. rewrite Hf. f_equal.
  rewrite (IH _ _ Hrest), He, Hl. reflexivity.
Qed.

(** C1.  On a frame handled in ACTIVE mode, a click of a kind (left or right)
    is sent exactly when its pinch predicate holds, its edge flag from the
    previous frame is down, and the time since the last fire of that kind
    exceeds the click debounce interval; the edge flag becomes the predicate's
    value whether or not the click was sent, and the time of last fire moves
    only on a fire.  Over a sequence of ACTIVE frames the fires are those of
    [edge_fires].  In particular the predicate sequence false, true, true,
    false, true, with the debounce interval exceeded at both rising edges,
    fires exactly at indices 1 and 4; true, true, true fires at most once, on
    its first frame; and a second rising edge inside the debounce window of
    the first does not fire. *)
Theorem click_edge_triggering (k : ClickKind) :
  (forall self hd t p,
     active_frame self hd -> pinch_of k hd = Ok p ->
     let o := run_frame (Some hd) t self in
     (fired k (emitted o) = true <->
        p = true /\ edge_of k self = false /\
        (config.CLICK_DEBOUNCE_TIME <? t - last_fire_of k self)%float = true) /\
     edge_of k (state_of o) = p /\
     last_fire_of k (state_of o)
     = (if fired k (emitted o) then t else last_fire_of k self)) /\
  (forall frames pinches self,
     active_frames k frames pinches self ->
     fires_in k frames self
     = edge_fires pinches (map snd frames) (edge_of k self) (last_fire_of k self)) /\
  (forall self h0 t0 h1 t1 h2 t2 h3 t3 h4 t4,
     active_frames k [(h0, t0); (h1, t1); (h2, t2); (h3, t3); (h4, t4)]
       [false; true; true; false; true] self ->
     (config.CLICK_DEBOUNCE_TIME <? t1 - last_fire_of k self)%float = true ->
     (config.CLICK_DEBOUNCE_TIME <? t4 - t1)%float = true ->
     fires_in k [(h0, t0); (h1, t1); (h2, t2); (h3, t3); (h4, t4)] self
     = [false; true; false; false; true]) /\
  (forall self h0 t0 h1 t1 h2 t2,
     active_frames k [(h0, t0); (h1, t1); (h2, t2)] [true; true; true] self ->
     fires_in k [(h0, t0); (h1, t1); (h2, t2)] self
     = [fires true (edge_of k self) t0 (last_fire_of k self); false; false]) /\
  (forall self h0 t0 h1 t1 h2 t2,
     active_frames k [(h0, t0); (h1, t1); (h2, t2)] [true; false; true] self ->
     edge_of k self = false ->
     (config.CLICK_DEBOUNCE_TIME <? t0 - last_fire_of k self)%float = true ->
     (config.CLICK_DEBOUNCE_TIME <? t2 - t0)%float = false ->
     fires_in k [(h0, t0); (h1, t1); (h2, t2)] self = [true; false; false]).
Proof.
  split; [|split; [|split; [|split]]].
  - intros self hd t p Ha Hk. cbv zeta.
    destruct (active_step k t Ha Hk) as (_ & _ & Hf & He & Hl & _). cbv zeta in *.
    rewrite Hf. split; [|split; assumption].
    unfold fires. rewrite !andb_true_iff, negb_true_iff. tauto.
  - apply fires_in_active.
  - intros self h0 t0 h1 t1 h2 t2 h3 t3 h4 t4 H H1 H4.
    rewrite (@fires_in_active k _ _ _ H). cbn [edge_fires map snd].
    unfold fires. cbn [andb negb]. rewrite H1. cbn [andb negb]. rewrite H4.
    reflexivity.
  - intros self h0 t0 h1 t1 h2 t2 H.
    rewrite (@fires_in_active k _ _ _ H). cbn [edge_fires map snd].
    unfold fires at 2 3. cbn [andb negb]. reflexivity.
  - intros self h0 t0 h1 t1 h2 t2 H He H0 H2.
    rewrite (@fires_in_active k _ _ _ H). cbn [edge_fires map snd].
    unfold fires. rewrite He. cbn [andb negb]. rewrite H0. cbn [andb negb].
    rewrite H2. reflexivity.
Qed.








(** A clamped coordinate is a finite number below 1. *)
Lemma fmag_start : fmag 0.2 0.
Proof. unfold fmag. remember (Prim2SF 0.2) as c eqn:E. vm_compute in E. subst c. cbn. lia. Qed.

Lemma fmag_end : fmag 0.8 0.
Proof. unfold fmag. remember (Prim2SF 0.8) as c eqn:E. vm_compute in E. subst c. cbn. lia. Qed.

Lemma clamp_fmag (x : float) : fmag (clamp 0.2 0.8 x) 0.
Proof.
  unfold clamp, PyFloat.max, PyFloat.min.
  destruct (x <? 0.8)%float eqn:H1.
  - destruct (0.2 <? x)%float eqn:H2; [|exact fmag_start].
    unfold fmag. pose proof (Prim2SF_valid x) as V.
    rewrite ltb_spec in H1, H2. revert H1 H2.
    remember (Prim2SF 0.2) as lo eqn:Elo. vm_compute in Elo. subst lo.
    remember (Prim2SF 0.8) as hi eqn:Ehi. vm_compute in Ehi. subst hi.
    unfold SFltb.
    destruct (Prim2SF x) as [s|s| |s m e]; try destruct s; cbn [SFcompare mag];
      try discriminate.
    destruct (@valid_finite false m e V) as [Hd _].
    destruct (Z.compare_spec e (-53)) as [->|H|H]; try discriminate; intros _ _; lia.
  - replace (0.2 <? 0.8)%float with true by (vm_compute; reflexivity).
    exact fmag_end.
Qed.

Lemma py_int_min_max (dim p : Z) :
  PyInt.max 0 (PyInt.min (dim - 1) p) = clamp_pixel dim p.
Proof.
  unfold PyInt.max, PyInt.min, clamp_pixel.
  destruct (Z.ltb_spec p (dim - 1)).
  - rewrite Z.min_r by lia. destruct (Z.ltb_spec 0 p); lia.
  - rewrite Z.min_l by lia. destruct (Z.ltb_spec 0 (dim - 1)); lia.
Qed.

Lemma truediv_width (v : float) :
  PyFloat.truediv v (0.8 - 0.2) = Ok (v / (0.8 - 0.2))%float.
Proof.
  unfold PyFloat.truediv.
  replace (0.8 - 0.2 =? 0)%float with false by (vm_compute; reflexivity).
  reflexivity.
Qed.

Lemma map_to_screen_eq (self : CursorMath) (norm_x norm_y : float) :
  config_region self ->
  CursorMath.map_to_screen self norm_x norm_y =
    (fx <- CursorMath.mul_int (mirror (rescale 0.2 0.8 (clamp 0.2 0.8 norm_x)))
             (screen_width self) ;;
     screen_x <- PyFloat.to_int fx ;;
     fy <- CursorMath.mul_int (rescale 0.2 0.8 (clamp 0.2 0.8 norm_y))
             (screen_height self) ;;
     screen_y <- PyFloat.to_int fy ;;
     Ok (clamp_pixel (screen_width self) screen_x,
         clamp_pixel (screen_height self) screen_y))%result.
Proof.
  intros (Hxs & Hxe & Hys & Hye).
  unfold CursorMath.map_to_screen. rewrite Hxs, Hxe, Hys, Hye.
  unfold config.ACTIVE_REGION_X_START, config.ACTIVE_REGION_X_END,
    config.ACTIVE_REGION_Y_START, config.ACTIVE_REGION_Y_END.
  rewrite !truediv_width. cbn [result_bind].
  unfold mirror, rescale, clamp.
  destruct (CursorMath.mul_int _ (screen_width self)) as [fx|e]; [|reflexivity].
  cbn [result_bind].
  destruct (PyFloat.to_int fx) as [sx|e]; [|reflexivity]. cbn [result_bind].
  destruct (CursorMath.mul_int _ (screen_height self)) as [fy|e]; [|reflexivity].
  cbn [result_bind].
  destruct (PyFloat.to_int fy) as [sy|e]; [|reflexivity]. cbn [result_bind].
  rewrite !py_int_min_max. reflexivity.
Qed.

Lemma rescale_fmag (v : float) : fmag (rescale 0.2 0.8 (clamp 0.2 0.8 v)) 4.
Proof.
  unfold rescale.
  assert (H : fmag (clamp 0.2 0.8 v - 0.2) 2).
  { change 2 with (0 + 2). apply fmag_sub; try lia.
    - apply clamp_fmag.
    - exact fmag_start. }
  assert (Ew : Prim2SF (0.8 - 0.2) = S754_finite false 5404319552844596 (-53))
    by (vm_compute; reflexivity).
  pose proof (@fmag_div (clamp 0.2 0.8 v - 0.2) (0.8 - 0.2) _ _ _ 2 Ew H) as D.
  cbn [digits2_pos Pos.succ] in D. apply D; lia.
Qed.

Lemma mirror_fmag (u : float) : fmag u 4 -> fmag (mirror u) 6.
Proof.
  intros H. unfold mirror. change 6 with (4 + 2). apply fmag_sub; try lia; [|exact H].
  unfold fmag. remember (Prim2SF 1.0) as c eqn:E. vm_compute in E. subst c. cbn. lia.
Qed.

Lemma to_int_finite (f : float) (k : Z) : fmag f k -> exists n, PyFloat.to_int f = Ok n.
Proof.
  intros H. unfold PyFloat.to_int.
  destruct (@fmag_finite f k H) as [[s E]|(s & m & e & E)]; rewrite E; eauto.
Qed.

Lemma of_int_screen (dim : Z) :
  0 <= dim < 2 ^ 63 -> PyFloat.of_int dim = Ok (PyFloat.of_int_round dim).
Proof.
  intros H. unfold PyFloat.of_int.
  rewrite (@fmag_not_infinity (PyFloat.of_int_round dim) 64); [reflexivity|].
  apply fmag_of_int. exact H.
Qed.

Lemma to_pixel_total (u : float) (dim k : Z) :
  fmag u k -> -1138 <= k <= 900 -> 0 <= dim < 2 ^ 63 ->
  CursorMath.mul_int u dim = Ok (u * PyFloat.of_int_round dim)%float /\
  exists p, to_pixel u dim = Ok p.
Proof.
  intros Hu Hk Hd. unfold CursorMath.mul_int, to_pixel.
  rewrite (@of_int_screen dim Hd). cbn [result_bind]. split; [reflexivity|].
  apply (@to_int_finite _ (k + 64 + 1)).
  apply fmag_mul; try lia; [exact Hu|].
  apply fmag_of_int. exact Hd.
Qed.


Example map_to_screen_examples :
  let self := CursorMath.__init__ 1920 1080 in
  CursorMath.map_to_screen self 0.5 0.5 = Ok (960, 539) /\
  CursorMath.map_to_screen self 0.2 0.2 = Ok (1919, 0) /\
  CursorMath.map_to_screen self 0.8 0.8 = Ok (0, 1079) /\
  CursorMath.map_to_screen self 0.9 0.1 = Ok (0, 0) /\
  CursorMath.map_to_screen self (-3) 7 = Ok (1919, 1079) /\
  CursorMath.map_to_screen self nan infinity = Ok (0, 1079) /\
  nearest 0.2 0.8 0.9 = 0.8%float /\ nearest 0.2 0.8 0.1 = 0.2%float.
Proof. vm_compute. repeat split. Qed.

(** * Further properties

    Properties of the code beyond the numbered claims of the specification:
    what every frame and every run does whatever the samples, the edge cases
    of the arithmetic, and the frame-rate meter. *)

(** ** Every frame, whatever the sample *)

(** The five ways [_process_gestures] can go. *)
Lemma process_cases self hd t :
  _process_gestures hd t self = (returned (_process_gestures hd t self), self, []) /\
    (exists e, returned (_process_gestures hd t self) = Raise e) \/
  (exists tip,
     HandEngine.get_fingertip hd "index" = Ok tip /\
     ((exists r, _process_gestures hd t self = (r, after_smoothing self tip, []) /\
                 (r = Ok EXIT_CODE \/ exists e, r = Raise e)) \/
      (HandEngine.is_fist hd = Ok true /\
       _process_gestures hd t self = scroll_outcome hd t (after_smoothing self tip)) \/
      (exists x y,
         pointer self hd = Ok (x, y) /\
         CursorMath.is_in_failsafe_region x y = false /\
         HandEngine.is_fist hd = Ok false /\
         _process_gestures hd t self = active_outcome hd t x y (after_smoothing self tip)))).
Proof.
  destruct (HandEngine.get_fingertip hd "index") as [tip|e] eqn:Htip.
  - right. exists tip. split; [reflexivity|].
    destruct (pointer self hd) as [[x y]|e] eqn:Hp.
    + destruct (CursorMath.is_in_failsafe_region x y) eqn:Hf.
      * left. eexists. split; [apply (@process_failsafe self hd t tip x y); assumption|].
        left. reflexivity.
      * destruct (HandEngine.is_fist hd) as [[|]|e] eqn:Hfist.
        -- right. left. split; [reflexivity|].
           apply (@process_scroll self hd t tip x y); assumption.
        -- right. right. exists x, y. repeat split; try assumption.
           apply (@process_active self hd t tip x y); assumption.
        -- left. eexists.
           split; [apply (@process_fist_raises self hd t tip x y e); assumption|].
           right. eauto.
    + left. eexists. split; [apply (@process_map_raises self hd t tip e); assumption|].
      right. eauto.
  - left. rewrite (@process_no_index_tip self hd t e Htip). cbn. split; eauto.
Qed.

Lemma scroll_outcome_emitted hd t s :
  emitted (scroll_outcome hd t s) = [] \/
  exists d, d <> 0 /\ emitted (scroll_outcome hd t s) = [scroll d].
Proof.
  unfold scroll_outcome.
  destruct (HandEngine.get_landmark hd HandEngine.WRIST) as [wrist|e]; [|left; reflexivity].
  cbv zeta.
  destruct (match _prev_scroll_y (cursor_math (scroll_entry s)) with
            | Some reference_y => scroll_delta_of reference_y (lm_y wrist)
            | None => Ok 0
            end) as [d|e]; [|left; reflexivity].
  destruct (Z.ltb_spec 0 (Z.abs d)) as [Hd|Hd]; cbn [andb]; [|left; reflexivity].
  destruct (_ <? _)%float; [|left; reflexivity].
  right. exists (- d). split; [lia|reflexivity].
Qed.

Lemma fired_clicks (k : ClickKind) (x y : Z) (fl fr : bool) :
  fired k (moveTo x y :: clicks "left" fl ++ clicks "right" fr)
  = match k with LeftClick => fl | RightClick => fr end.
Proof. destruct k, fl, fr; reflexivity. Qed.

(** What a frame does to one kind of click, in the ACTIVE branch. *)
Lemma active_outcome_kind (k : ClickKind) hd t x y s :
  let o := active_outcome hd t x y s in
  (fired k (emitted o) = true ->
     edge_of k s = false /\
     (config.CLICK_DEBOUNCE_TIME <? t - last_fire_of k s)%float = true /\
     last_fire_of k (state_of o) = t /\
     edge_of k (state_of o) = true) /\
  (fired k (emitted o) = false -> last_fire_of k (state_of o) = last_fire_of k s).
Proof.
  cbv zeta. unfold active_outcome.
  destruct (_check_left_click hd) as [pl|e].
  2:{ cbn. destruct k; split; (discriminate || reflexivity). }
  destruct (_check_right_click hd) as [pr|e].
  - unfold emitted, state_of. cbn [fst snd]. rewrite fired_clicks.
    unfold left_clicked, right_clicked, fires.
    destruct k; cbn [edge_of last_fire_of];
      destruct pl; cbn;
      destruct (is_left_clicking s); cbn;
      try destruct (0.3 <? t - last_left_click_time s)%float; cbn;
      destruct pr; cbn;
      destruct (is_right_clicking s); cbn;
      try destruct (0.3 <? t - last_right_click_time s)%float; cbn;
      split; intros H; try discriminate; repeat split; reflexivity.
  - unfold emitted, state_of. cbn [fst snd].
    replace (moveTo x y :: clicks "left" (fires pl (is_left_clicking s) t (last_left_click_time s)))
      with (moveTo x y :: clicks "left" (fires pl (is_left_clicking s) t (last_left_click_time s))
              ++ clicks "right" false)
      by (cbn; rewrite app_nil_r; reflexivity).
    rewrite fired_clicks.
    unfold left_clicked, fires.
    destruct k; cbn [edge_of last_fire_of];
      destruct pl; cbn;
      destruct (is_left_clicking s); cbn;
      try destruct (0.3 <? t - last_left_click_time s)%float; cbn;
      split; intros H; try discriminate; repeat split; reflexivity.
Qed.

Lemma active_outcome_emitted hd t x y s :
  exists fl fr, emitted (active_outcome hd t x y s)
                = moveTo x y :: clicks "left" fl ++ clicks "right" fr.
Proof.
  unfold active_outcome.
  destruct (_check_left_click hd) as [pl|e]; [|exists false, false; reflexivity].
  destruct (_check_right_click hd) as [pr|e].
  - eexists. eexists. reflexivity.
  - eexists. exists false. cbn. rewrite app_nil_r. reflexivity.
Qed.

Lemma process_actions self hd t : frame_actions (emitted (_process_gestures hd t self)).
Proof.
  destruct (process_cases self hd t) as [[E _]|(tip & _ & [(r & E & _)|[[_ E]|(x & y & _ & _ & _ & E)]])];
    rewrite E.
  - left. reflexivity.
  - left. reflexivity.
  - destruct (scroll_outcome_emitted hd t (after_smoothing self tip)) as [H|H].
    + left. exact H.
    + right. left. exact H.
  - right. right. exists x, y. apply active_outcome_emitted.
Qed.

(** X1.  The calls of one loop turn, for every sample and every state: none,
    or a single scroll by a non-zero amount, or a move followed by at most
    one left click and then at most one right click.  So a scroll never comes
    with a move or a click, a click never comes without the move before it,
    and no kind of click is sent twice in a frame. *)
Theorem frame_actions_shape (hand_data : option HandLandmarks) (t : float)
    (self : KineticOS) :
  frame_actions (emitted (run_frame hand_data t self)).
Proof.
  destruct hand_data as [hd|].
  - rewrite run_frame_emitted. apply process_actions.
  - rewrite run_frame_no_hand. left. reflexivity.
Qed.

Lemma after_smoothing_keeps self tip :
  current_mode (after_smoothing self tip) = current_mode self /\
  last_left_click_time (after_smoothing self tip) = last_left_click_time self /\
  last_right_click_time (after_smoothing self tip) = last_right_click_time self /\
  last_scroll_time (after_smoothing self tip) = last_scroll_time self /\
  is_left_clicking (after_smoothing self tip) = is_left_clicking self /\
  is_right_clicking (after_smoothing self tip) = is_right_clicking self /\
  is_scrolling (after_smoothing self tip) = is_scrolling self.
Proof. repeat split. Qed.

Lemma fired_scroll_outcome (k : ClickKind) hd t s :
  fired k (emitted (scroll_outcome hd t s)) = false.
Proof.
  destruct (scroll_outcome_emitted hd t s) as [E|(d & _ & E)]; rewrite E; reflexivity.
Qed.

Lemma process_kind (k : ClickKind) self hd t :
  let o := _process_gestures hd t self in
  (fired k (emitted o) = true ->
     edge_of k self = false /\
     (config.CLICK_DEBOUNCE_TIME <? t - last_fire_of k self)%float = true /\
     last_fire_of k (state_of o) = t /\
     edge_of k (state_of o) = true) /\
  (fired k (emitted o) = false -> last_fire_of k (state_of o) = last_fire_of k self).
Proof.
  cbv zeta.
  destruct (process_cases self hd t) as [[E _]|(tip & _ & [(r & E & _)|[[_ E]|(x & y & _ & _ & _ & E)]])];
    rewrite E.
  - cbn. split; [discriminate|reflexivity].
  - cbn. split; [discriminate|]. destruct k; reflexivity.
  - rewrite fired_scroll_outcome. split; [discriminate|]. intros _.
    pose proof (scroll_outcome_keeps hd t (after_smoothing self tip)) as K.
    cbv zeta in K. destruct K as (_ & _ & K3 & K4 & _).
    destruct k; cbn [last_fire_of]; [rewrite K3|rewrite K4]; reflexivity.
  - pose proof (active_outcome_kind k hd t x y (after_smoothing self tip)) as K.
    cbv zeta in K.
    replace (edge_of k (after_smoothing self tip)) with (edge_of k self) in K
      by (destruct k; reflexivity).
    replace (last_fire_of k (after_smoothing self tip)) with (last_fire_of k self) in K
      by (destruct k; reflexivity).
    exact K.
Qed.

Lemma run_frame_kind (k : ClickKind) hand_data t self :
  let o := run_frame hand_data t self in
  (fired k (emitted o) = true ->
     edge_of k self = false /\
     (config.CLICK_DEBOUNCE_TIME <? t - last_fire_of k self)%float = true /\
     last_fire_of k (state_of o) = t /\
     edge_of k (state_of o) = true) /\
  (fired k (emitted o) = false -> last_fire_of k (state_of o) = last_fire_of k self).
Proof.
  cbv zeta. destruct hand_data as [hd|].
  - destruct (run_frame_hand_keeps self hd t) as (_ & _ & E3 & E4 & _ & E6 & E7 & _).
    cbv zeta in E3, E4, E6, E7.
    rewrite run_frame_emitted.
    replace (last_fire_of k (state_of (run_frame (Some hd) t self)))
      with (last_fire_of k (state_of (_process_gestures hd t self)))
      by (destruct k; cbn [last_fire_of]; congruence).
    replace (edge_of k (state_of (run_frame (Some hd) t self)))
      with (edge_of k (state_of (_process_gestures hd t self)))
      by (destruct k; cbn [edge_of]; congruence).
    apply process_kind.
  - rewrite run_frame_no_hand. unfold emitted, state_of. cbn [fst snd fired existsb].
    split; [discriminate|]. intros _.
    destruct (clear_indicator_keeps t (idle self)) as (_ & _ & E3 & E4 & _).
    destruct k; cbn [last_fire_of]; [rewrite E3|rewrite E4]; reflexivity.
Qed.

(** X2.  The click debounce holds on every frame and over every run, whatever
    the samples (hand or none, fist or not, well-formed or not): a click of a
    kind is only sent with its edge flag down and more than the click
    debounce interval after the recorded last fire of that kind, which it
    then replaces; a frame that sends none leaves that time alone.  Hence the
    fires of a kind in a run are spaced by more than the debounce interval. *)
Theorem click_fires_spaced (k : ClickKind) :
  (forall hand_data t self,
     let o := run_frame hand_data t self in
     (fired k (emitted o) = true ->
        edge_of k self = false /\
        (config.CLICK_DEBOUNCE_TIME <? t - last_fire_of k self)%float = true /\
        last_fire_of k (state_of o) = t) /\
     (fired k (emitted o) = false ->
        last_fire_of k (state_of o) = last_fire_of k self)) /\
  (forall frames self,
     spaced config.CLICK_DEBOUNCE_TIME (last_fire_of k self) (times_of (fired k) frames self)).
Proof.
  split.
  - intros hand_data t self. cbv zeta.
    destruct (run_frame_kind k hand_data t self) as [H1 H2]. cbv zeta in H1, H2.
    split; [|exact H2]. intros H. destruct (H1 H) as (A & B & C & _). auto.
  - induction frames as [|[hand_data t] frames IH]; intros self; [exact I|].
    cbn [times_of]. cbv zeta.
    destruct (run_frame_kind k hand_data t self) as [H1 H2]. cbv zeta in H1, H2.
    destruct (fired k (emitted (run_frame hand_data t self))) eqn:F.
    + destruct (H1 eq_refl) as (_ & B & C & _). cbn [spaced]. split; [exact B|].
      destruct (returned (run_frame hand_data t self)) as [[d|]|e]; try exact I.
      pose proof (IH (state_of (run_frame hand_data t self))) as S.
      rewrite C in S. exact S.
    + destruct (returned (run_frame hand_data t self)) as [[d|]|e]; try exact I.
      pose proof (IH (state_of (run_frame hand_data t self))) as S.
      rewrite (H2 eq_refl) in S. exact S.
Qed.

(** ** Scroll ticks *)

Lemma scroll_outcome_tick hd t s :
  let o := scroll_outcome hd t s in
  (scrolled (emitted o) = true ->
     (config.SCROLL_DEBOUNCE_TIME <? t - last_scroll_time s)%float = true /\
     last_scroll_time (state_of o) = t) /\
  (scrolled (emitted o) = false -> last_scroll_time (state_of o) = last_scroll_time s).
Proof.
  cbv zeta. unfold scroll_outcome.
  assert (L : last_scroll_time (scroll_entry s) = last_scroll_time s)
    by (unfold scroll_entry; destruct (is_scrolling s); reflexivity).
  destruct (HandEngine.get_landmark hd HandEngine.WRIST) as [wrist|e].
  2:{ cbn. split; [discriminate|]. intros _. exact L. }
  cbv zeta.
  destruct (match _prev_scroll_y (cursor_math (scroll_entry s)) with
            | Some reference_y => scroll_delta_of reference_y (lm_y wrist)
            | None => Ok 0
            end) as [d|e].
  2:{ cbn. split; [discriminate|]. intros _. exact L. }
  cbn [last_scroll_time set_cursor_math]. rewrite L.
  destruct ((0 <? Z.abs d) && (config.SCROLL_DEBOUNCE_TIME <? t - last_scroll_time s)%float)
    eqn:G.
  - apply andb_true_iff in G. destruct G as [_ G]. cbn.
    split; [intros _; split; [exact G|reflexivity]|discriminate].
  - cbn. split; [discriminate|]. intros _. exact L.
Qed.

Lemma active_outcome_no_scroll hd t x y s :
  scrolled (emitted (active_outcome hd t x y s)) = false /\
  last_scroll_time (state_of (active_outcome hd t x y s)) = last_scroll_time s.
Proof.
  unfold active_outcome.
  destruct (_check_left_click hd) as [pl|e]; [|split; reflexivity].
  destruct (_check_right_click hd) as [pr|e]; cbv zeta;
    unfold left_clicked, right_clicked;
    destruct (fires pl _ _ _); try destruct (fires pr _ _ _); split; reflexivity.
Qed.

Lemma process_tick self hd t :
  let o := _process_gestures hd t self in
  (scrolled (emitted o) = true ->
     HandEngine.is_fist hd = Ok true /\
     (config.SCROLL_DEBOUNCE_TIME <? t - last_scroll_time self)%float = true /\
     last_scroll_time (state_of o) = t /\
     current_mode (state_of o) = config.MODE_SCROLL) /\
  (scrolled (emitted o) = false -> last_scroll_time (state_of o) = last_scroll_time self).
Proof.
  cbv zeta.
  destruct (process_cases self hd t)
    as [[E _]|(tip & _ & [(r & E & _)|[[F E]|(x & y & _ & _ & _ & E)]])]; rewrite E.
  - cbn. split; [discriminate|reflexivity].
  - cbn. split; [discriminate|reflexivity].
  - destruct (scroll_outcome_tick hd t (after_smoothing self tip)) as [H1 H2].
    cbv zeta in H1, H2.
    pose proof (scroll_outcome_keeps hd t (after_smoothing self tip)) as K.
    cbv zeta in K. destruct K as (_ & _ & _ & _ & K & _).
    split.
    + intros H. destruct (H1 H) as [A B]. repeat split; assumption.
    + exact H2.
  - destruct (active_outcome_no_scroll hd t x y (after_smoothing self tip)) as [A B].
    rewrite A, B. split; [discriminate|reflexivity].
Qed.

Lemma run_frame_tick hand_data t self :
  let o := run_frame hand_data t self in
  (scrolled (emitted o) = true ->
     (exists hd, hand_data = Some hd /\ HandEngine.is_fist hd = Ok true) /\
     (config.SCROLL_DEBOUNCE_TIME <? t - last_scroll_time self)%float = true /\
     last_scroll_time (state_of o) = t /\
     current_mode (state_of o) = config.MODE_SCROLL) /\
  (scrolled (emitted o) = false -> last_scroll_time (state_of o) = last_scroll_time self).
Proof.
  cbv zeta. destruct hand_data as [hd|].
  - destruct (run_frame_hand_keeps self hd t) as (_ & E2 & _ & _ & E5 & _).
    cbv zeta in E2, E5. rewrite run_frame_emitted, E2, E5.
    destruct (process_tick self hd t) as [H1 H2]. cbv zeta in H1, H2.
    split; [|exact H2].
    intros H. destruct (H1 H) as (A & B & C & D). repeat split; eauto.
  - rewrite run_frame_no_hand. unfold emitted, state_of. cbn [fst snd scrolled existsb].
    split; [discriminate|]. intros _.
    destruct (clear_indicator_keeps t (idle self)) as (_ & _ & _ & _ & E5 & _).
    rewrite E5. reflexivity.
Qed.

(** X3.  The scroll debounce holds on every frame and over every run: a
    scroll is only sent on a frame with a hand that is a fist, more than the
    scroll debounce interval after the recorded last scroll, which it then
    replaces, and it leaves the mode at SCROLL; a frame that sends none leaves
    that time alone.  Hence the scrolls of a run are spaced by more than the
    scroll debounce interval. *)
Theorem scroll_ticks_spaced :
  (forall hand_data t self,
     let o := run_frame hand_data t self in
     (scrolled (emitted o) = true ->
        (exists hd, hand_data = Some hd /\ HandEngine.is_fist hd = Ok true) /\
        (config.SCROLL_DEBOUNCE_TIME <? t - last_scroll_time self)%float = true /\
        last_scroll_time (state_of o) = t /\
        current_mode (state_of o) = config.MODE_SCROLL) /\
     (scrolled (emitted o) = false ->
        last_scroll_time (state_of o) = last_scroll_time self)) /\
  (forall frames self,
     spaced config.SCROLL_DEBOUNCE_TIME (last_scroll_time self)
       (times_of scrolled frames self)).
Proof.
  split; [exact run_frame_tick|].
  induction frames as [|[hand_data t] frames IH]; intros self; [exact I|].
  cbn [times_of]. cbv zeta.
  destruct (run_frame_tick hand_data t self) as [H1 H2]. cbv zeta in H1, H2.
  destruct (scrolled (emitted (run_frame hand_data t self))) eqn:F.
  - destruct (H1 eq_refl) as (_ & B & C & _). cbn [spaced]. split; [exact B|].
    destruct (returned (run_frame hand_data t self)) as [[d|]|e]; try exact I.
    pose proof (IH (state_of (run_frame hand_data t self))) as S.
    rewrite C in S. exact S.
  - destruct (returned (run_frame hand_data t self)) as [[d|]|e]; try exact I.
    pose proof (IH (state_of (run_frame hand_data t self))) as S.
    rewrite (H2 eq_refl) in S. exact S.
Qed.

(** ** The mode and the scrolling flag *)

Lemma active_outcome_mode hd t x y s :
  current_mode (state_of (active_outcome hd t x y s)) = config.MODE_ACTIVE /\
  is_scrolling (state_of (active_outcome hd t x y s)) = false.
Proof.
  unfold active_outcome.
  destruct (_check_left_click hd) as [pl|e]; [|split; reflexivity].
  destruct (_check_right_click hd) as [pr|e]; cbv zeta;
    unfold left_clicked, right_clicked;
    destruct (fires pl _ _ _); try destruct (fires pr _ _ _); split; reflexivity.
Qed.

Lemma mode_consistent_of (s : KineticOS) :
  (current_mode s = config.MODE_IDLE /\ is_scrolling s = false) \/
  (current_mode s = config.MODE_ACTIVE /\ is_scrolling s = false) \/
  (current_mode s = config.MODE_SCROLL /\ is_scrolling s = true) ->
  mode_consistent s.
Proof.
  unfold mode_consistent.
  intros [[M F]|[[M F]|[M F]]]; rewrite M, F; (split; [split; intros H|]);
    try discriminate; try reflexivity; auto.
Qed.

Lemma run_frame_mode hand_data t self :
  mode_consistent self -> mode_consistent (state_of (run_frame hand_data t self)).
Proof.
  intros H. destruct hand_data as [hd|].
  - destruct (run_frame_hand_keeps self hd t) as (_ & E2 & _ & _ & _ & _ & _ & E8).
    cbv zeta in E2, E8.
    assert (G : mode_consistent (state_of (_process_gestures hd t self))).
    { destruct (process_cases self hd t)
        as [[E _]|(tip & _ & [(r & E & _)|[[_ E]|(x & y & _ & _ & _ & E)]])]; rewrite E.
      - exact H.
      - exact H.
      - pose proof (scroll_outcome_keeps hd t (after_smoothing self tip)) as K.
        cbv zeta in K. destruct K as (_ & _ & _ & _ & K5 & K6 & _).
        apply mode_consistent_of. right. right. split; assumption.
      - destruct (active_outcome_mode hd t x y (after_smoothing self tip)) as [A B].
        apply mode_consistent_of. right. left. split; assumption. }
    unfold mode_consistent in *. rewrite E2, E8. exact G.
  - rewrite run_frame_no_hand. unfold state_of. cbn [fst snd].
    destruct (clear_indicator_keeps t (idle self)) as (_ & E2 & _ & _ & _ & _ & _ & E8).
    unfold mode_consistent. rewrite E2, E8.
    apply mode_consistent_of. left. split; reflexivity.
Qed.

Lemma run_cons hand_data t frames self :
  run ((hand_data, t) :: frames) self =
    let o := run_frame hand_data t self in
    match returned o with
    | Ok (Continue _) =>
        let o' := run frames (state_of o) in
        (returned o', state_of o', emitted o ++ emitted o')
    | Ok Break => (Ok tt, state_of o, emitted o)
    | Raise e => (Raise e, state_of o, emitted o)
    end.
Proof.
  cbn [run]. unfold bind at 1. cbv zeta.
  destruct (run_frame hand_data t self) as [[[[d|]|e] s1] o1]; cbn.
  - destruct (run frames s1) as [[r s2] o2]. reflexivity.
  - rewrite app_nil_r. reflexivity.
  - reflexivity.
Qed.

(** X4.  The mode string and the scrolling flag agree at every point of
    every run: the object starts with the scrolling flag down and the mode
    IDLE, and every loop turn, also one that raises or ends the loop, leaves
    the mode among IDLE, ACTIVE and SCROLL with the flag up exactly in
    SCROLL. *)
Theorem mode_tracks_scrolling :
  (forall w h, mode_consistent (KineticOS.__init__ w h)) /\
  (forall hand_data t self,
     mode_consistent self -> mode_consistent (state_of (run_frame hand_data t self))) /\
  (forall frames self,
     mode_consistent self -> mode_consistent (state_of (run frames self))).
Proof.
  split; [|split].
  - intros w h. apply mode_consistent_of. left. split; reflexivity.
  - exact run_frame_mode.
  - induction frames as [|[hand_data t] frames IH]; intros self H; [exact H|].
    rewrite run_cons. cbv zeta.
    pose proof (@run_frame_mode hand_data t self H) as H1.
    destruct (returned (run_frame hand_data t self)) as [[d|]|e]; cbn [state_of fst snd].
    + apply IH. exact H1.
    + exact H1.
    + exact H1.
Qed.

(** ** A frame of a scroll in progress *)

Lemma after_smoothing_scroll_reference self tip :
  _prev_scroll_y (cursor_math (after_smoothing self tip)) = _prev_scroll_y (cursor_math self).
Proof. unfold after_smoothing. rewrite smooth_position_eq. reflexivity. Qed.

(** The SCROLL branch once the gesture is under way. *)
Lemma scroll_frame self hd t x y wrist reference_y d :
  pointer self hd = Ok (x, y) ->
  CursorMath.is_in_failsafe_region x y = false ->
  HandEngine.is_fist hd = Ok true ->
  HandEngine.get_landmark hd HandEngine.WRIST = Ok wrist ->
  is_scrolling self = true ->
  _prev_scroll_y (cursor_math self) = Some reference_y ->
  scroll_delta_of reference_y (lm_y wrist) = Ok d ->
  let o := _process_gestures hd t self in
  let tick :=
    (0 <? Z.abs d) && (config.SCROLL_DEBOUNCE_TIME <? t - last_scroll_time self)%float in
  returned o = Ok d /\
  emitted o = (if tick then [scroll (- d)] else []) /\
  _prev_scroll_y (cursor_math (state_of o)) = Some (lm_y wrist) /\
  last_scroll_time (state_of o) = (if tick then t else last_scroll_time self).
Proof.
  intros Hp Hf Hfist Hw Hs Hr Hd. cbv zeta.
  destruct (@pointer_has_tip self hd (x, y) Hp) as [tip Htip].
  rewrite (@process_scroll self hd t tip x y Htip Hp Hf Hfist).
  unfold scroll_outcome. rewrite Hw. cbv zeta.
  assert (E : scroll_entry (after_smoothing self tip)
              = set_current_mode config.MODE_SCROLL (after_smoothing self tip)).
  { unfold scroll_entry.
    replace (is_scrolling (after_smoothing self tip)) with true by (symmetry; exact Hs).
    reflexivity. }
  rewrite E. cbn [cursor_math set_current_mode last_scroll_time set_cursor_math].
  rewrite after_smoothing_scroll_reference, Hr, Hd.
  replace (last_scroll_time (after_smoothing self tip)) with (last_scroll_time self)
    by reflexivity.
  destruct ((0 <? Z.abs d) && _); repeat split.
Qed.

(** X5.  The exit code is not reserved: when the wrist of a fist moves by the
    amount that gives a scroll delta of exactly -999, the loop takes the value
    returned by [_process_gestures] for the fail-safe code and ends, although
    the pointer is outside the fail-safe rectangle; the scroll of that frame
    has been sent when the debounce allowed it. *)
Theorem scroll_delta_taken_for_exit self hd t x y wrist reference_y :
  pointer self hd = Ok (x, y) ->
  CursorMath.is_in_failsafe_region x y = false ->
  HandEngine.is_fist hd = Ok true ->
  HandEngine.get_landmark hd HandEngine.WRIST = Ok wrist ->
  is_scrolling self = true ->
  _prev_scroll_y (cursor_math self) = Some reference_y ->
  scroll_delta_of reference_y (lm_y wrist) = Ok EXIT_CODE ->
  let o := run_frame (Some hd) t self in
  returned o = Ok Break /\
  emitted o = (if (config.SCROLL_DEBOUNCE_TIME <? t - last_scroll_time self)%float
               then [scroll 999] else []) /\
  forall rest, run ((Some hd, t) :: rest) self = (Ok tt, state_of o, emitted o).
Proof.
  intros Hp Hf Hfist Hw Hs Hr Hd. cbv zeta.
  destruct (@scroll_frame self hd t x y wrist reference_y EXIT_CODE Hp Hf Hfist Hw Hs Hr Hd)
    as (R & O & _). cbv zeta in R, O.
  assert (B : returned (run_frame (Some hd) t self) = Ok Break).
  { rewrite run_frame_hand. cbv zeta. rewrite R. reflexivity. }
  split; [exact B|]. split.
  - rewrite run_frame_emitted, O. reflexivity.
  - intros rest. rewrite run_cons. cbv zeta. rewrite B. reflexivity.
Qed.

(** X6.  Movement made inside the scroll debounce interval is dropped, not
    carried over: the frame returns the delta, sends no scroll and keeps the
    time of the last scroll, but the reference still moves to the current
    wrist height, so the next delta is measured from there. *)
Theorem scroll_motion_dropped_in_debounce self hd t x y wrist reference_y d :
  pointer self hd = Ok (x, y) ->
  CursorMath.is_in_failsafe_region x y = false ->
  HandEngine.is_fist hd = Ok true ->
  HandEngine.get_landmark hd HandEngine.WRIST = Ok wrist ->
  is_scrolling self = true ->
  _prev_scroll_y (cursor_math self) = Some reference_y ->
  scroll_delta_of reference_y (lm_y wrist) = Ok d ->
  d <> EXIT_CODE ->
  (config.SCROLL_DEBOUNCE_TIME <? t - last_scroll_time self)%float = false ->
  let o := run_frame (Some hd) t self in
  returned o = Ok (Continue d) /\
  emitted o = [] /\
  last_scroll_time (state_of o) = last_scroll_time self /\
  _prev_scroll_y (cursor_math (state_of o)) = Some (lm_y wrist) /\
  forall next_y,
    returned (CursorMath.calculate_scroll_delta next_y (cursor_math (state_of o)))
    = scroll_delta_of (lm_y wrist) next_y.
Proof.
  intros Hp Hf Hfist Hw Hs Hr Hd Hne Hdeb. cbv zeta.
  destruct (@scroll_frame self hd t x y wrist reference_y d Hp Hf Hfist Hw Hs Hr Hd)
    as (R & O & P & L). cbv zeta in R, O, P, L.
  rewrite Hdeb, andb_false_r in O, L.
  destruct (run_frame_hand_keeps self hd t) as (E1 & _ & _ & _ & E5 & _).
  cbv zeta in E1, E5.
  assert (Q : _prev_scroll_y (cursor_math (state_of (run_frame (Some hd) t self)))
              = Some (lm_y wrist)) by (rewrite E1; exact P).
  split.
  { rewrite run_frame_hand. cbv zeta. rewrite R.
    destruct (Z.eqb_spec d EXIT_CODE) as [F|F]; [contradiction|reflexivity]. }
  split; [rewrite run_frame_emitted; exact O|].
  split; [rewrite E5; exact L|].
  split; [exact Q|].
  intros next_y. rewrite calculate_scroll_delta_eq, Q. reflexivity.
Qed.

(** ** Two clicks in one frame *)

(** X7.  The two clicks are independent of each other: a frame in ACTIVE mode
    on which the thumb touches both the index and the middle fingertip, with
    both edge flags down and both debounces over, sends the move, then the
    left click, then the right click, and the click indicator keeps only the
    right one. *)
Theorem both_clicks_in_one_frame self hd t :
  active_frame self hd ->
  _check_left_click hd = Ok true ->
  _check_right_click hd = Ok true ->
  is_left_clicking self = false ->
  is_right_clicking self = false ->
  (config.CLICK_DEBOUNCE_TIME <? t - last_left_click_time self)%float = true ->
  (config.CLICK_DEBOUNCE_TIME <? t - last_right_click_time self)%float = true ->
  let o := _process_gestures hd t self in
  exists x y,
    pointer self hd = Ok (x, y) /\
    returned o = Ok 0 /\
    emitted o = [moveTo x y; click "left"; click "right"] /\
    emitted (run_frame (Some hd) t self) = emitted o /\
    click_indicator (state_of o) = Some ("RIGHT"%string, (x, y)) /\
    click_indicator_time (state_of o) = t /\
    last_left_click_time (state_of o) = t /\
    last_right_click_time (state_of o) = t /\
    is_left_clicking (state_of o) = true /\
    is_right_clicking (state_of o) = true.
Proof.
  intros ((x & y & Hp & Hf) & Hfist & _) Hl Hr El Er Dl Dr. cbv zeta.
  destruct (@pointer_has_tip self hd (x, y) Hp) as [tip Htip].
  exists x, y. split; [exact Hp|].
  rewrite run_frame_emitted.
  rewrite (@process_active self hd t tip x y Htip Hp Hf Hfist).
  unfold active_outcome. rewrite Hl, Hr. cbv zeta.
  unfold left_clicked, right_clicked, fires.
  cbn [is_left_clicking is_right_clicking set_current_mode set_is_scrolling
       last_left_click_time last_right_click_time set_is_left_clicking
       set_click_indicator set_last_left_click_time].
  replace (is_left_clicking (after_smoothing self tip)) with false
    by (symmetry; exact El).
  replace (is_right_clicking (after_smoothing self tip)) with false
    by (symmetry; exact Er).
  replace (last_left_click_time (after_smoothing self tip))
    with (last_left_click_time self) by reflexivity.
  replace (last_right_click_time (after_smoothing self tip))
    with (last_right_click_time self) by reflexivity.
  cbn [andb negb]. rewrite Dl. cbn [andb negb is_right_clicking last_right_click_time
                                     set_is_left_clicking set_click_indicator
                                     set_last_left_click_time set_current_mode
                                     set_is_scrolling].
  replace (is_right_clicking (after_smoothing self tip)) with false
    by (symmetry; exact Er).
  replace (last_right_click_time (after_smoothing self tip))
    with (last_right_click_time self) by reflexivity.
  cbn [andb negb]. rewrite Dr.
  repeat split.
Qed.

(** ** What the click edge flags remember *)

Lemma fist_frame_keeps_edges (k : ClickKind) self hd t :
  HandEngine.is_fist hd = Ok true ->
  edge_of k (state_of (run_frame (Some hd) t self)) = edge_of k self.
Proof.
  intros Hfist.
  destruct (run_frame_hand_keeps self hd t) as (_ & _ & _ & _ & _ & E6 & E7 & _).
  cbv zeta in E6, E7.
  assert (G : edge_of k (state_of (_process_gestures hd t self)) = edge_of k self).
  { destruct (process_cases self hd t)
      as [[E _]|(tip & _ & [(r & E & _)|[[_ E]|(x & y & _ & _ & F & _)]])];
      try rewrite E.
    - reflexivity.
    - destruct k; reflexivity.
    - pose proof (scroll_outcome_keeps hd t (after_smoothing self tip)) as K.
      cbv zeta in K. destruct K as (K1 & K2 & _).
      destruct k; cbn [edge_of]; [rewrite K1|rewrite K2]; reflexivity.
    - rewrite Hfist in F. discriminate. }
  destruct k; cbn [edge_of] in *; congruence.
Qed.

Lemma fist_frames_keep_edges (k : ClickKind) frames :
  forall self,
    Forall (fun f => HandEngine.is_fist (fst f) = Ok true) frames ->
    edge_of k (after_frames frames self) = edge_of k self.
Proof.
  induction frames as [|[hd t] frames IH]; intros self H; [reflexivity|].
  inversion H as [|f fs Hf Hfs]; subst. cbn [after_frames].
  rewrite (IH _ Hfs). apply fist_frame_keeps_edges. exact Hf.
Qed.

(** X8.  A pinch held while the hand closes to a fist and opens again does
    not click a second time, however long the fist lasts: frames of a fist
    leave the edge flag of either kind as it was, and with the flag up no
    frame fires.  Losing the hand for one frame is different: it lowers the
    flag, so a pinch held across the gap fires again as soon as the debounce
    allows. *)
Theorem click_edge_memory (k : ClickKind) :
  (forall frames self,
     Forall (fun f => HandEngine.is_fist (fst f) = Ok true) frames ->
     edge_of k (after_frames frames self) = edge_of k self /\
     (edge_of k self = true ->
      forall hand_data t,
        fired k (emitted (run_frame hand_data t (after_frames frames self))) = false)) /\
  (forall self t0 hd t,
     let s := state_of (run_frame None t0 self) in
     active_frame s hd ->
     pinch_of k hd = Ok true ->
     (config.CLICK_DEBOUNCE_TIME <? t - last_fire_of k self)%float = true ->
     fired k (emitted (run_frame (Some hd) t s)) = true).
Proof.
  split.
  - intros frames self H.
    pose proof (@fist_frames_keep_edges k frames self H) as E.
    split; [exact E|]. intros Ht hand_data t.
    destruct (run_frame_kind k hand_data t (after_frames frames self)) as [H1 _].
    cbv zeta in H1.
    destruct (fired k (emitted (run_frame hand_data t (after_frames frames self))));
      [|reflexivity].
    destruct (H1 eq_refl) as (A & _). rewrite E, Ht in A. discriminate.
  - intros self t0 hd t. cbv zeta. intros Ha Hp Hd.
    destruct (@active_step k _ hd t true Ha Hp) as (_ & _ & F & _). cbv zeta in F.
    rewrite F. rewrite run_frame_no_hand. unfold state_of. cbn [fst snd].
    destruct (clear_indicator_keeps t0 (idle self)) as (_ & _ & E3 & E4 & _ & E6 & E7 & _).
    unfold fires.
    replace (edge_of k (clear_indicator t0 (idle self))) with false
      by (destruct k; cbn [edge_of]; [rewrite E6|rewrite E7]; reflexivity).
    replace (last_fire_of k (clear_indicator t0 (idle self))) with (last_fire_of k self)
      by (destruct k; cbn [last_fire_of]; [rewrite E3|rewrite E4]; reflexivity).
    cbn [andb negb]. exact Hd.
Qed.

(** ** Where the pointer is moved *)

Lemma same_geometry_refl (a : CursorMath) : same_geometry a a.
Proof. repeat split. Qed.

Lemma same_geometry_trans (a b c : CursorMath) :
  same_geometry a b -> same_geometry b c -> same_geometry a c.
Proof.
  unfold same_geometry. intros (A1 & A2 & A3 & A4 & A5 & A6) (B1 & B2 & B3 & B4 & B5 & B6).
  repeat split; congruence.
Qed.

Lemma after_smoothing_geometry self tip :
  same_geometry (cursor_math (after_smoothing self tip)) (cursor_math self).
Proof. unfold after_smoothing. rewrite smooth_position_eq. repeat split. Qed.

Lemma scroll_outcome_geometry hd t s :
  same_geometry (cursor_math (state_of (scroll_outcome hd t s))) (cursor_math s).
Proof.
  unfold scroll_outcome.
  assert (G : same_geometry (cursor_math (scroll_entry s)) (cursor_math s))
    by (unfold scroll_entry; destruct (is_scrolling s); repeat split).
  destruct (HandEngine.get_landmark hd HandEngine.WRIST) as [wrist|e]; [|exact G].
  cbv zeta.
  destruct (match _prev_scroll_y (cursor_math (scroll_entry s)) with
            | Some reference_y => scroll_delta_of reference_y (lm_y wrist)
            | None => Ok 0
            end) as [d|e]; [destruct (_ && _)|]; exact G.
Qed.

Lemma process_geometry self hd t :
  same_geometry (cursor_math (state_of (_process_gestures hd t self))) (cursor_math self).
Proof.
  destruct (process_cases self hd t)
    as [[E _]|(tip & _ & [(r & E & _)|[[_ E]|(x & y & _ & _ & _ & E)]])]; rewrite E.
  - apply same_geometry_refl.
  - apply after_smoothing_geometry.
  - eapply same_geometry_trans;
      [apply scroll_outcome_geometry|apply after_smoothing_geometry].
  - rewrite active_outcome_cursor_math. apply after_smoothing_geometry.
Qed.

Lemma run_frame_geometry hand_data t self :
  same_geometry (cursor_math (state_of (run_frame hand_data t self))) (cursor_math self).
Proof.
  destruct hand_data as [hd|].
  - destruct (run_frame_hand_keeps self hd t) as (E1 & _). cbv zeta in E1.
    rewrite E1. apply process_geometry.
  - rewrite run_frame_no_hand. unfold state_of. cbn [fst snd].
    destruct (clear_indicator_keeps t (idle self)) as (E1 & _). rewrite E1.
    repeat split.
Qed.

Lemma map_to_screen_range (self : CursorMath) (norm_x norm_y : float) (x y : Z) :
  CursorMath.map_to_screen self norm_x norm_y = Ok (x, y) ->
  1 <= screen_width self -> 1 <= screen_height self ->
  0 <= x <= screen_width self - 1 /\ 0 <= y <= screen_height self - 1.
Proof.
  unfold CursorMath.map_to_screen. cbv zeta. intros H Hw Hh.
  repeat match type of H with
         | result_bind ?r _ = _ => destruct r; cbn [result_bind] in H; [|discriminate]
         end.
  rewrite !py_int_min_max in H. inversion H; subst. unfold clamp_pixel. lia.
Qed.

Lemma pointer_range self hd x y :
  pointer self hd = Ok (x, y) ->
  1 <= screen_width (cursor_math self) -> 1 <= screen_height (cursor_math self) ->
  0 <= x <= screen_width (cursor_math self) - 1 /\
  0 <= y <= screen_height (cursor_math self) - 1.
Proof.
  intros Hp Hw Hh.
  destruct (@pointer_has_tip self hd (x, y) Hp) as [tip Htip].
  rewrite (@pointer_unfold self hd tip Htip) in Hp.
  destruct (after_smoothing_geometry self tip) as (G1 & G2 & _).
  rewrite <- G1, <- G2 in *.
  exact (@map_to_screen_range _ _ _ x y Hp Hw Hh).
Qed.

Lemma Forall_clicks (P : Action -> Prop) (b : string) (f : bool) :
  P (click b) -> Forall P (clicks b f).
Proof. intros H. destruct f; repeat constructor. exact H. Qed.

Lemma run_frame_moves hand_data t self :
  1 <= screen_width (cursor_math self) -> 1 <= screen_height (cursor_math self) ->
  Forall (move_on_screen (screen_width (cursor_math self)) (screen_height (cursor_math self)))
    (emitted (run_frame hand_data t self)).
Proof.
  intros Hw Hh. destruct hand_data as [hd|].
  2:{ rewrite run_frame_no_hand. constructor. }
  rewrite run_frame_emitted.
  destruct (process_cases self hd t)
    as [[E _]|(tip & _ & [(r & E & _)|[[_ E]|(x & y & Hp & Hf & _ & E)]])]; rewrite E.
  - constructor.
  - constructor.
  - destruct (scroll_outcome_emitted hd t (after_smoothing self tip)) as [H|(d & _ & H)];
      rewrite H; repeat constructor.
  - destruct (active_outcome_emitted hd t x y (after_smoothing self tip)) as (fl & fr & H).
    rewrite H. constructor.
    + cbn [move_on_screen]. destruct (@pointer_range self hd x y Hp Hw Hh). auto.
    + apply Forall_app. split; apply Forall_clicks; exact I.
Qed.

(** X9.  The pointer is never sent off the screen nor into the fail-safe
    rectangle: on a screen of at least one pixel each way, every move among
    the calls of a run, whatever the frames, has its coordinates inside the
    screen and outside the rectangle whose entry ends the loop. *)
Theorem moves_stay_on_screen frames :
  forall self,
    1 <= screen_width (cursor_math self) ->
    1 <= screen_height (cursor_math self) ->
    Forall (move_on_screen (screen_width (cursor_math self))
              (screen_height (cursor_math self)))
      (emitted (run frames self)).
Proof.
  induction frames as [|[hand_data t] frames IH]; intros self Hw Hh; [constructor|].
  rewrite run_cons. cbv zeta.
  pose proof (@run_frame_moves hand_data t self Hw Hh) as M.
  destruct (run_frame_geometry hand_data t self) as (G1 & G2 & _).
  destruct (returned (run_frame hand_data t self)) as [[d|]|e]; cbn [emitted snd];
    try exact M.
  apply Forall_app. split; [exact M|].
  rewrite <- G1, <- G2. apply IH; rewrite ?G1, ?G2; assumption.
Qed.

(** ** The pinch tests *)

Lemma binary_round_aux_signed (s : bool) (m e : Z) (l : location) :
  0 <= m -> signed s (binary_round_aux prec emax s m e l).
Proof.
  intros Hm. unfold binary_round_aux.
  destruct (@shr_fexp_bound m e l (Z.max (Zdigits2 m + e) (-1074)) Hm) as (H1 & _);
    [lia|lia|].
  destruct (shr_fexp prec emax m e l) as [mrs' e'] eqn:E1. cbn [fst snd] in H1.
  pose proof (@round_nearest_even_bound (shr_m mrs') (loc_of_shr_record mrs') H1) as R.
  set (r := round_nearest_even (shr_m mrs') (loc_of_shr_record mrs')) in *.
  assert (Hr : 0 <= r) by lia.
  destruct (@shr_fexp_bound r e' loc_Exact (Z.max (Zdigits2 r + e') (-1074)) Hr)
    as (H2 & _); [lia|lia|].
  destruct (shr_fexp prec emax r e' loc_Exact) as [mrs'' e''] eqn:E2. cbn [fst snd] in H2.
  destruct (shr_m mrs'') as [|p|p]; [reflexivity| |lia].
  destruct (e'' <=? emax - prec); reflexivity.
Qed.

Lemma binary_round_signed (s : bool) (m : positive) (e : Z) :
  signed s (binary_round prec emax s m e).
Proof.
  unfold binary_round. destruct (shl_align m e _) as [mz ez].
  apply binary_round_aux_signed. lia.
Qed.

Lemma SFmul_square_not_negative (x : spec_float) : not_negative (SFmul prec emax x x).
Proof.
  destruct x as [s|s| |s m e]; cbn [SFmul].
  - right. destruct s; reflexivity.
  - right. destruct s; reflexivity.
  - left. reflexivity.
  - right. replace (xorb s s) with false by (destruct s; reflexivity).
    apply binary_round_aux_signed. lia.
Qed.

Lemma SFadd_not_negative (x y : spec_float) :
  not_negative x -> not_negative y -> not_negative (SFadd prec emax x y).
Proof.
  intros [Hx|Hx] [Hy|Hy]; subst; try (left; destruct x; reflexivity);
    try (left; reflexivity).
  destruct x as [sx|sx| |sx mx ex], y as [sy|sy| |sy my ey]; cbn in Hx, Hy; subst;
    try contradiction; try (right; reflexivity).
  right. cbn [SFadd cond_Zopp]. cbv zeta.
  cbn [Z.add binary_normalize]. apply binary_round_signed.
Qed.

Lemma not_negative_ltb_zero (x : float) :
  not_negative (Prim2SF x) -> (x <? 0)%float = false.
Proof.
  intros H. rewrite ltb_spec.
  replace (Prim2SF 0) with (S754_zero false) by reflexivity.
  destruct H as [H|H]; [rewrite H; reflexivity|].
  destruct (Prim2SF x) as [s|s| |s m e]; cbn in H; subst; try contradiction; reflexivity.
Qed.

Lemma squared_distance_not_negative (p q : Landmark) :
  (squared_distance p q <? 0)%float = false.
Proof.
  apply not_negative_ltb_zero. unfold squared_distance. cbv zeta.
  rewrite add_spec, !mul_spec.
  apply SFadd_not_negative; apply SFmul_square_not_negative.
Qed.

Lemma euclidean_distance_total (p q : Landmark) :
  CursorMath.euclidean_distance p q = Ok (sqrt (squared_distance p q)).
Proof.
  unfold CursorMath.euclidean_distance, PyFloat.math_sqrt. cbv zeta.
  fold (squared_distance p q). rewrite squared_distance_not_negative. reflexivity.
Qed.

Lemma is_click_total (p q : Landmark) :
  CursorMath.is_click p q
  = Ok (sqrt (squared_distance p q) <? config.CLICK_THRESHOLD)%float.
Proof. unfold CursorMath.is_click. rewrite euclidean_distance_total. reflexivity. Qed.

Lemma get_fingertip_thumb (hd : HandLandmarks) :
  HandEngine.get_fingertip hd "thumb" = getitem (landmarks hd) 4.
Proof. reflexivity. Qed.

Lemma get_fingertip_middle (hd : HandLandmarks) :
  HandEngine.get_fingertip hd "middle" = getitem (landmarks hd) 12.
Proof. reflexivity. Qed.

Lemma getitem_raises {A} (l : list A) (i : Z) (e : exn) :
  getitem l i = Raise e -> e = IndexError.
Proof.
  unfold getitem. cbv zeta.
  destruct (_ || _); [congruence|].
  destruct (nth_error l _); congruence.
Qed.

Lemma check_click_by_length (hd : HandLandmarks) (i : Z) :
  4 <= i ->
  let r := (thumb_tip <- getitem (landmarks hd) 4 ;;
            finger_tip <- getitem (landmarks hd) i ;;
            CursorMath.is_click thumb_tip finger_tip)%result in
  (i < Z.of_nat (List.length (landmarks hd)) ->
     r = Ok (sqrt (squared_distance (joint hd 4) (joint hd i))
             <? config.CLICK_THRESHOLD)%float) /\
  (Z.of_nat (List.length (landmarks hd)) <= i -> r = Raise IndexError).
Proof.
  intros Hi. cbv zeta. split; intros H.
  - rewrite (@getitem_nth Landmark (landmarks hd) 4 (0, 0, 0)%float) by lia.
    rewrite (@getitem_nth Landmark (landmarks hd) i (0, 0, 0)%float) by lia.
    cbn [result_bind]. apply is_click_total.
  - rewrite (@getitem_short Landmark (landmarks hd) i H).
    destruct (getitem (landmarks hd) 4) as [a|e] eqn:E; [reflexivity|].
    rewrite (getitem_raises _ _ E). reflexivity.
Qed.

Lemma SFsub_nan (x y : spec_float) :
  x = S754_nan \/ y = S754_nan -> SFsub prec emax x y = S754_nan.
Proof. intros [H|H]; subst; [destruct y|destruct x]; reflexivity. Qed.

Lemma SFadd_nan (x y : spec_float) :
  x = S754_nan \/ y = S754_nan -> SFadd prec emax x y = S754_nan.
Proof. intros [H|H]; subst; [destruct y|destruct x]; reflexivity. Qed.

Lemma nan_no_pinch (p q : Landmark) :
  Prim2SF (lm_x p - lm_x q) = S754_nan \/ Prim2SF (lm_y p - lm_y q) = S754_nan ->
  (sqrt (squared_distance p q) <? config.CLICK_THRESHOLD)%float = false.
Proof.
  intros H. rewrite ltb_spec, sqrt_spec. unfold squared_distance. cbv zeta.
  rewrite add_spec, !mul_spec.
  rewrite SFadd_nan; [reflexivity|].
  destruct H as [H|H]; rewrite H; [left|right]; reflexivity.
Qed.

(** X10.  The pinch tests cannot fail on their arithmetic: the sum of squares
    under the root is never below zero, so [euclidean_distance] and
    [is_click] return for all points, also with infinite or NaN coordinates,
    and a NaN coordinate gives no pinch.  The two tests of the loop therefore
    fail only for want of a point, and only with [IndexError]: the left one
    needs nine points, the right one thirteen. *)
Theorem pinch_tests_total :
  (forall p q,
     CursorMath.euclidean_distance p q = Ok (sqrt (squared_distance p q)) /\
     CursorMath.is_click p q
     = Ok (sqrt (squared_distance p q) <? config.CLICK_THRESHOLD)%float) /\
  (forall p q,
     Prim2SF (lm_x p) = S754_nan \/ Prim2SF (lm_y p) = S754_nan \/
     Prim2SF (lm_x q) = S754_nan \/ Prim2SF (lm_y q) = S754_nan ->
     CursorMath.is_click p q = Ok false) /\
  (forall hd,
     ((9 <= List.length (landmarks hd))%nat ->
        _check_left_click hd
        = Ok (sqrt (squared_distance (joint hd 4) (joint hd 8))
              <? config.CLICK_THRESHOLD)%float) /\
     ((List.length (landmarks hd) < 9)%nat -> _check_left_click hd = Raise IndexError) /\
     ((13 <= List.length (landmarks hd))%nat ->
        _check_right_click hd
        = Ok (sqrt (squared_distance (joint hd 4) (joint hd 12))
              <? config.CLICK_THRESHOLD)%float) /\
     ((List.length (landmarks hd) < 13)%nat -> _check_right_click hd = Raise IndexError)).
Proof.
  split; [|split].
  - intros p q. split; [apply euclidean_distance_total|apply is_click_total].
  - intros p q H. rewrite is_click_total. f_equal. apply nan_no_pinch.
    rewrite !sub_spec.
    destruct H as [H|[H|[H|H]]]; [left|right|left|right]; apply SFsub_nan; auto.
  - intros hd.
    destruct (@check_click_by_length hd 8) as [L1 L2]; [lia|].
    destruct (@check_click_by_length hd 12) as [R1 R2]; [lia|].
    cbv zeta in L1, L2, R1, R2.
    unfold _check_left_click, _check_right_click.
    rewrite get_fingertip_thumb, get_fingertip_index, get_fingertip_middle.
    repeat split; intros H; [apply L1|apply L2|apply R1|apply R2]; lia.
Qed.







(** ** The corner that ends the loop *)

Lemma clamp_at_end (x : float) : (x <? 0.8)%float = false -> clamp 0.2 0.8 x = 0.8%float.
Proof.
  intros H. unfold clamp, PyFloat.max, PyFloat.min. rewrite H.
  replace (0.2 <? 0.8)%float with true by (vm_compute; reflexivity). reflexivity.
Qed.

Lemma clamp_at_start (y : float) :
  (0.2 <? y)%float = false -> (y <? 0.8)%float = true -> clamp 0.2 0.8 y = 0.2%float.
Proof.
  intros H1 H2. unfold clamp, PyFloat.max, PyFloat.min. rewrite H2, H1. reflexivity.
Qed.

Lemma SFleb_not_gt (x y : spec_float) : SFleb x y = true -> SFltb y x = false.
Proof.
  unfold SFleb, SFltb.
  destruct x as [sx|sx| |sx mx ex], y as [sy|sy| |sy my ey];
    try destruct sx; try destruct sy; cbn [SFcompare]; try discriminate;
    try reflexivity.
  - rewrite (Z.compare_antisym ey ex).
    destruct (ey ?= ex); cbn; try discriminate; try reflexivity.
    rewrite !Pos.compare_cont_spec, (Pos.compare_antisym my mx).
    destruct (my ?= mx)%positive; cbn; try discriminate; reflexivity.
  - rewrite (Z.compare_antisym ey ex).
    destruct (ey ?= ex); cbn; try discriminate; try reflexivity.
    rewrite !Pos.compare_cont_spec, (Pos.compare_antisym my mx).
    destruct (my ?= mx)%positive; cbn; try discriminate; reflexivity.
Qed.

Lemma at_most_start (y : float) :
  (y <=? 0.2)%float = true -> (0.2 <? y)%float = false /\ (y <? 0.8)%float = true.
Proof.
  intros H. split.
  - rewrite ltb_spec. apply SFleb_not_gt. rewrite <- leb_spec. exact H.
  - revert H. rewrite leb_spec, ltb_spec.
    remember (Prim2SF 0.2) as lo eqn:Elo. vm_compute in Elo. subst lo.
    remember (Prim2SF 0.8) as hi eqn:Ehi. vm_compute in Ehi. subst hi.
    unfold SFleb, SFltb.
    destruct (Prim2SF y) as [s|s| |s m e]; try destruct s; cbn [SFcompare];
      try discriminate; try reflexivity.
    destruct (Z.compare_spec e (-55)) as [->|H|H]; try discriminate.
    + reflexivity.
    + intros _. destruct (Z.compare_spec e (-53)); lia || reflexivity.
Qed.

Lemma to_pixel_zero (dim : Z) : 0 <= dim < 2 ^ 63 ->
  CursorMath.mul_int 0 dim = Ok (0 * PyFloat.of_int_round dim)%float /\
  PyFloat.to_int (0 * PyFloat.of_int_round dim)%float = Ok 0.
Proof.
  intros Hd. unfold CursorMath.mul_int. rewrite (@of_int_screen dim Hd).
  split; [reflexivity|].
  unfold PyFloat.to_int. rewrite mul_spec.
  replace (Prim2SF 0) with (S754_zero false) by reflexivity.
  destruct (@fmag_finite (PyFloat.of_int_round dim) 64 (@fmag_of_int dim Hd))
    as [[s E]|(s & m & e & E)]; rewrite E; reflexivity.
Qed.

Lemma map_to_screen_corner (self : CursorMath) (norm_x norm_y : float) :
  config_region self ->
  0 < screen_width self < 2 ^ 63 ->
  0 < screen_height self < 2 ^ 63 ->
  (norm_x <? 0.8)%float = false ->
  (norm_y <=? 0.2)%float = true ->
  CursorMath.map_to_screen self norm_x norm_y = Ok (0, 0).
Proof.
  intros Hr Hw Hh Hx Hy. destruct (@at_most_start norm_y Hy) as [Hy1 Hy2].
  rewrite (@map_to_screen_eq self norm_x norm_y Hr).
  rewrite (@clamp_at_end norm_x Hx), (@clamp_at_start norm_y Hy1 Hy2).
  replace (mirror (rescale 0.2 0.8 0.8)) with 0%float by (vm_compute; reflexivity).
  replace (rescale 0.2 0.8 0.2) with 0%float by (vm_compute; reflexivity).
  destruct (@to_pixel_zero (screen_width self)) as [A B]; [lia|].
  destruct (@to_pixel_zero (screen_height self)) as [C D]; [lia|].
  rewrite A. cbn [result_bind]. rewrite B. cbn [result_bind].
  rewrite C. cbn [result_bind]. rewrite D. cbn [result_bind].
  unfold clamp_pixel. do 2 f_equal; lia.
Qed.

(** X12.  The fail-safe exit can be reached on every screen.  A point whose
    x is not below the right edge of the active region (an x of 0.8 or more,
    or a NaN) and whose y is at most its top edge (a number, 0.2 or less)
    maps to pixel (0, 0), which is inside the fail-safe rectangle; so on a
    filter without history, as at the start and after every loss of the hand,
    one frame with the index fingertip there ends the loop with no call
    made. *)
Theorem failsafe_corner_exits :
  (forall (cm : CursorMath) norm_x norm_y,
     config_region cm ->
     0 < screen_width cm < 2 ^ 63 ->
     0 < screen_height cm < 2 ^ 63 ->
     (norm_x <? config.ACTIVE_REGION_X_END)%float = false ->
     (norm_y <=? config.ACTIVE_REGION_Y_START)%float = true ->
     CursorMath.map_to_screen cm norm_x norm_y = Ok (0, 0) /\
     CursorMath.is_in_failsafe_region 0 0 = true) /\
  (forall self hd t tip,
     config_region (cursor_math self) ->
     0 < screen_width (cursor_math self) < 2 ^ 63 ->
     0 < screen_height (cursor_math self) < 2 ^ 63 ->
     _prev_x (cursor_math self) = None ->
     HandEngine.get_fingertip hd "index" = Ok tip ->
     (lm_x tip <? config.ACTIVE_REGION_X_END)%float = false ->
     (lm_y tip <=? config.ACTIVE_REGION_Y_START)%float = true ->
     pointer self hd = Ok (0, 0) /\
     run_frame (Some hd) t self = (Ok Break, after_smoothing self tip, []) /\
     forall rest, run ((Some hd, t) :: rest) self = (Ok tt, after_smoothing self tip, [])).
Proof.
  split.
  - intros cm x y Hr Hw Hh Hx Hy. split; [|reflexivity].
    apply map_to_screen_corner; assumption.
  - intros self hd t tip Hr Hw Hh Hprev Htip Hx Hy.
    assert (Hp : pointer self hd = Ok (0, 0)).
    { rewrite (@pointer_unfold self hd tip Htip).
      destruct (after_smoothing_geometry self tip) as (G1 & G2 & G3 & G4 & G5 & G6).
      destruct Hr as (R1 & R2 & R3 & R4).
      unfold smoothed. rewrite Hprev. cbn [fst snd].
      apply map_to_screen_corner; try assumption; try (rewrite ?G1, ?G2; assumption).
      unfold config_region. rewrite G3, G4, G5, G6. repeat split; assumption. }
    assert (E : _process_gestures hd t self = (Ok EXIT_CODE, after_smoothing self tip, []))
      by (apply (@process_failsafe self hd t tip 0 0 Htip Hp); reflexivity).
    assert (F : run_frame (Some hd) t self = (Ok Break, after_smoothing self tip, [])).
    { rewrite run_frame_hand, E. reflexivity. }
    split; [exact Hp|]. split; [exact F|].
    intros rest. rewrite run_cons, F. reflexivity.
Qed.

(** ** The filter at rest, and with a NaN *)

Lemma shl_align_same (m : positive) (e : Z) : shl_align m e e = (m, e).
Proof. unfold shl_align. rewrite Z.sub_diag. reflexivity. Qed.

Lemma SFsub_diag (s : bool) (m : positive) (e : Z) :
  SFsub prec emax (S754_finite s m e) (S754_finite s m e) = S754_zero false.
Proof.
  cbn [SFsub]. cbv zeta. rewrite Z.min_id, shl_align_same. cbn [fst].
  rewrite Z.sub_diag. reflexivity.
Qed.

Lemma filter_step_at_rest (v : float) : settled v -> (v + (v - v) / 6 = v)%float.
Proof.
  unfold settled. intros H. apply Prim2SF_inj.
  rewrite add_spec, div_spec, sub_spec.
  remember (Prim2SF 6) as six eqn:E6. vm_compute in E6. subst six.
  destruct (Prim2SF v) as [[|]|s| |s m e]; try contradiction.
  - reflexivity.
  - rewrite SFsub_diag. reflexivity.
Qed.

(** X13.  A hand that stays where the filter is leaves the filter and the
    pointer where they are: with the fingertip at the filter's own position
    (finite coordinates) [smooth_position] returns that position and changes
    nothing, and the frame's pointer is the map of that position. *)
Theorem still_hand_still_pointer :
  (forall (cm : CursorMath) x y,
     _prev_x cm = Some x -> _prev_y cm = Some y -> settled x -> settled y ->
     CursorMath.smooth_position x y cm = (Ok (x, y), cm, [])) /\
  (forall self hd t x y z,
     _prev_x (cursor_math self) = Some x -> _prev_y (cursor_math self) = Some y ->
     settled x -> settled y ->
     HandEngine.get_fingertip hd "index" = Ok (x, y, z) ->
     pointer self hd = CursorMath.map_to_screen (cursor_math self) x y /\
     cursor_math (after_smoothing self (x, y, z)) = cursor_math self /\
     _prev_x (cursor_math (state_of (run_frame (Some hd) t self))) = Some x /\
     _prev_y (cursor_math (state_of (run_frame (Some hd) t self))) = Some y).
Proof.
  assert (S : forall (cm : CursorMath) x y,
             _prev_x cm = Some x -> _prev_y cm = Some y -> settled x -> settled y ->
             CursorMath.smooth_position x y cm = (Ok (x, y), cm, [])).
  { intros cm x y Hx Hy Sx Sy. rewrite smooth_position_eq. unfold smoothed.
    rewrite Hx, Hy. cbn [fst snd].
    rewrite (@filter_step_at_rest x Sx), (@filter_step_at_rest y Sy).
    destruct cm. cbn in Hx, Hy. subst. reflexivity. }
  split; [exact S|].
  intros self hd t x y z Hx Hy Sx Sy Htip.
  assert (A : cursor_math (after_smoothing self (x, y, z)) = cursor_math self).
  { unfold after_smoothing. cbn [lm_x lm_y fst snd].
    rewrite (S _ x y Hx Hy Sx Sy). reflexivity. }
  split; [|split; [exact A|]].
  - unfold pointer. rewrite Htip. cbn [result_bind lm_x lm_y fst snd].
    rewrite (S _ x y Hx Hy Sx Sy). reflexivity.
  - destruct (run_frame_hand_keeps self hd t) as (E1 & _). cbv zeta in E1.
    rewrite E1.
    destruct (@process_filter_state self hd t (x, y, z) Htip) as [P1 P2].
    rewrite P1, P2, A. split; assumption.
Qed.

Lemma smoothed_nan (prev raw : float) :
  Prim2SF prev = S754_nan -> Prim2SF (prev + (raw - prev) / 6)%float = S754_nan.
Proof. intros H. rewrite add_spec, H. reflexivity. Qed.

Lemma after_smoothing_poisoned self tip :
  poisoned (cursor_math self) -> poisoned (cursor_math (after_smoothing self tip)).
Proof.
  intros [(v & Hv & Nv) (w & Hw)]. unfold after_smoothing.
  rewrite smooth_position_eq. unfold smoothed. rewrite Hv, Hw.
  cbn [state_of fst snd cursor_math set_cursor_math CursorMath.set_prev _prev_x _prev_y].
  split; eexists; [split; [reflexivity|]|reflexivity].
  apply smoothed_nan. exact Nv.
Qed.

Lemma run_frame_poisoned self hd t :
  poisoned (cursor_math self) ->
  poisoned (cursor_math (state_of (run_frame (Some hd) t self))).
Proof.
  intros H.
  destruct (run_frame_hand_keeps self hd t) as (E1 & _). cbv zeta in E1. rewrite E1.
  destruct (HandEngine.get_fingertip hd "index") as [tip|e] eqn:Htip.
  - destruct (@process_filter_state self hd t tip Htip) as [P1 P2].
    destruct (@after_smoothing_poisoned self tip H) as [(v & Hv & Nv) (w & Hw)].
    unfold poisoned. rewrite P1, P2. split; eauto.
  - rewrite (@process_no_index_tip self hd t e Htip). exact H.
Qed.

Lemma map_to_screen_nan_x (cm : CursorMath) (norm_x norm_y : float) (x y : Z) :
  config_region cm -> 0 < screen_width cm < 2 ^ 63 ->
  Prim2SF norm_x = S754_nan ->
  CursorMath.map_to_screen cm norm_x norm_y = Ok (x, y) -> x = 0.
Proof.
  intros Hr Hw Hn H.
  rewrite (@map_to_screen_eq cm norm_x norm_y Hr) in H.
  rewrite clamp_at_end in H by (rewrite ltb_spec, Hn; reflexivity).
  replace (mirror (rescale 0.2 0.8 0.8)) with 0%float in H by (vm_compute; reflexivity).
  destruct (@to_pixel_zero (screen_width cm)) as [A B]; [lia|].
  rewrite A in H. cbn [result_bind] in H. rewrite B in H. cbn [result_bind] in H.
  destruct (CursorMath.mul_int _ (screen_height cm)) as [fy|e]; cbn [result_bind] in H;
    [|discriminate].
  destruct (PyFloat.to_int fy) as [sy|e]; cbn [result_bind] in H; [|discriminate].
  inversion H. unfold clamp_pixel. lia.
Qed.

(** X14.  A NaN in the filter stays there.  Once the stored x coordinate is a
    NaN (one sample with a NaN x is enough), it is a NaN after every further
    frame with a hand, whatever the samples, and on each of them the pointer
    is in the left-most column of the screen; only a frame without a hand,
    which clears the filter, ends this. *)
Theorem nan_stays_in_filter :
  (forall (cm : CursorMath) raw_x raw_y,
     Prim2SF raw_x = S754_nan ->
     poisoned (state_of (CursorMath.smooth_position raw_x raw_y cm))) /\
  (forall frames self,
     poisoned (cursor_math self) -> poisoned (cursor_math (after_frames frames self))) /\
  (forall self hd x y,
     poisoned (cursor_math self) ->
     config_region (cursor_math self) ->
     0 < screen_width (cursor_math self) < 2 ^ 63 ->
     pointer self hd = Ok (x, y) -> x = 0) /\
  (forall self t, ~ poisoned (cursor_math (state_of (run_frame None t self)))).
Proof.
  split; [|split; [|split]].
  - intros cm raw_x raw_y Hn. rewrite smooth_position_eq. unfold smoothed.
    cbn [state_of fst snd]. unfold poisoned.
    cbn [CursorMath.set_prev _prev_x _prev_y].
    destruct (_prev_x cm) as [px|]; [destruct (_prev_y cm) as [py|]|]; cbn [fst snd].
    + split; eexists; [split; [reflexivity|]|reflexivity].
      rewrite add_spec, div_spec, sub_spec, Hn.
      destruct (Prim2SF px); reflexivity.
    + split; eexists; [split; [reflexivity|exact Hn]|reflexivity].
    + split; eexists; [split; [reflexivity|exact Hn]|reflexivity].
  - induction frames as [|[hd t] frames IH]; intros self H; [exact H|].
    cbn [after_frames]. apply IH. apply run_frame_poisoned. exact H.
  - intros self hd x y Hp Hr Hw H.
    destruct (@pointer_has_tip self hd (x, y) H) as [tip Htip].
    rewrite (@pointer_unfold self hd tip Htip) in H.
    destruct (after_smoothing_geometry self tip) as (G1 & G2 & G3 & G4 & G5 & G6).
    destruct Hr as (R1 & R2 & R3 & R4).
    refine (@map_to_screen_nan_x _ _ _ x y _ _ _ H).
    + unfold config_region. rewrite G3, G4, G5, G6. repeat split; assumption.
    + rewrite G1. exact Hw.
    + destruct Hp as [(v & Hv & Nv) (w & Hw')]. unfold smoothed. rewrite Hv, Hw'.
      cbn [fst]. apply smoothed_nan. exact Nv.
  - intros self t [(v & Hv & _) _]. rewrite run_frame_no_hand in Hv.
    unfold state_of in Hv. cbn [fst snd] in Hv.
    destruct (clear_indicator_keeps t (idle self)) as (E1 & _). rewrite E1 in Hv.
    discriminate.
Qed.

(** ** Finger names *)

Lemma lower_ascii_idempotent (c : ascii) : lower_ascii (lower_ascii c) = lower_ascii c.
Proof. destruct c as [[] [] [] [] [] [] [] []]; reflexivity. Qed.

Lemma lower_ascii_stays_ascii (c : ascii) :
  Nat.ltb (nat_of_ascii c) 128 = true -> Nat.ltb (nat_of_ascii (lower_ascii c)) 128 = true.
Proof. destruct c as [[] [] [] [] [] [] [] []]; intros H; try discriminate; reflexivity. Qed.

Lemma ascii_lower_idempotent (s : string) : ascii_lower (ascii_lower s) = ascii_lower s.
Proof.
  induction s as [|c s IH]; [reflexivity|].
  cbn [ascii_lower]. rewrite lower_ascii_idempotent, IH. reflexivity.
Qed.

Lemma ascii_lower_stays_ascii (s : string) :
  is_ascii s = true -> is_ascii (ascii_lower s) = true.
Proof.
  induction s as [|c s IH]; [reflexivity|].
  cbn [is_ascii ascii_lower]. intros H. apply andb_true_iff in H. destruct H as [H1 H2].
  rewrite (lower_ascii_stays_ascii c H1), (IH H2). reflexivity.
Qed.

Lemma lower_of_ascii (s : string) : is_ascii s = true -> lower s = ascii_lower s.
Proof. intros H. unfold lower. rewrite H. reflexivity. Qed.

Lemma lower_idempotent (s : string) : is_ascii s = true -> lower (lower s) = lower s.
Proof.
  intros H. rewrite (lower_of_ascii s H).
  rewrite (lower_of_ascii _ (ascii_lower_stays_ascii s H)).
  apply ascii_lower_idempotent.
Qed.

Lemma dict_get_known {V} (d : list (string * V)) (k : string) :
  (In k (map fst d) -> exists v, dict_get d k = Ok v /\ In (k, v) d) /\
  (~ In k (map fst d) -> dict_get d k = Raise KeyError).
Proof.
  induction d as [|[k' v] d [IH1 IH2]]; cbn [dict_get map fst In].
  - split; [contradiction|reflexivity].
  - destruct (String.eqb_spec k' k) as [->|N].
    + split; [intros _; exists v; split; [reflexivity|left; reflexivity]|].
      intros H. exfalso. apply H. left. reflexivity.
    + split.
      * intros [E|H]; [contradiction|].
        destruct (IH1 H) as (v' & A & B). exists v'. split; [exact A|right; exact B].
      * intros H. apply IH2. intros I. apply H. right. exact I.
Qed.

Lemma np_hypot_raises (dx dy : float) (e : exn) :
  HandEngine.np_hypot dx dy = Raise e -> e = OverflowError \/ e = ValueError.
Proof.
  unfold HandEngine.np_hypot.
  destruct (pow2_cases dx) as [A|[A|A]]; rewrite A; cbn [result_bind];
    [|intros H; inversion H; auto|intros H; inversion H; auto].
  destruct (pow2_cases dy) as [B|[B|B]]; rewrite B; cbn [result_bind];
    intros H; inversion H; auto.
Qed.

Lemma is_finger_curled_known (hd : HandLandmarks) (finger : string) (j : Z * Z * Z) :
  dict_get HandEngine.finger_joints (lower finger) = Ok j ->
  HandEngine.is_finger_curled hd finger <> Raise KeyError.
Proof.
  intros H. unfold HandEngine.is_finger_curled. rewrite H. cbn [result_bind].
  destruct j as [[tip_idx pip_idx] mcp_idx].
  destruct (getitem (landmarks hd) tip_idx) as [tip|e] eqn:E1; cbn [result_bind].
  2:{ rewrite (getitem_raises _ _ E1). discriminate. }
  destruct (getitem (landmarks hd) pip_idx) as [pip|e] eqn:E2; cbn [result_bind].
  2:{ rewrite (getitem_raises _ _ E2). discriminate. }
  destruct (getitem (landmarks hd) mcp_idx) as [mcp|e] eqn:E3; cbn [result_bind].
  2:{ rewrite (getitem_raises _ _ E3). discriminate. }
  destruct (HandEngine.np_hypot (lm_x tip - lm_x mcp) (lm_y tip - lm_y mcp))
    as [a|e] eqn:E4; cbn [result_bind].
  2:{ destruct (np_hypot_raises _ _ E4) as [->| ->]; discriminate. }
  destruct (HandEngine.np_hypot (lm_x pip - lm_x mcp) (lm_y pip - lm_y mcp))
    as [b|e] eqn:E5; cbn [result_bind].
  2:{ destruct (np_hypot_raises _ _ E5) as [->| ->]; discriminate. }
  discriminate.
Qed.

(** X15.  Finger names of ASCII characters are read without regard to case,
    and an unknown name is refused before the sample is looked at.  For every
    name, with [lower] the interpreter's own [str.lower]: [get_fingertip]
    raises [KeyError] exactly for a name that, in lower case, is none of
    thumb, index, middle, ring and pinky, and [is_finger_curled] exactly for
    one that is none of index, middle, ring and pinky, so the thumb has no
    curl test; the names [is_fist] asks for are all known. *)
Theorem finger_names (hd : HandLandmarks) (finger : string) :
  (is_ascii finger = true ->
     lower finger = ascii_lower finger /\
     HandEngine.get_fingertip hd (lower finger) = HandEngine.get_fingertip hd finger /\
     HandEngine.is_finger_curled hd (lower finger)
     = HandEngine.is_finger_curled hd finger) /\
  (HandEngine.get_fingertip hd finger = Raise KeyError <->
     ~ In (lower finger) ["thumb"; "index"; "middle"; "ring"; "pinky"]%string) /\
  (HandEngine.is_finger_curled hd finger = Raise KeyError <->
     ~ In (lower finger) HandEngine.fingers) /\
  HandEngine.is_finger_curled hd "thumb" = Raise KeyError /\
  HandEngine.is_fist hd <> Raise KeyError.
Proof.
  split; [|split; [|split; [|split]]].
  - intros Ha. split; [apply lower_of_ascii; exact Ha|]. split.
    + unfold HandEngine.get_fingertip. rewrite (lower_idempotent finger Ha). reflexivity.
    + unfold HandEngine.is_finger_curled. rewrite (lower_idempotent finger Ha).
      reflexivity.
  - unfold HandEngine.get_fingertip.
    destruct (dict_get_known HandEngine.finger_tips (lower finger)) as [K1 K2].
    change (map fst HandEngine.finger_tips)
      with ["thumb"; "index"; "middle"; "ring"; "pinky"]%string in K1, K2.
    split.
    + intros H I. destruct (K1 I) as (v & E & _). rewrite E in H. cbn [result_bind] in H.
      unfold HandEngine.get_landmark in H. pose proof (getitem_raises _ _ H). discriminate.
    + intros N. rewrite (K2 N). reflexivity.
  - destruct (dict_get_known HandEngine.finger_joints (lower finger)) as [K1 K2].
    change (map fst HandEngine.finger_joints) with HandEngine.fingers in K1, K2.
    split.
    + intros H I. destruct (K1 I) as (v & E & _).
      exact (@is_finger_curled_known hd finger v E H).
    + intros N. unfold HandEngine.is_finger_curled. rewrite (K2 N). reflexivity.
  - reflexivity.
  - rewrite is_fist_unfold. intros H.
    destruct (HandEngine.is_finger_curled hd "index") as [[|]|e] eqn:E1;
      cbn [result_bind] in H; try discriminate.
    2:{ inversion H; subst. revert E1. apply (@is_finger_curled_known hd "index" (8, 6, 5)).
        reflexivity. }
    destruct (HandEngine.is_finger_curled hd "middle") as [[|]|e] eqn:E2;
      cbn [result_bind] in H; try discriminate.
    2:{ inversion H; subst. revert E2.
        apply (@is_finger_curled_known hd "middle" (12, 10, 9)). reflexivity. }
    destruct (HandEngine.is_finger_curled hd "ring") as [[|]|e] eqn:E3;
      cbn [result_bind] in H; try discriminate.
    2:{ inversion H; subst. revert E3.
        apply (@is_finger_curled_known hd "ring" (16, 14, 13)). reflexivity. }
    destruct (HandEngine.is_finger_curled hd "pinky") as [[|]|e] eqn:E4;
      cbn [result_bind] in H; try discriminate.
    inversion H; subst. revert E4.
    apply (@is_finger_curled_known hd "pinky" (20, 18, 17)). reflexivity.
Qed.

(** ** The click mark of the overlay *)

Lemma scroll_outcome_indicator hd t s :
  indicator_consistent s -> indicator_consistent (state_of (scroll_outcome hd t s)).
Proof.
  intros H. unfold scroll_outcome.
  assert (G : indicator_consistent (scroll_entry s))
    by (unfold scroll_entry; destruct (is_scrolling s); exact H).
  destruct (HandEngine.get_landmark hd HandEngine.WRIST) as [wrist|e]; [|exact G].
  cbv zeta.
  destruct (match _prev_scroll_y (cursor_math (scroll_entry s)) with
            | Some reference_y => scroll_delta_of reference_y (lm_y wrist)
            | None => Ok 0
            end) as [d|e]; [destruct (_ && _)|]; exact G.
Qed.

Lemma left_clicked_indicator pinch t x y s :
  indicator_consistent s -> indicator_consistent (left_clicked pinch t x y s).
Proof.
  intros H. unfold left_clicked.
  destruct (fires pinch _ _ _); [|exact H].
  left. split; reflexivity.
Qed.

Lemma right_clicked_indicator pinch t x y s :
  indicator_consistent s -> indicator_consistent (right_clicked pinch t x y s).
Proof.
  intros H. unfold right_clicked.
  destruct (fires pinch _ _ _); [|exact H].
  right. split; reflexivity.
Qed.

Lemma active_outcome_indicator hd t x y s :
  indicator_consistent s -> indicator_consistent (state_of (active_outcome hd t x y s)).
Proof.
  intros H. unfold active_outcome.
  assert (G : indicator_consistent
                (set_current_mode config.MODE_ACTIVE (set_is_scrolling false s)))
    by exact H.
  destruct (_check_left_click hd) as [pl|e]; [|exact G]. cbv zeta.
  destruct (_check_right_click hd) as [pr|e]; cbn [state_of fst snd].
  - apply right_clicked_indicator, left_clicked_indicator. exact G.
  - apply left_clicked_indicator. exact G.
Qed.

Lemma clear_indicator_consistent t s :
  indicator_consistent s -> indicator_consistent (clear_indicator t s).
Proof.
  intros H. unfold clear_indicator. destruct (_ && _); [exact I|exact H].
Qed.

Lemma run_frame_indicator hand_data t self :
  indicator_consistent self ->
  indicator_consistent (state_of (run_frame hand_data t self)).
Proof.
  intros H. destruct hand_data as [hd|].
  - assert (G : indicator_consistent (state_of (_process_gestures hd t self))).
    { destruct (process_cases self hd t)
        as [[E _]|(tip & _ & [(r & E & _)|[[_ E]|(x & y & _ & _ & _ & E)]])]; rewrite E.
      - exact H.
      - exact H.
      - apply scroll_outcome_indicator. exact H.
      - apply active_outcome_indicator. exact H. }
    rewrite run_frame_hand. cbv zeta.
    destruct (returned (_process_gestures hd t self)) as [r|e]; [|exact G].
    destruct (r =? EXIT_CODE); [exact G|].
    apply clear_indicator_consistent. exact G.
  - rewrite run_frame_no_hand. apply clear_indicator_consistent. exact H.
Qed.

(** X16.  The click mark kept for the overlay is never stale with respect to
    the click times: at every point of every run from a fresh object, a mark
    that is present is LEFT and carries the time of the last left click, or
    is RIGHT and carries the time of the last right click. *)
Theorem click_mark_is_last_click :
  (forall w h, indicator_consistent (KineticOS.__init__ w h)) /\
  (forall hand_data t self,
     indicator_consistent self ->
     indicator_consistent (state_of (run_frame hand_data t self))) /\
  (forall frames self,
     indicator_consistent self -> indicator_consistent (state_of (run frames self))).
Proof.
  split; [|split].
  - intros w h. exact I.
  - exact run_frame_indicator.
  - induction frames as [|[hand_data t] frames IH]; intros self H; [exact H|].
    rewrite run_cons. cbv zeta.
    pose proof (@run_frame_indicator hand_data t self H) as H1.
    destruct (returned (run_frame hand_data t self)) as [[d|]|e]; cbn [state_of fst snd].
    + apply IH. exact H1.
    + exact H1.
    + exact H1.
Qed.

(** ** The frame-rate meter *)

Lemma tick_state (py_sum : list float -> float) (self : FPSCounter) (t : float) :
  state_of (FPSCounter.tick py_sum t self)
  = FPSCounter.set_last_time (Some t) (FPSCounter.set_times (window_after self t) self) /\
  emitted (FPSCounter.tick py_sum t self) = [].
Proof.
  unfold FPSCounter.tick, window_after, bind, get, modify, when, ret, try.
  destruct self as [times ss last]. cbn [_last_time _times _sample_size].
  destruct last as [last|]; cbn.
  2:{ destruct times as [|d times]; cbn.
      - split; reflexivity.
      - destruct (CursorMath.truediv_int _ _) as [a|e]; cbn; [|split; reflexivity].
        destruct (0 <? a)%float; cbn; [|split; reflexivity].
        destruct (PyFloat.truediv 1 a); split; reflexivity. }
  destruct (0 <? t - last)%float; cbn.
  - destruct (ss <? Z.of_nat (List.length (times ++ [(t - last)%float]))) eqn:L; cbn.
    + destruct (times ++ [(t - last)%float]) as [|d w] eqn:W; cbn.
      { destruct times; discriminate. }
      destruct w as [|d' w']; cbn; [split; reflexivity|].
      destruct (CursorMath.truediv_int _ _) as [a|e]; cbn; [|split; reflexivity].
      destruct (0 <? a)%float; cbn; [|split; reflexivity].
      destruct (PyFloat.truediv 1 a); split; reflexivity.
    + destruct (times ++ [(t - last)%float]) as [|d w] eqn:W; cbn.
      { split; reflexivity. }
      destruct (CursorMath.truediv_int _ _) as [a|e]; cbn; [|split; reflexivity].
      destruct (0 <? a)%float; cbn; [|split; reflexivity].
      destruct (PyFloat.truediv 1 a); split; reflexivity.
  - destruct times as [|d times]; cbn.
    + split; reflexivity.
    + destruct (CursorMath.truediv_int _ _) as [a|e]; cbn; [|split; reflexivity].
      destruct (0 <? a)%float; cbn; [|split; reflexivity].
      destruct (PyFloat.truediv 1 a); split; reflexivity.
Qed.

Lemma shr_fexp_positive (m e : Z) (l : location) :
  0 < m -> -1074 <= e ->
  0 < shr_m (fst (shr_fexp prec emax m e l)) /\ -1074 <= snd (shr_fexp prec emax m e l).
Proof.
  intros Hm He. unfold shr_fexp, shr. rewrite fexp_eq.
  destruct (Z.max (Zdigits2 m + e - 53) (-1074) - e) as [|p|p] eqn:En; cbn [fst snd];
    rewrite ?shr_record_of_loc_m; try (split; lia).
  rewrite iter_shr_m by (rewrite shr_record_of_loc_m; lia).
  rewrite shr_record_of_loc_m. split; [|lia].
  destruct m as [|q|q]; try lia. cbn [Zdigits2] in En.
  pose proof (pos_digits_bounds q) as [B _].
  assert (Hp : Z.pos p = Z.pos (digits2_pos q) - 53) by lia.
  assert (P : 0 < 2 ^ Z.pos p) by (apply Z.pow_pos_nonneg; lia).
  assert (L : 2 ^ Z.pos p <= 2 ^ (Z.pos (digits2_pos q) - 1))
    by (apply Z.pow_le_mono_r; lia).
  assert (1 <= Z.pos q / 2 ^ Z.pos p); [|lia].
  apply Z.div_le_lower_bound; lia.
Qed.

Lemma binary_round_aux_not_zero (s : bool) (m e : Z) (l : location) :
  0 < m -> -1074 <= e ->
  forall s', binary_round_aux prec emax s m e l <> S754_zero s'.
Proof.
  intros Hm He s'. unfold binary_round_aux.
  destruct (@shr_fexp_positive m e l Hm He) as [H1 H1'].
  destruct (shr_fexp prec emax m e l) as [mrs' e'] eqn:E1. cbn [fst snd] in H1, H1'.
  assert (H0 : 0 <= shr_m mrs') by lia.
  pose proof (@round_nearest_even_bound (shr_m mrs') (loc_of_shr_record mrs') H0) as R.
  set (r := round_nearest_even (shr_m mrs') (loc_of_shr_record mrs')) in *.
  assert (Hr : 0 < r) by lia.
  destruct (@shr_fexp_positive r e' loc_Exact Hr H1') as [H2 _].
  destruct (shr_fexp prec emax r e' loc_Exact) as [mrs'' e''] eqn:E2. cbn [fst] in H2.
  destruct (shr_m mrs'') as [|p|p]; [lia| |discriminate].
  destruct (e'' <=? emax - prec); discriminate.
Qed.

Lemma of_int_round_positive (n : Z) :
  1 <= n < 2 ^ 63 ->
  exists m e, Prim2SF (PyFloat.of_int_round n) = S754_finite false m e.
Proof.
  intros Hn. unfold PyFloat.of_int_round.
  pose proof (@fmag_of_int n ltac:(lia)) as M. unfold fmag in M.
  rewrite of_uint63_round in * by lia.
  destruct n as [|p|p]; try lia. cbn [binary_normalize] in *.
  pose proof (binary_round_signed false p 0) as S.
  assert (Z : forall s', binary_round prec emax false p 0 <> S754_zero s').
  { unfold binary_round.
    destruct (shl_align p 0 (fexp prec emax (Z.pos (digits2_pos p) + 0))) as [mz ez] eqn:A.
    apply binary_round_aux_not_zero; [lia|].
    unfold shl_align in A. rewrite fexp_eq in A.
    destruct (Z.max (Z.pos (digits2_pos p) + 0 - 53) (-1074) - 0) eqn:D;
      inversion A; subst; lia. }
  destruct (binary_round prec emax false p 0) as [s|s| |s m e]; cbn in S, M;
    try contradiction.
  - exfalso. exact (Z s eq_refl).
  - subst. eauto.
Qed.

Lemma truediv_length (x : float) (n : Z) :
  1 <= n < 2 ^ 63 ->
  CursorMath.truediv_int x n = Ok (x / PyFloat.of_int_round n)%float.
Proof.
  intros Hn. unfold CursorMath.truediv_int.
  rewrite (@of_int_screen n) by lia. cbn [result_bind]. unfold PyFloat.truediv.
  destruct (@of_int_round_positive n Hn) as (m & e & E).
  rewrite eqb_spec, E. reflexivity.
Qed.

Lemma positive_not_zero (a : float) : (0 <? a)%float = true -> (a =? 0)%float = false.
Proof.
  rewrite ltb_spec, eqb_spec.
  replace (Prim2SF 0) with (S754_zero false) by reflexivity.
  destruct (Prim2SF a) as [s|s| |s m e]; try destruct s; cbn; congruence.
Qed.

Lemma SFdiv_core_nonneg (m1 : positive) (e1 : Z) (m2 : positive) (e2 : Z) :
  0 <= fst (fst (SFdiv_core_binary prec emax (Z.pos m1) e1 (Z.pos m2) e2)).
Proof.
  unfold SFdiv_core_binary. cbv zeta.
  set (s := e1 - e2 - _).
  set (m' := match s with Z0 => Z.pos m1 | Z.pos _ => Z.shiftl (Z.pos m1) s | Z.neg _ => 0 end).
  assert (Hm : 0 <= m').
  { unfold m'. destruct s; try lia. apply Z.shiftl_nonneg. lia. }
  pose proof (Z_div_mod m' (Z.pos m2) ltac:(lia)) as D.
  destruct (Z.div_eucl m' (Z.pos m2)) as [q r]. cbn [fst].
  destruct D as [D1 D2]. nia.
Qed.

Lemma reciprocal_signed (a : float) :
  (0 <? a)%float = true -> signed false (Prim2SF (1 / a)%float).
Proof.
  rewrite ltb_spec, div_spec.
  replace (Prim2SF 0) with (S754_zero false) by reflexivity.
  remember (Prim2SF 1) as one eqn:E1. vm_compute in E1. subst one.
  destruct (Prim2SF a) as [s|s| |s m e]; try destruct s; cbn [SFltb SFcompare];
    try discriminate; intros _.
  - reflexivity.
  - unfold SF64div. cbn [SFdiv xorb].
    pose proof (SFdiv_core_nonneg 4503599627370496 (-52) m e) as N.
    destruct (SFdiv_core_binary prec emax 4503599627370496 (-52) (Z.pos m) e)
      as [[mz ez] lz].
    apply binary_round_aux_signed. exact N.
Qed.

Lemma fps_of_signed (py_sum : list float -> float) (window : list float) :
  signed false (Prim2SF (fps_of py_sum window)).
Proof.
  unfold fps_of. destruct window as [|d w]; [reflexivity|]. cbv zeta.
  destruct (0 <? _)%float eqn:H; [|reflexivity].
  apply reciprocal_signed. exact H.
Qed.

Lemma tick_returned (py_sum : list float -> float) (self : FPSCounter) (t : float) :
  returned (FPSCounter.tick py_sum t self)
  = match window_after self t with
    | [] => Ok 0%float
    | _ :: _ =>
        (avg_delta <- CursorMath.truediv_int (py_sum (window_after self t))
                        (Z.of_nat (List.length (window_after self t))) ;;
         if (0 <? avg_delta)%float then PyFloat.truediv 1 avg_delta else Ok 0%float)%result
    end.
Proof.
  unfold FPSCounter.tick, window_after, bind, get, modify, when, ret, try.
  destruct self as [times ss last]. cbn [_last_time _times _sample_size].
  destruct last as [last|]; cbn.
  2:{ destruct times as [|d times]; cbn; [reflexivity|].
      destruct (CursorMath.truediv_int _ _) as [a|e]; cbn; [|reflexivity].
      destruct (0 <? a)%float; cbn; [|reflexivity].
      destruct (PyFloat.truediv 1 a); reflexivity. }
  destruct (0 <? t - last)%float; cbn.
  - destruct (ss <? Z.of_nat (List.length (times ++ [(t - last)%float]))) eqn:L; cbn.
    + destruct (times ++ [(t - last)%float]) as [|d w] eqn:W; cbn.
      { destruct times; discriminate. }
      destruct w as [|d' w']; cbn; [reflexivity|].
      destruct (CursorMath.truediv_int _ _) as [a|e]; cbn; [|reflexivity].
      destruct (0 <? a)%float; cbn; [|reflexivity].
      destruct (PyFloat.truediv 1 a); reflexivity.
    + destruct (times ++ [(t - last)%float]) as [|d w] eqn:W; cbn; [reflexivity|].
      destruct (CursorMath.truediv_int _ _) as [a|e]; cbn; [|reflexivity].
      destruct (0 <? a)%float; cbn; [|reflexivity].
      destruct (PyFloat.truediv 1 a); reflexivity.
  - destruct times as [|d times]; cbn; [reflexivity|].
    destruct (CursorMath.truediv_int _ _) as [a|e]; cbn; [|reflexivity].
    destruct (0 <? a)%float; cbn; [|reflexivity].
    destruct (PyFloat.truediv 1 a); reflexivity.
Qed.

Lemma window_after_length (self : FPSCounter) (t : float) :
  (List.length (window_after self t) <= S (List.length (_times self)))%nat.
Proof.
  unfold window_after. destruct (_last_time self) as [last|]; [|lia]. cbv zeta.
  destruct (0 <? t - last)%float; [|lia].
  destruct (_ <? _).
  - destruct (_times self ++ [(t - last)%float]) as [|d w] eqn:W; cbn [tl List.length].
    + lia.
    + apply (f_equal (@List.length float)) in W. rewrite length_app in W.
      cbn [List.length] in W. lia.
  - rewrite length_app. cbn [List.length]. lia.
Qed.

(** X17.  The frame-rate meter cannot fail and never shows a negative rate
    or a NaN: whatever the times it is given (equal, going backwards,
    infinite or NaN) and whatever the builtin sum returns, [tick] returns a
    number with the sign bit down, makes no call, and leaves the window and
    the last time as described; the divisions by the window length and by
    the average are both guarded.  The bound on the length is the one CPython
    puts on every list. *)
Theorem tick_total (py_sum : list float -> float) (self : FPSCounter) (t : float) :
  Z.of_nat (List.length (_times self)) < 2 ^ 63 - 1 ->
  FPSCounter.tick py_sum t self
  = (Ok (fps_of py_sum (window_after self t)),
     FPSCounter.set_last_time (Some t) (FPSCounter.set_times (window_after self t) self),
     []) /\
  signed false (Prim2SF (fps_of py_sum (window_after self t))) /\
  (_last_time self = None -> window_after self t = _times self) /\
  (window_after self t = [] -> fps_of py_sum (window_after self t) = 0%float).
Proof.
  intros Hlen.
  destruct (tick_state py_sum self t) as [S O].
  pose proof (tick_returned py_sum self t) as R.
  pose proof (window_after_length self t) as L.
  split; [|split; [apply fps_of_signed|split]].
  - destruct (FPSCounter.tick py_sum t self) as [[r s] o].
    unfold state_of, emitted, returned in *. cbn [fst snd] in *. subst s o.
    f_equal. f_equal. rewrite R. unfold fps_of.
    destruct (window_after self t) as [|d w] eqn:W; [reflexivity|].
    rewrite truediv_length by (cbn [List.length] in *; lia).
    cbn [result_bind]. cbv zeta.
    destruct (0 <? _)%float eqn:P; [|reflexivity].
    unfold PyFloat.truediv. rewrite (@positive_not_zero _ P). reflexivity.
  - intros N. unfold window_after. rewrite N. reflexivity.
  - intros E. rewrite E. reflexivity.
Qed.

Lemma window_after_ok (self : FPSCounter) (t : float) :
  window_ok self ->
  Z.of_nat (List.length (window_after self t)) <= Z.max 0 (_sample_size self) /\
  Forall (fun d => (0 <? d)%float = true) (window_after self t).
Proof.
  intros [L F]. unfold window_after.
  destruct (_last_time self) as [last|]; [|split; assumption]. cbv zeta.
  destruct (0 <? t - last)%float eqn:P; [|split; assumption].
  assert (F' : Forall (fun d => (0 <? d)%float = true) (_times self ++ [(t - last)%float])).
  { apply Forall_app. split; [exact F|]. constructor; [exact P|constructor]. }
  destruct (Z.ltb_spec (_sample_size self)
              (Z.of_nat (List.length (_times self ++ [(t - last)%float])))) as [G|G].
  - destruct (_times self ++ [(t - last)%float]) as [|d w] eqn:W; cbn [tl].
    + split; [cbn; lia|constructor].
    + apply (f_equal (@List.length float)) in W. rewrite length_app in W.
      cbn [List.length] in W. split; [lia|]. inversion F'. assumption.
  - split; [lia|exact F'].
Qed.

Lemma tick_window_ok (py_sum : list float -> float) (self : FPSCounter) (t : float) :
  window_ok self -> window_ok (state_of (FPSCounter.tick py_sum t self)).
Proof.
  intros H. destruct (tick_state py_sum self t) as [S _]. rewrite S.
  exact (@window_after_ok self t H).
Qed.

(** X18.  The window of the frame-rate meter stays within the sample size and
    holds positive deltas only, from a fresh meter through any sequence of
    ticks: the first tick only records the time, a tick whose time is not
    after the last recorded one adds nothing, and a tick that would make the
    window too long drops the oldest delta. *)
Theorem window_bounded (py_sum : list float -> float) :
  (forall sample_size, window_ok (FPSCounter.__init__ sample_size)) /\
  (forall self t, window_ok self -> window_ok (state_of (FPSCounter.tick py_sum t self))) /\
  (forall times self, window_ok self -> window_ok (after_ticks py_sum times self)) /\
  (forall self t,
     let s' := state_of (FPSCounter.tick py_sum t self) in
     _last_time s' = Some t /\ _sample_size s' = _sample_size self /\
     _times s' = window_after self t) /\
  (forall self t last,
     _last_time self = Some last -> (0 <? t - last)%float = false ->
     _times (state_of (FPSCounter.tick py_sum t self)) = _times self) /\
  (forall self t last,
     _last_time self = Some last -> (0 <? t - last)%float = true ->
     Z.of_nat (List.length (_times self)) < _sample_size self ->
     _times (state_of (FPSCounter.tick py_sum t self)) = _times self ++ [(t - last)%float]) /\
  (forall self t last,
     _last_time self = Some last -> (0 <? t - last)%float = true ->
     _sample_size self <= Z.of_nat (List.length (_times self)) ->
     _times (state_of (FPSCounter.tick py_sum t self))
     = tl (_times self ++ [(t - last)%float])).
Proof.
  split; [|split; [|split; [|split; [|split; [|split]]]]].
  - intros ss. split; [cbn; lia|constructor].
  - intros self t. apply tick_window_ok.
  - induction times as [|t times IH]; intros self H; [exact H|].
    cbn [after_ticks fold_left]. apply IH. apply tick_window_ok. exact H.
  - intros self t. cbv zeta. destruct (tick_state py_sum self t) as [S _].
    rewrite S. repeat split.
  - intros self t last Hl Hd. destruct (tick_state py_sum self t) as [S _].
    rewrite S. cbn [_times FPSCounter.set_last_time FPSCounter.set_times].
    unfold window_after. rewrite Hl. cbv zeta. rewrite Hd. reflexivity.
  - intros self t last Hl Hd Hn. destruct (tick_state py_sum self t) as [S _].
    rewrite S. cbn [_times FPSCounter.set_last_time FPSCounter.set_times].
    unfold window_after. rewrite Hl. cbv zeta. rewrite Hd.
    destruct (Z.ltb_spec (_sample_size self)
                (Z.of_nat (List.length (_times self ++ [(t - last)%float])))) as [G|G];
      [|reflexivity].
    rewrite length_app in G. cbn [List.length] in G. lia.
  - intros self t last Hl Hd Hn. destruct (tick_state py_sum self t) as [S _].
    rewrite S. cbn [_times FPSCounter.set_last_time FPSCounter.set_times].
    unfold window_after. rewrite Hl. cbv zeta. rewrite Hd.
    destruct (Z.ltb_spec (_sample_size self)
                (Z.of_nat (List.length (_times self ++ [(t - last)%float])))) as [G|G];
      [reflexivity|].
    rewrite length_app in G. cbn [List.length] in G. lia.
Qed.

(** ** Well-formed samples never stop the loop with an exception *)

Lemma map_to_screen_total (cm : CursorMath) (norm_x norm_y : float) :
  config_region cm ->
  0 < screen_width cm < 2 ^ 63 -> 0 < screen_height cm < 2 ^ 63 ->
  exists x y, CursorMath.map_to_screen cm norm_x norm_y = Ok (x, y).
Proof.
  intros Hr Hw Hh.
  destruct (@to_pixel_total (mirror (rescale 0.2 0.8 (clamp 0.2 0.8 norm_x)))
              (screen_width cm) 6) as (Mx & px & Px);
    [apply mirror_fmag, rescale_fmag|lia|lia|].
  destruct (@to_pixel_total (rescale 0.2 0.8 (clamp 0.2 0.8 norm_y))
              (screen_height cm) 4) as (My & py & Py);
    [apply rescale_fmag|lia|lia|].
  rewrite (@map_to_screen_eq cm norm_x norm_y Hr), Mx. cbn [result_bind].
  unfold to_pixel in Px. rewrite Px. cbn [result_bind].
  rewrite My. cbn [result_bind].
  unfold to_pixel in Py. rewrite Py. cbn [result_bind]. eauto.
Qed.

Lemma in_order_geometry (s s' : KineticOS) :
  in_order s -> same_geometry (cursor_math s') (cursor_math s) ->
  (forall r, _prev_scroll_y (cursor_math s') = Some r -> fmag r 480) ->
  in_order s'.
Proof.
  intros ((R1 & R2 & R3 & R4) & Hw & Hh & _) (G1 & G2 & G3 & G4 & G5 & G6) Hs.
  unfold in_order, config_region. rewrite G1, G2, G3, G4, G5, G6.
  repeat split; try assumption; try lia.
Qed.

Lemma well_formed_joint (hd : HandLandmarks) (i : Z) :
  well_formed hd -> 0 <= i <= 20 -> bounded_point (joint hd i).
Proof.
  intros [L F] Hi. unfold joint.
  rewrite Forall_forall in F. apply F. apply nth_In.
  apply Nat2Z.inj_lt. rewrite Z2Nat.id by lia. lia.
Qed.

Lemma fmag_positive_part (x : float) (k : Z) :
  fmag x k -> (x =? 0)%float = false ->
  let iv := if (x <? 0)%float then (- x)%float else x in
  fmag iv k /\ (0 <? iv)%float = true.
Proof.
  unfold fmag. rewrite eqb_spec. cbv zeta.
  assert (Z0 : Prim2SF 0 = S754_zero false) by reflexivity.
  destruct (Prim2SF x) as [s|s| |s m e] eqn:E; cbn [mag]; try contradiction.
  - rewrite Z0. destruct s; discriminate.
  - intros M _.
    assert (L : (x <? 0)%float = s).
    { rewrite ltb_spec, E, Z0. destruct s; reflexivity. }
    rewrite L. destruct s.
    + rewrite ltb_spec, opp_spec, E, Z0. split; [exact M|reflexivity].
    + rewrite ltb_spec, E, Z0. split; [exact M|reflexivity].
Qed.

Lemma pow2_total (x : float) :
  pow_in_range -> fmag x 482 -> PyFloat.pow2 x = Ok (PyFloat.square x).
Proof.
  intros Hr H. unfold PyFloat.pow2, PyFloat.square, PyFloat.pow2_answer.
  destruct (is_nan x); [reflexivity|].
  destruct (is_infinity x); [reflexivity|].
  destruct (x =? 0)%float eqn:Z; [reflexivity|]. cbv zeta.
  destruct (@fmag_positive_part x 482 H Z) as [M Q]. cbv zeta in M, Q.
  set (iv := if (x <? 0)%float then (- x)%float else x) in *.
  destruct (iv =? 1)%float; [reflexivity|].
  pose proof (Hr iv M Q) as A.
  destruct (libm_pow2 iv) as [r [ | | ]]; cbn [fst snd].
  - rewrite A. reflexivity.
  - rewrite A. reflexivity.
  - contradiction.
Qed.

Lemma powers_return_bounded (tip pip mcp : Landmark) :
  pow_in_range ->
  bounded_point tip -> bounded_point pip -> bounded_point mcp ->
  powers_return tip pip mcp = true.
Proof.
  intros Hr [Tx Ty] [Px Py] [Mx My]. unfold powers_return. cbn [forallb].
  rewrite !(@pow2_total _ Hr) by (apply (@fmag_sub _ _ 480); assumption || lia).
  reflexivity.
Qed.

Lemma is_finger_curled_total (hd : HandLandmarks) (finger : string) (t p m : Z) :
  pow_in_range ->
  well_formed hd ->
  dict_get HandEngine.finger_joints (lower finger) = Ok (t, p, m) ->
  0 <= t <= 20 -> 0 <= p <= 20 -> 0 <= m <= 20 ->
  exists b, HandEngine.is_finger_curled hd finger = Ok b.
Proof.
  intros Hr W D Ht Hp Hm. pose proof W as [L _].
  destruct (@is_finger_curled_joints hd finger t p m D) as [J _]; try lia.
  cbv zeta in J. rewrite J; [eauto|].
  apply powers_return_bounded; try exact Hr; apply well_formed_joint; assumption.
Qed.

Lemma is_fist_total (hd : HandLandmarks) :
  pow_in_range -> well_formed hd -> exists b, HandEngine.is_fist hd = Ok b.
Proof.
  intros Hr W. rewrite is_fist_unfold.
  destruct (@is_finger_curled_total hd "index" 8 6 5 Hr W eq_refl) as [b1 E1]; try lia.
  destruct (@is_finger_curled_total hd "middle" 12 10 9 Hr W eq_refl) as [b2 E2]; try lia.
  destruct (@is_finger_curled_total hd "ring" 16 14 13 Hr W eq_refl) as [b3 E3]; try lia.
  destruct (@is_finger_curled_total hd "pinky" 20 18 17 Hr W eq_refl) as [b4 E4]; try lia.
  rewrite E1. cbn [result_bind]. destruct b1; [|eauto].
  rewrite E2. cbn [result_bind]. destruct b2; [|eauto].
  rewrite E3. cbn [result_bind]. destruct b3; [|eauto].
  rewrite E4. cbn [result_bind]. destruct b4; eauto.
Qed.

Lemma scroll_delta_of_total (reference_y current_y : float) :
  fmag reference_y 480 -> fmag current_y 480 ->
  exists d, scroll_delta_of reference_y current_y = Ok d.
Proof.
  intros Hr Hc. unfold scroll_delta_of.
  apply (@to_int_finite _ (482 + 4 + 1 + 7 + 1)).
  apply fmag_mul; try lia.
  - apply fmag_mul; try lia.
    + apply (@fmag_sub _ _ 480); assumption || lia.
    + unfold fmag. remember (Prim2SF scroll_gain) as c eqn:E. vm_compute in E. subst c.
      cbn. lia.
  - unfold fmag. remember (Prim2SF 100) as c eqn:E. vm_compute in E. subst c. cbn. lia.
Qed.

Lemma scroll_outcome_total hd t s :
  well_formed hd ->
  (forall r, _prev_scroll_y (cursor_math s) = Some r -> fmag r 480) ->
  (exists d, returned (scroll_outcome hd t s) = Ok d) /\
  (forall r, _prev_scroll_y (cursor_math (state_of (scroll_outcome hd t s))) = Some r ->
             fmag r 480).
Proof.
  intros W Hs. pose proof W as [L _]. unfold scroll_outcome.
  unfold HandEngine.get_landmark, HandEngine.WRIST.
  rewrite (@getitem_nth Landmark (landmarks hd) 0 (0, 0, 0)%float) by lia.
  fold (joint hd 0). cbv zeta.
  destruct (@well_formed_joint hd 0 W ltac:(lia)) as [_ By].
  assert (Hs' : forall r, _prev_scroll_y (cursor_math (scroll_entry s)) = Some r ->
                          fmag r 480).
  { unfold scroll_entry. destruct (is_scrolling s); [exact Hs|]. intros r H. discriminate. }
  assert (D : exists d, match _prev_scroll_y (cursor_math (scroll_entry s)) with
                        | Some reference_y => scroll_delta_of reference_y (lm_y (joint hd 0))
                        | None => Ok 0
                        end = Ok d).
  { destruct (_prev_scroll_y (cursor_math (scroll_entry s))) as [r|] eqn:E; [|eauto].
    apply scroll_delta_of_total; [apply Hs'; reflexivity|exact By]. }
  destruct D as [d D]. rewrite D.
  destruct (_ && _); cbn [returned state_of fst snd];
    (split; [eauto|]); intros r H; cbn in H; inversion H; subst; exact By.
Qed.

Lemma active_outcome_total hd t x y s :
  well_formed hd -> returned (active_outcome hd t x y s) = Ok 0.
Proof.
  intros [L _]. unfold active_outcome.
  destruct (@check_click_by_length hd 8) as [L1 _]; [lia|].
  destruct (@check_click_by_length hd 12) as [R1 _]; [lia|].
  cbv zeta in L1, R1.
  unfold _check_left_click, _check_right_click.
  rewrite get_fingertip_thumb, get_fingertip_index, get_fingertip_middle.
  rewrite L1, R1 by lia. reflexivity.
Qed.

Lemma process_total self hd t :
  pow_in_range -> in_order self -> well_formed hd ->
  (exists r, returned (_process_gestures hd t self) = Ok r) /\
  in_order (state_of (_process_gestures hd t self)).
Proof.
  intros Hpow Ho W. pose proof W as [L _]. pose proof Ho as (Hr & Hw & Hh & Hs).
  assert (Htip : exists tip, HandEngine.get_fingertip hd "index" = Ok tip).
  { rewrite get_fingertip_index. apply getitem_in_range. lia. }
  destruct Htip as [tip Htip].
  pose proof (after_smoothing_geometry self tip) as G.
  assert (Ha : in_order (after_smoothing self tip)).
  { apply (@in_order_geometry self _ Ho G).
    rewrite after_smoothing_scroll_reference. exact Hs. }
  pose proof Ha as (Hr' & Hw' & Hh' & Hs').
  assert (Hp : exists x y, pointer self hd = Ok (x, y)).
  { rewrite (@pointer_unfold self hd tip Htip). apply map_to_screen_total; assumption. }
  destruct Hp as (x & y & Hp).
  destruct (CursorMath.is_in_failsafe_region x y) eqn:Hf.
  { rewrite (@process_failsafe self hd t tip x y Htip Hp Hf). split; [eexists; reflexivity|exact Ha]. }
  destruct (@is_fist_total hd Hpow W) as [[|] Hfist].
  - rewrite (@process_scroll self hd t tip x y Htip Hp Hf Hfist).
    destruct (@scroll_outcome_total hd t (after_smoothing self tip) W Hs') as [D S].
    split; [exact D|].
    apply (@in_order_geometry (after_smoothing self tip) _ Ha); [|exact S].
    apply scroll_outcome_geometry.
  - rewrite (@process_active self hd t tip x y Htip Hp Hf Hfist).
    split; [rewrite (@active_outcome_total hd t x y _ W); eexists; reflexivity|].
    apply (@in_order_geometry (after_smoothing self tip) _ Ha);
      rewrite active_outcome_cursor_math; [apply same_geometry_refl|exact Hs'].
Qed.

Lemma run_frame_total hand_data t self :
  pow_in_range -> in_order self -> well_formed_frame (hand_data, t) ->
  (exists step, returned (run_frame hand_data t self) = Ok step) /\
  in_order (state_of (run_frame hand_data t self)).
Proof.
  intros Hpow Ho W. destruct hand_data as [hd|]; cbn [well_formed_frame fst] in W.
  - destruct (@process_total self hd t Hpow Ho W) as [[r R] O].
    destruct (run_frame_hand_keeps self hd t) as (E1 & _). cbv zeta in E1.
    split.
    + rewrite run_frame_hand. cbv zeta. rewrite R.
      destruct (r =? EXIT_CODE); eexists; reflexivity.
    + apply (@in_order_geometry _ _ O); rewrite E1;
        [apply same_geometry_refl|destruct O as (_ & _ & _ & S); exact S].
  - rewrite run_frame_no_hand. split; [eexists; reflexivity|].
    unfold state_of. cbn [fst snd].
    destruct (clear_indicator_keeps t (idle self)) as (E1 & _).
    apply (@in_order_geometry self _ Ho); rewrite E1.
    + repeat split.
    + destruct Ho as (_ & _ & _ & S). exact S.
Qed.

Lemma run_total frames :
  pow_in_range ->
  forall self,
    in_order self -> Forall well_formed_frame frames ->
    returned (run frames self) = Ok tt /\ in_order (state_of (run frames self)).
Proof.
  intros Hpow.
  induction frames as [|[hand_data t] frames IH]; intros self Ho W.
  - split; [reflexivity|exact Ho].
  - inversion W as [|f fs Wf Wfs]; subst.
    destruct (@run_frame_total hand_data t self Hpow Ho Wf) as [[step R] O].
    rewrite run_cons. cbv zeta. rewrite R.
    destruct step as [d|].
    + destruct (IH _ O Wfs) as [A B]. split; assumption.
    + split; [reflexivity|exact O].
Qed.

(** X19.  Well-formed input never makes the gesture core raise.  On a
    platform whose [pow] reports no error where the square is in range, a run
    over frames that each have no hand or a sample of at least 21 points with
    finite coordinates below 2^480 in absolute value returns normally, at the
    end of the frames or at a fail-safe exit, and leaves the object in order:
    this from every object that has the configured region, a screen of sides
    in (0, 2^63) and a scroll reference that is unset or below 2^480 in
    absolute value, and so from every object as [__init__] makes it for such
    a screen.  No lookup, conversion, power, root or division of
    [_process_gestures] fails on the way, whatever the times.  A turn is
    [run_frame]: the arbiter, the reset on a lost hand and the clearing of
    the click mark; the camera, the frame-rate meter, the overlay and the
    window are not part of it. *)
Theorem well_formed_frames_never_raise frames :
  pow_in_range ->
  Forall well_formed_frame frames ->
  (forall self,
     config_region (cursor_math self) ->
     0 < screen_width (cursor_math self) < 2 ^ 63 ->
     0 < screen_height (cursor_math self) < 2 ^ 63 ->
     (forall reference_y,
        _prev_scroll_y (cursor_math self) = Some reference_y -> fmag reference_y 480) ->
     returned (run frames self) = Ok tt /\ in_order (state_of (run frames self))) /\
  (forall width height,
     0 < width < 2 ^ 63 -> 0 < height < 2 ^ 63 ->
     returned (run frames (KineticOS.__init__ width height)) = Ok tt).
Proof.
  intros Hpow W. split.
  - intros self Hr Hw Hh Hs. apply (@run_total frames Hpow self); [|exact W].
    split; [exact Hr|split; [exact Hw|split; [exact Hh|exact Hs]]].
  - intros w h Hw Hh.
    destruct (@run_total frames Hpow (KineticOS.__init__ w h)) as [R _];
      [|exact W|exact R].
    split; [repeat split|split; [exact Hw|split; [exact Hh|]]].
    intros r H. discriminate.
Qed.

End Properties.

(** * Worked examples

    The theorems applied to sample frames, and the samples on which the
    specification and the code part, evaluated on the reference platform. *)

Section Examples.
#[local] Existing Instance reference_platform.

(** A second call compounds on the smoothed value of the first. *)
Lemma smooth_position_spec_witness :
  let self := CursorMath.__init__ 1920 1080 in
  let s1 := state_of (CursorMath.smooth_position 0.5 0.5 self) in
  CursorMath.smooth_position 0.5 0.5 self =
    (Ok (0.5, 0.5)%float, CursorMath.set_prev (Some 0.5%float) (Some 0.5%float) self, [])
  /\ CursorMath.smooth_position 0.8 0.2 s1 =
       (Ok ((0.5 + (0.8 - 0.5) / smoothing_k)%float, (0.5 + (0.2 - 0.5) / smoothing_k)%float),
        CursorMath.set_prev (Some (0.5 + (0.8 - 0.5) / smoothing_k)%float)
                            (Some (0.5 + (0.2 - 0.5) / smoothing_k)%float) s1, []).
Proof.
  cbv zeta. split.
  - apply (smooth_position_spec (CursorMath.__init__ 1920 1080) 0.5 0.5).
    left. reflexivity.
  - apply (smooth_position_spec
             (state_of (CursorMath.smooth_position 0.5 0.5 (CursorMath.__init__ 1920 1080)))
             0.8 0.2); reflexivity.
Defined.

(** Entering with no reference, then a step of 0.03 down and one of 0.013
    up: the second delta is measured from the first frame, the third from the
    second, and both are truncated toward zero. *)
Lemma calculate_scroll_delta_spec_witness :
  let s0 := CursorMath.__init__ 1920 1080 in
  let s1 := state_of (CursorMath.calculate_scroll_delta 0.5 s0) in
  let s2 := state_of (CursorMath.calculate_scroll_delta 0.53 s1) in
  CursorMath.calculate_scroll_delta 0.5 s0 =
    (Ok 0, CursorMath.set_prev_scroll_y (Some 0.5%float) s0, []) /\
  CursorMath.calculate_scroll_delta 0.53 s1 =
    (PyFloat.to_int ((0.53 - 0.5) * scroll_gain * 100)%float,
     CursorMath.set_prev_scroll_y (Some 0.53%float) s1, []) /\
  PyFloat.to_int ((0.53 - 0.5) * scroll_gain * 100)%float = Ok 30 /\
  returned (CursorMath.calculate_scroll_delta 0.517 s2) = Ok (-13).
Proof.
  cbv zeta. split; [|split; [|split]].
  - apply (calculate_scroll_delta_spec (CursorMath.__init__ 1920 1080) 0.5).
    reflexivity.
  - apply (calculate_scroll_delta_spec
             (state_of (CursorMath.calculate_scroll_delta 0.5
                          (CursorMath.__init__ 1920 1080))) 0.53).
    reflexivity.
  - vm_compute. reflexivity.
  - vm_compute. reflexivity.
Defined.

Example sample_facts :
  _check_left_click Samples.pinch = Ok true /\
  _check_left_click Samples.no_pinch = Ok false /\
  _check_right_click Samples.pinch = Ok false /\
  _check_right_click Samples.right_pinch = Ok true /\
  HandEngine.is_fist Samples.pinch = Ok false /\
  HandEngine.is_fist Samples.pointing = Ok false /\
  HandEngine.is_fist Samples.corner_fist = Ok true /\
  HandEngine.is_fist (Samples.centre_fist 0.9) = Ok true /\
  pointer Samples.start Samples.pinch = Ok (896, 539) /\
  pointer Samples.start Samples.corner = Ok (0, 0) /\
  pointer Samples.start Samples.corner_fist = Ok (0, 0) /\
  pointer Samples.start (Samples.centre_fist 0.9) = Ok (960, 539).
Proof. vm_compute. repeat split. Qed.

Lemma failsafe_precedence_witness :
  let o := _process_gestures Samples.corner 1 Samples.start in
  returned o = Ok EXIT_CODE /\
  emitted o = [] /\
  (exists tip, HandEngine.get_fingertip Samples.corner "index" = Ok tip /\
               state_of o = after_smoothing Samples.start tip) /\
  run_frame (Some Samples.corner) 1 Samples.start = (Ok Break, state_of o, []) /\
  forall rest, run ((Some Samples.corner, 1%float) :: rest) Samples.start
               = (Ok tt, state_of o, []).
Proof.
  apply (@failsafe_precedence _ Samples.start Samples.corner 1 0 0).
  - vm_compute. reflexivity.
  - reflexivity.
Defined.

(** A pinch is held while the hand closes into a fist: the edge flag set by
    the pinch frame is still set after the fist frame. *)
Lemma scroll_freezes_click_edges_witness :
  let s1 := state_of (run_frame (Some Samples.pinch) 1 Samples.start) in
  let o := _process_gestures (Samples.centre_fist 0.9) 2 s1 in
  is_left_clicking s1 = true /\
  (is_left_clicking (state_of o) = is_left_clicking s1 /\
   is_right_clicking (state_of o) = is_right_clicking s1) /\
  (is_left_clicking (state_of (run_frame (Some (Samples.centre_fist 0.9)) 2 s1))
   = is_left_clicking s1 /\
   is_right_clicking (state_of (run_frame (Some (Samples.centre_fist 0.9)) 2 s1))
   = is_right_clicking s1) /\
  (forall x y, pointer s1 (Samples.centre_fist 0.9) = Ok (x, y) ->
               CursorMath.is_in_failsafe_region x y = false ->
               current_mode (state_of o) = config.MODE_SCROLL).
Proof.
  cbv zeta. split; [vm_compute; reflexivity|].
  apply (@scroll_freezes_click_edges _
           (state_of (run_frame (Some Samples.pinch) 1 Samples.start))
           (Samples.centre_fist 0.9) 2).
  vm_compute. reflexivity.
Defined.

(** The fist in the corner exits; a fist in the middle of the frame scrolls,
    and its filter state has moved all the same. *)
Lemma failsafe_before_fist_smoothing_first_witness :
  (let o := _process_gestures Samples.corner_fist 1 Samples.start in
   returned o = Ok EXIT_CODE /\ emitted o = [] /\
   current_mode (state_of o) = current_mode Samples.start /\
   is_scrolling (state_of o) = is_scrolling Samples.start /\
   _prev_scroll_y (cursor_math (state_of o))
   = _prev_scroll_y (cursor_math Samples.start) /\
   returned (run_frame (Some Samples.corner_fist) 1 Samples.start) = Ok Break) /\
  (let o := _process_gestures (Samples.centre_fist 0.9) 1 Samples.start in
   current_mode (state_of o) = config.MODE_SCROLL /\
   exists p, Ok (0.5, 0.5)%float = Ok p /\
             _prev_x (cursor_math (state_of o)) = Some (fst p) /\
             _prev_y (cursor_math (state_of o)) = Some (snd p) /\
             pointer Samples.start (Samples.centre_fist 0.9)
             = CursorMath.map_to_screen
                 (state_of (CursorMath.smooth_position 0.5 0.5
                              (cursor_math Samples.start))) (fst p) (snd p)).
Proof.
  destruct failsafe_before_fist_smoothing_first as (H1 & _ & H3). split.
  - apply (H1 Samples.start Samples.corner_fist 1%float 0 0).
    + vm_compute. reflexivity.
    + reflexivity.
    + vm_compute. reflexivity.
  - cbv zeta. split; [vm_compute; reflexivity|].
    apply (H3 Samples.start (Samples.centre_fist 0.9) 1%float (Samples.P 0.5 0.5)).
    vm_compute. reflexivity.
Defined.

Lemma hand_loss_reset_witness :
  let s1 := state_of (run_frame (Some Samples.pinch) 1 Samples.start) in
  let s2 := state_of (run_frame None 2 s1) in
  (is_left_clicking s1 = true /\ _prev_x (cursor_math s1) = Some 0.52%float) /\
  (exists px py,
     _prev_x (cursor_math (state_of (run_frame (Some Samples.pinch) 1 Samples.start)))
     = Some px /\
     _prev_y (cursor_math (state_of (run_frame (Some Samples.pinch) 1 Samples.start)))
     = Some py) /\
  (let o := run_frame (Some (Samples.centre_fist 0.9)) 3 s2 in
   returned o = Ok (Continue 0) /\
   emitted o = [] /\
   _prev_scroll_y (cursor_math (state_of o)) = Some (lm_y (Samples.P 0.5 0.9)) /\
   is_scrolling (state_of o) = true).
Proof.
  cbv zeta. split; [vm_compute; split; reflexivity|]. split.
  - destruct (hand_loss_reset Samples.start) as (_ & H & _).
    apply (H Samples.pinch 1%float (Samples.P 0.52 0.5)). vm_compute. reflexivity.
  - destruct (hand_loss_reset
               (state_of (run_frame None 2
                  (state_of (run_frame (Some Samples.pinch) 1 Samples.start)))))
      as (_ & _ & H).
    apply (H (Samples.centre_fist 0.9) 3%float 960 539 (Samples.P 0.5 0.9));
      vm_compute; reflexivity.
Defined.

(** The scroll reference outlives the loss of the hand: after a fist frame
    with the wrist at 0.9 and a frame with no hand, it is still 0.9, while
    the filter state is unset.  And it is renewed with the hand in view: after
    a fist frame, an open-hand frame and a second fist frame with the wrist at
    0.5, the delta is 0, not the 400 lines between 0.9 and 0.5. *)
Lemma hand_loss_keeps_scroll_reference :
  let s1 := state_of (run_frame (Some (Samples.centre_fist 0.9)) 1 Samples.start) in
  let s2 := state_of (run_frame None 2 s1) in
  let s2' := state_of (run_frame (Some Samples.no_pinch) 2 s1) in
  let o3 := run_frame (Some (Samples.centre_fist 0.5)) 3 s2' in
  _prev_scroll_y (cursor_math s1) = Some 0.9%float /\
  _prev_scroll_y (cursor_math s2) = Some 0.9%float /\
  _prev_x (cursor_math s2) = None /\
  _prev_scroll_y (cursor_math s2') = Some 0.9%float /\
  returned o3 = Ok (Continue 0) /\
  _prev_scroll_y (cursor_math (state_of o3)) = Some 0.5%float /\
  (exists px, _prev_x (cursor_math (state_of o3)) = Some px) /\
  scroll_delta_of 0.9 0.5 = Ok (-400).
Proof. vm_compute. repeat split. eexists. reflexivity. Qed.

Lemma sample_shape_unchecked_witness :
  _process_gestures (truncated 8 Samples.pinch) 1 Samples.start
  = (Raise IndexError, Samples.start, []) /\
  (exists tip px py,
     HandEngine.get_fingertip (truncated 12 Samples.pinch) "index" = Ok tip /\
     _prev_x (cursor_math (state_of
        (_process_gestures (truncated 12 Samples.pinch) 1 Samples.start))) = Some px /\
     _prev_y (cursor_math (state_of
        (_process_gestures (truncated 12 Samples.pinch) 1 Samples.start))) = Some py) /\
  (forall extra,
     _process_gestures (extended Samples.pinch extra) 1 Samples.start
     = _process_gestures Samples.pinch 1 Samples.start).
Proof.
  split; [|split].
  - destruct (sample_shape_unchecked Samples.start (truncated 8 Samples.pinch) 1)
      as (H & _ & _).
    apply H. apply Nat.ltb_lt. reflexivity.
  - destruct (sample_shape_unchecked Samples.start (truncated 12 Samples.pinch) 1)
      as (_ & H & _).
    apply H. apply Nat.leb_le. reflexivity.
  - destruct (sample_shape_unchecked Samples.start Samples.pinch 1) as (_ & _ & H).
    apply H. apply Nat.leb_le. reflexivity.
Defined.

(** Malformed samples that are not refused.  With 22 points the frame is
    processed like the 21-point one, click included.  With 13 points (no ring
    or little finger) an open hand is processed without any error.  With 12
    points the cursor is moved and the left click sent before the lookup of
    the middle fingertip raises [IndexError], and the state keeps the
    changes. *)
Lemma malformed_sample_not_refused :
  let hd22 := extended Samples.pinch [Samples.P 0 0] in
  let hd13 := truncated 13 Samples.no_pinch in
  let hd12 := truncated 12 Samples.pinch in
  (List.length (landmarks hd22) = 22%nat /\
   returned (_process_gestures hd22 1 Samples.start) = Ok 0 /\
   emitted (_process_gestures hd22 1 Samples.start) = [moveTo 896 539; click "left"]) /\
  (List.length (landmarks hd13) = 13%nat /\
   returned (_process_gestures hd13 1 Samples.start) = Ok 0 /\
   emitted (_process_gestures hd13 1 Samples.start) = [moveTo 896 539]) /\
  (List.length (landmarks hd12) = 12%nat /\
   returned (_process_gestures hd12 1 Samples.start) = Raise IndexError /\
   emitted (_process_gestures hd12 1 Samples.start) = [moveTo 896 539; click "left"] /\
   is_left_clicking (state_of (_process_gestures hd12 1 Samples.start)) = true /\
   current_mode (state_of (_process_gestures hd12 1 Samples.start)) = config.MODE_ACTIVE).
Proof. vm_compute. repeat split. Qed.

(** A fist, and the same hand with the index finger up: the other three
    fingers are still curled and [is_fist] is false.  On the reference
    platform the squares are the products of binary64. *)
Lemma is_fist_spec_witness :
  HandEngine.is_fist (Samples.centre_fist 0.9) = Ok (true && true && true && true) /\
  HandEngine.is_fist Samples.pointing = Ok (false && true && true && true) /\
  HandEngine.is_finger_curled Samples.pointing "index"
  = Ok (curled PyFloat.square (joint Samples.pointing 8) (joint Samples.pointing 6)
          (joint Samples.pointing 5)) /\
  HandEngine.is_finger_curled Samples.pointing "middle"
  = Ok (curled PyFloat.square (joint Samples.pointing 12) (joint Samples.pointing 10)
          (joint Samples.pointing 9)) /\
  curled PyFloat.square (joint Samples.pointing 8) (joint Samples.pointing 6)
    (joint Samples.pointing 5) = false /\
  curled PyFloat.square (joint Samples.pointing 12) (joint Samples.pointing 10)
    (joint Samples.pointing 9) = true /\
  planar_distance (fun x => x * x)%float (joint Samples.pointing 8)
    (joint Samples.pointing 5) = 0.30000000000000004%float /\
  planar_distance (fun x => x * x)%float (joint Samples.pointing 6)
    (joint Samples.pointing 5) = 0.10000000000000009%float /\
  PyFloat.square 0.3 = (0.3 * 0.3)%float /\
  PyFloat.pow2 0.3 = Ok (0.3 * 0.3)%float.
Proof.
  destruct (is_fist_spec (Samples.centre_fist 0.9)) as (_ & F & _).
  destruct (is_fist_spec Samples.pointing) as (_ & G & J & X).
  split; [apply F; vm_compute; reflexivity|].
  split; [apply G; vm_compute; reflexivity|].
  split.
  { destruct (J eq_refl "index"%string 8 6 5) as [A _]; [cbn; auto|].
    apply A. vm_compute. reflexivity. }
  split.
  { destruct (J eq_refl "middle"%string 12 10 9) as [A _]; [cbn; auto|].
    apply A. vm_compute. reflexivity. }
  split; [vm_compute; reflexivity|].
  split; [vm_compute; reflexivity|].
  split; [vm_compute; reflexivity|].
  split; [vm_compute; reflexivity|].
  destruct (X (fun x _ => eq_refl) 0.3%float) as [S W].
  split; [exact S|]. rewrite W. vm_compute. reflexivity.
Defined.

(** A pinch, held, released and made again, at 1.0, 1.4, 1.5, 1.6 and 2.0 s:
    two left clicks, at the second and the last frame.  A pinch held over
    three frames 50 ms apart: one click.  A pinch made again 200 ms after the
    first: no second click.  The same first run with the thumb on the middle
    finger: two right clicks. *)
Lemma click_edge_triggering_witness :
  fires_in LeftClick
    [(Samples.no_pinch, 1.0%float); (Samples.pinch, 1.4%float);
     (Samples.pinch, 1.5%float); (Samples.no_pinch, 1.6%float);
     (Samples.pinch, 2.0%float)] Samples.start
  = [false; true; false; false; true] /\
  fires_in LeftClick
    [(Samples.pinch, 1.0%float); (Samples.pinch, 1.05%float);
     (Samples.pinch, 1.1%float)] Samples.start
  = [fires true false 1.0 0; false; false] /\
  fires_in LeftClick
    [(Samples.pinch, 1.0%float); (Samples.no_pinch, 1.1%float);
     (Samples.pinch, 1.2%float)] Samples.start
  = [true; false; false] /\
  fires_in RightClick
    [(Samples.no_pinch, 1.0%float); (Samples.right_pinch, 1.4%float);
     (Samples.right_pinch, 1.5%float); (Samples.pinch, 1.6%float);
     (Samples.right_pinch, 2.0%float)] Samples.start
  = [false; true; false; false; true] /\
  (let o := run_frame (Some Samples.pinch) 1 Samples.start in
   (fired LeftClick (emitted o) = true <->
      true = true /\ edge_of LeftClick Samples.start = false /\
      (config.CLICK_DEBOUNCE_TIME <? 1 - last_fire_of LeftClick Samples.start)%float
      = true) /\
   edge_of LeftClick (state_of o) = true /\
   last_fire_of LeftClick (state_of o)
   = (if fired LeftClick (emitted o) then 1%float
      else last_fire_of LeftClick Samples.start)).
Proof.
  split; [|split; [|split; [|split]]].
  - destruct (click_edge_triggering LeftClick) as (_ & _ & H & _).
    apply H; [show_active|vm_compute; reflexivity|vm_compute; reflexivity].
  - destruct (click_edge_triggering LeftClick) as (_ & _ & _ & H & _).
    apply (H Samples.start). show_active.
  - destruct (click_edge_triggering LeftClick) as (_ & _ & _ & _ & H).
    apply H; [show_active|reflexivity|vm_compute; reflexivity|vm_compute; reflexivity].
  - destruct (click_edge_triggering RightClick) as (_ & _ & H & _).
    apply H; [show_active|vm_compute; reflexivity|vm_compute; reflexivity].
  - destruct (click_edge_triggering LeftClick) as (H & _).
    apply (H Samples.start Samples.pinch 1%float true).
    + unfold active_frame. show_active.
    + vm_compute. reflexivity.
Defined.


Lemma click_fires_spaced_witness :
  let frames := [(Some Samples.pinch, 1%float); (Some Samples.pinch, 1.1%float);
                 (Some Samples.no_pinch, 1.2%float); (Some Samples.pinch, 1.25%float);
                 (None, 1.4%float); (Some Samples.pinch, 1.5%float)] in
  times_of (fired LeftClick) frames Samples.start = [1; 1.5]%float /\
  spaced config.CLICK_DEBOUNCE_TIME (last_fire_of LeftClick Samples.start)
    (times_of (fired LeftClick) frames Samples.start).
Proof.
  cbv zeta. split; [vm_compute; reflexivity|].
  destruct (click_fires_spaced LeftClick) as [_ H]. apply H.
Defined.

Lemma scroll_ticks_spaced_witness :
  let frames := [(Some (Samples.centre_fist 0.9), 1%float);
                 (Some (Samples.centre_fist 0.8), 1.1%float);
                 (Some (Samples.centre_fist 0.7), 1.12%float);
                 (Some (Samples.centre_fist 0.5), 1.2%float)] in
  times_of scrolled frames Samples.start = [1.1; 1.2]%float /\
  spaced config.SCROLL_DEBOUNCE_TIME (last_scroll_time Samples.start)
    (times_of scrolled frames Samples.start).
Proof.
  cbv zeta. split; [vm_compute; reflexivity|].
  destruct scroll_ticks_spaced as [_ H]. apply H.
Defined.

Lemma mode_tracks_scrolling_witness :
  mode_consistent
    (state_of (run [(Some Samples.pinch, 1%float); (Some (Samples.centre_fist 0.9), 2%float);
                    (None, 3%float)] Samples.start)).
Proof.
  destruct mode_tracks_scrolling as (H0 & _ & H).
  apply H. apply H0.
Defined.

Lemma scroll_delta_taken_for_exit_witness :
  let s1 := state_of (run_frame (Some (Samples.centre_fist 1)) 1 Samples.start) in
  let o := run_frame (Some (Samples.centre_fist 0.0005)) 2 s1 in
  pointer s1 (Samples.centre_fist 0.0005) = Ok (960, 539) /\
  returned o = Ok Break /\
  emitted o = [scroll 999].
Proof.
  cbv zeta.
  destruct (@scroll_delta_taken_for_exit _
              (state_of (run_frame (Some (Samples.centre_fist 1)) 1 Samples.start))
              (Samples.centre_fist 0.0005) 2 960 539 (Samples.P 0.5 0.0005) 1)
    as (R & O & _); try (vm_compute; reflexivity).
  split; [vm_compute; reflexivity|]. split; [exact R|]. rewrite O. vm_compute. reflexivity.
Defined.

Lemma scroll_motion_dropped_in_debounce_witness :
  let s1 := state_of (run_frame (Some (Samples.centre_fist 0.9)) 100 Samples.start) in
  let s2 := state_of (run_frame (Some (Samples.centre_fist 0.8)) 101 s1) in
  let o := run_frame (Some (Samples.centre_fist 0.5)) 101.02 s2 in
  emitted (run_frame (Some (Samples.centre_fist 0.8)) 101 s1) = [scroll 99] /\
  returned o = Ok (Continue (-300)) /\
  emitted o = [] /\
  _prev_scroll_y (cursor_math (state_of o)) = Some 0.5%float.
Proof.
  cbv zeta.
  destruct (@scroll_motion_dropped_in_debounce _
              (state_of (run_frame (Some (Samples.centre_fist 0.8)) 101
                 (state_of (run_frame (Some (Samples.centre_fist 0.9)) 100 Samples.start))))
              (Samples.centre_fist 0.5) 101.02 960 539 (Samples.P 0.5 0.5) 0.8 (-300))
    as (R & O & _ & P & _); try (vm_compute; reflexivity).
  { discriminate. }
  split; [vm_compute; reflexivity|]. repeat split; assumption.
Defined.

Lemma both_clicks_in_one_frame_witness :
  let hd := Samples.open_hand (Samples.P 0.535 0.5) (Samples.P 0.52 0.5) in
  let o := _process_gestures hd 1 Samples.start in
  exists x y,
    pointer Samples.start hd = Ok (x, y) /\
    returned o = Ok 0 /\
    emitted o = [moveTo x y; click "left"; click "right"] /\
    emitted (run_frame (Some hd) 1 Samples.start) = emitted o /\
    click_indicator (state_of o) = Some ("RIGHT"%string, (x, y)) /\
    click_indicator_time (state_of o) = 1%float /\
    last_left_click_time (state_of o) = 1%float /\
    last_right_click_time (state_of o) = 1%float /\
    is_left_clicking (state_of o) = true /\
    is_right_clicking (state_of o) = true.
Proof.
  cbv zeta. apply both_clicks_in_one_frame; try (vm_compute; reflexivity).
  show_active.
Defined.

Lemma click_edge_memory_witness :
  let s1 := state_of (run_frame (Some Samples.pinch) 1 Samples.start) in
  let fists := [(Samples.centre_fist 0.9, 2%float); (Samples.centre_fist 0.8, 3%float)] in
  edge_of LeftClick s1 = true /\
  fired LeftClick (emitted (run_frame (Some Samples.pinch) 4 (after_frames fists s1)))
  = false /\
  fired LeftClick
    (emitted (run_frame (Some Samples.pinch) 4 (state_of (run_frame None 2 s1))))
  = true.
Proof.
  cbv zeta. destruct (click_edge_memory LeftClick) as [H1 H2].
  split; [vm_compute; reflexivity|]. split.
  - apply H1.
    + repeat constructor; vm_compute; reflexivity.
    + vm_compute. reflexivity.
  - apply H2; [show_active|vm_compute; reflexivity|vm_compute; reflexivity].
Defined.

Lemma moves_stay_on_screen_witness :
  Forall (move_on_screen 1920 1080)
    (emitted (run [(Some Samples.pinch, 1%float); (Some Samples.no_pinch, 2%float);
                   (Some Samples.corner, 3%float); (Some Samples.pinch, 4%float)]
                Samples.start)).
Proof.
  apply (@moves_stay_on_screen _
           [(Some Samples.pinch, 1%float); (Some Samples.no_pinch, 2%float);
            (Some Samples.corner, 3%float); (Some Samples.pinch, 4%float)]
           Samples.start); vm_compute; discriminate.
Defined.

Lemma pinch_tests_total_witness :
  _check_left_click Samples.pinch = Ok true /\
  _check_right_click Samples.pinch = Ok false /\
  _check_left_click (truncated 8 Samples.pinch) = Raise IndexError /\
  _check_right_click (truncated 12 Samples.pinch) = Raise IndexError /\
  CursorMath.is_click (Samples.P nan 0.5) (Samples.P 0.5 0.5) = Ok false.
Proof.
  destruct pinch_tests_total as (_ & N & H).
  destruct (H Samples.pinch) as (L & _ & R & _).
  destruct (H (truncated 8 Samples.pinch)) as (_ & L8 & _).
  destruct (H (truncated 12 Samples.pinch)) as (_ & _ & _ & R12).
  split; [rewrite L by (cbn; lia); vm_compute; reflexivity|].
  split; [rewrite R by (cbn; lia); vm_compute; reflexivity|].
  split; [apply L8; cbn; lia|].
  split; [apply R12; cbn; lia|].
  apply N. left. reflexivity.
Defined.

Lemma failsafe_corner_exits_witness :
  CursorMath.map_to_screen (CursorMath.__init__ 1920 1080) nan 0.1 = Ok (0, 0) /\
  run_frame (Some Samples.corner) 1 Samples.start
  = (Ok Break, after_smoothing Samples.start (Samples.P 0.8 0.2), []).
Proof.
  destruct failsafe_corner_exits as [H1 H2]. split.
  - apply H1; try (vm_compute; reflexivity); try (repeat split; reflexivity);
      cbn; lia.
  - apply H2; try (vm_compute; reflexivity); try (repeat split; reflexivity);
      cbn; lia.
Defined.

(** A NaN y is not at the top edge: the clamp sends it to the bottom one. *)
Lemma nan_y_maps_to_bottom :
  CursorMath.map_to_screen (CursorMath.__init__ 1920 1080) 0.9 nan = Ok (0, 1079).
Proof. vm_compute. reflexivity. Qed.

Lemma still_hand_still_pointer_witness :
  let s1 := state_of (run_frame (Some Samples.no_pinch) 1 Samples.start) in
  pointer s1 Samples.no_pinch
  = CursorMath.map_to_screen (cursor_math s1) 0.52 0.5 /\
  _prev_x (cursor_math (state_of (run_frame (Some Samples.no_pinch) 2 s1))) = Some 0.52%float.
Proof.
  cbv zeta. destruct still_hand_still_pointer as [_ H].
  destruct (H (state_of (run_frame (Some Samples.no_pinch) 1 Samples.start))
              Samples.no_pinch 2%float 0.52%float 0.5%float 0%float)
    as (A & _ & B & _); try (vm_compute; reflexivity); try (vm_compute; exact I).
  split; assumption.
Defined.

Lemma nan_stays_in_filter_witness :
  let hd := Samples.open_hand (Samples.P 0.3 0.6) (Samples.P nan 0.5) in
  let s1 := state_of (run_frame (Some hd) 1 Samples.start) in
  let s3 := after_frames [(Samples.no_pinch, 2%float); (Samples.pinch, 3%float)] s1 in
  poisoned (cursor_math s1) /\
  poisoned (cursor_math s3) /\
  pointer s3 Samples.no_pinch = Ok (0, 539).
Proof.
  cbv zeta. destruct nan_stays_in_filter as (H1 & H2 & H3 & _).
  assert (P : poisoned
                (cursor_math
                   (state_of (run_frame
                      (Some (Samples.open_hand (Samples.P 0.3 0.6) (Samples.P nan 0.5)))
                      1 Samples.start)))).
  { exact (H1 (CursorMath.__init__ 1920 1080) nan 0.5%float eq_refl). }
  split; [exact P|]. split; [apply H2; exact P|].
  assert (E : exists y, pointer
                (after_frames [(Samples.no_pinch, 2%float); (Samples.pinch, 3%float)]
                   (state_of (run_frame
                      (Some (Samples.open_hand (Samples.P 0.3 0.6) (Samples.P nan 0.5)))
                      1 Samples.start)))
                Samples.no_pinch = Ok (0, y) /\ y = 539).
  { eexists. split; vm_compute; reflexivity. }
  destruct E as (y & E & ->). exact E.
Defined.

Lemma finger_names_witness :
  HandEngine.get_fingertip Samples.pinch "Wrist" = Raise KeyError /\
  lower "INDEX" = "index"%string /\
  HandEngine.get_fingertip Samples.pinch "INDEX" = Ok (Samples.P 0.52 0.5) /\
  HandEngine.is_finger_curled Samples.pinch "Thumb" = Raise KeyError.
Proof.
  destruct (finger_names Samples.pinch "Wrist") as (_ & [_ A] & _).
  destruct (finger_names Samples.pinch "INDEX") as (B & _).
  destruct (finger_names Samples.pinch "Thumb") as (_ & _ & [_ C] & _).
  destruct (B eq_refl) as (B1 & B2 & _).
  split; [apply A; vm_compute; intuition discriminate|].
  split; [rewrite B1; reflexivity|].
  split; [rewrite <- B2; reflexivity|].
  apply C. vm_compute. intuition discriminate.
Defined.

Lemma click_mark_is_last_click_witness :
  let s := state_of (run [(Some Samples.pinch, 1%float); (Some Samples.right_pinch, 1.1%float)]
                       Samples.start) in
  indicator_consistent s /\
  click_indicator s = Some ("RIGHT"%string, (896, 539)) /\
  click_indicator_time s = 1.1%float.
Proof.
  cbv zeta. destruct click_mark_is_last_click as (H0 & _ & H).
  split; [apply H; apply H0|]. split; vm_compute; reflexivity.
Defined.

Lemma tick_total_witness :
  let s := after_ticks sum_left [1; 1.5; 2]%float (FPSCounter.__init__ 30) in
  _times s = [0.5; 0.5]%float /\
  FPSCounter.tick sum_left 2.5 s
  = (Ok 2%float,
     FPSCounter.set_last_time (Some 2.5%float)
       (FPSCounter.set_times [0.5; 0.5; 0.5]%float s), []).
Proof.
  cbv zeta. split; [vm_compute; reflexivity|].
  destruct (@tick_total sum_left
              (after_ticks sum_left [1; 1.5; 2]%float (FPSCounter.__init__ 30)) 2.5%float)
    as (E & _).
  { vm_compute. reflexivity. }
  rewrite E. vm_compute. reflexivity.
Defined.

Lemma window_bounded_witness :
  let s := after_ticks sum_left [1; 1.5; 1.5; 2; 3]%float (FPSCounter.__init__ 2) in
  window_ok s /\ _times s = [0.5; 1]%float.
Proof.
  cbv zeta. destruct (window_bounded sum_left) as (H0 & _ & H & _).
  split; [apply H; apply H0|vm_compute; reflexivity].
Defined.

Lemma reference_pow_in_range : pow_in_range.
Proof.
  intros x M _. cbn [libm_pow2 reference_platform].
  apply (@fmag_not_infinity _ (482 + 482 + 1)).
  apply fmag_mul; try assumption; lia.
Qed.

Lemma well_formed_frames_never_raise_witness :
  let frames := [(Some Samples.pinch, 1%float); (Some (Samples.centre_fist 0.9), 2%float);
                 (Some (Samples.centre_fist 0.7), 3%float); (None, 4%float);
                 (Some Samples.no_pinch, 5%float)] in
  returned (run frames Samples.start) = Ok tt /\
  returned (run frames (KineticOS.__init__ 1920 1080)) = Ok tt.
Proof.
  cbv zeta.
  destruct (@well_formed_frames_never_raise _
              [(Some Samples.pinch, 1%float); (Some (Samples.centre_fist 0.9), 2%float);
               (Some (Samples.centre_fist 0.7), 3%float); (None, 4%float);
               (Some Samples.no_pinch, 5%float)] reference_pow_in_range) as [H1 H2].
  - repeat constructor; vm_compute; try exact I; intros H; discriminate.
  - split.
    + apply H1; try (repeat split; reflexivity). intros r H. discriminate.
    + apply H2; split; reflexivity.
Defined.

End Examples.
